(** * PyForgee build orchestration core

    A shallow embedding of the core of PyForgee ([src/core]) and the
    properties its specification states about it.

    - [Py]          : the fragment of Python the code relies on (exceptions,
                      truthiness, [str] helpers, [os.path] and [pathlib]).
    - [Host]        : what the host provides (regular files, child processes).
    - [Compression] : [compression_handler.py].
    - [Compiler]    : [compiler_engine.py].
    - [Protection]  : [protection_manager.py].
    - [Analyzer]    : [dependency_analyzer.py].
    - [Scenario]    : the hosts and jobs the properties are evaluated on.

    Conventions.  A Python [str] is a Rocq [string] holding its UTF-8 bytes; a
    Python [int] is a [Z]; a [float] that the code obtains by dividing two
    integers or reads from the clock is the rational [Q] it rounds; a [dict]
    whose iteration order is observed is an association list in insertion
    order, any other [dict] or [set] is a [gmap] or [gset].  An [async def]
    is modelled as the sequential function it is when awaited on its own. *)

From Stdlib Require Import ZArith QArith List String Ascii Strings.Byte Bool Lia.
From Stdlib Require Import DecimalString.
From stdpp Require Import gmap strings list fin_maps.

Local Open Scope string_scope.
Local Open Scope Z_scope.

(** ** Python *)

Module Py.

(** An exception: its class and what [str(e)] gives. *)
Record exn := Exn { exn_class : string; exn_msg : string }.

(** What a call does: it returns a value or an exception leaves it. *)
Inductive outcome (A : Type) : Type :=
| Ret (a : A)
| Raise (e : exn).
Arguments Ret {A} a.
Arguments Raise {A} e.

Definition bind {A B} (m : outcome A) (k : A → outcome B) : outcome B :=
  match m with
  | Ret a => k a
  | Raise e => Raise e
  end.

(** [try: m  except Exception as e: h e] *)
Definition try_except {A} (m : outcome A) (h : exn → outcome A) : outcome A :=
  match m with
  | Ret a => Ret a
  | Raise e => h e
  end.

Definition returns {A} (m : outcome A) : bool :=
  match m with Ret _ => true | Raise _ => false end.

#[global] Instance outcome_ret : MRet outcome := @Ret.
#[global] Instance outcome_bind : MBind outcome := fun A B k m => bind m k.

(** [x or d] on an optional string: [None] and [''] are both falsy. *)
Definition str_or (x : option string) (d : string) : string :=
  match x with
  | Some s => if String.eqb s "" then d else s
  | None => d
  end.

(** [x or d] on an integer: [0] is falsy. *)
Definition int_or (x d : Z) : Z := if x =? 0 then d else x.

(** Truthiness of an optional string ([if options.icon_path and ...]). *)
Definition truthy_str (x : option string) : bool :=
  match x with
  | Some s => negb (String.eqb s "")
  | None => false
  end.

(** [str(x)] of an optional string: [None] prints as ['None']. *)
Definition str_of_opt (x : option string) : string :=
  match x with Some s => s | None => "None" end.

Definition str_of_bool (b : bool) : string := if b then "True" else "False".

Definition endswith (s suffix : string) : bool :=
  let n := String.length s in
  let k := String.length suffix in
  (k <=? n)%nat && String.eqb (String.substring (n - k) k s) suffix.

(** [sep.join(l)] *)
Fixpoint join (sep : string) (l : list string) : string :=
  match l with
  | [] => ""
  | [s] => s
  | s :: rest => s ++ sep ++ join sep rest
  end.

(** [s.split(sep)] for a one-character separator, by accumulating the
    current piece. *)
Fixpoint split_acc (sep : ascii) (cur : string) (s : string) : list string :=
  match s with
  | EmptyString => [cur]
  | String c rest =>
      if Ascii.eqb c sep then cur :: split_acc sep "" rest
      else split_acc sep (cur ++ String c "") rest
  end.
Definition split (sep : ascii) (s : string) : list string := split_acc sep "" s.

(** [s.rfind('.')]: the index of the last dot, counted from the left. *)
Fixpoint rfind_dot_from (i : nat) (s : string) (last : option nat) : option nat :=
  match s with
  | EmptyString => last
  | String c rest =>
      rfind_dot_from (S i) rest (if Ascii.eqb c "."%char then Some i else last)
  end.
Definition rfind_dot (s : string) : option nat := rfind_dot_from 0 s None.

(** [max(d.keys(), key=lambda k: d[k])] on a dict in insertion order:
    the running maximum changes only for a strictly greater value, so the
    first key with the greatest value is returned. *)
Fixpoint max_from {K} (best : K * Z) (l : list (K * Z)) : K * Z :=
  match l with
  | [] => best
  | (k, s) :: rest => max_from (if snd best <? s then (k, s) else best) rest
  end.

Definition max_by_score {K} (scores : list (K * Z)) : option (K * Z) :=
  match scores with
  | [] => None
  | first :: rest => Some (max_from first rest)
  end.

(** [d[k]] and [k in d] on a dict kept in insertion order. *)
Fixpoint dict_get `{EqDecision K} {B} (k : K) (d : list (K * B)) : option B :=
  match d with
  | [] => None
  | (k', b) :: rest => if decide (k' = k) then Some b else dict_get k rest
  end.

(** [needle in s] on strings *)
Fixpoint contains (needle s : string) : bool :=
  String.prefix needle s ||
  match s with
  | EmptyString => false
  | String _ rest => contains needle rest
  end.

(** *** [os.path] on a POSIX host *)

(** [os.path.join(a, b)] *)
Definition path_join (a b : string) : string :=
  match b with
  | String "/"%char _ => b
  | _ => if String.eqb a "" || endswith a "/" then a ++ b else a ++ "/" ++ b
  end.

Fixpoint rstrip_slash_rev (l : list ascii) : list ascii :=
  match l with
  | "/"%char :: rest => rstrip_slash_rev rest
  | _ => l
  end.

(** The characters up to and including the last slash, reversed. *)
Fixpoint head_rev (l : list ascii) : list ascii :=
  match l with
  | [] => []
  | "/"%char :: _ => l
  | _ :: rest => head_rev rest
  end.

(** [os.path.dirname(p)]: everything before the last slash, with the
    trailing slashes of that head removed unless it consists of slashes. *)
Definition dirname (p : string) : string :=
  let head := head_rev (rev (list_ascii_of_string p)) in
  match rstrip_slash_rev head with
  | [] => string_of_list_ascii (rev head)
  | stripped => string_of_list_ascii (rev stripped)
  end.

(** *** [pathlib.PurePosixPath] *)

(** The parts of a path after its root: empty and ['.'] components drop. *)
Definition path_parts (p : string) : list string :=
  List.filter (fun c => negb (String.eqb c "" || String.eqb c ".")) (split "/"%char p).

(** The root: ['/'], or ['//'] for exactly two leading slashes. *)
Definition path_root (p : string) : string :=
  match p with
  | String "/"%char (String "/"%char (String "/"%char _)) => "/"
  | String "/"%char (String "/"%char _) => "//"
  | String "/"%char _ => "/"
  | _ => ""
  end.

(** [str(Path(p))] *)
Definition path_str (root : string) (parts : list string) : string :=
  let s := root ++ join "/" parts in
  if String.eqb s "" then "." else s.

Definition path_normal (p : string) : string := path_str (path_root p) (path_parts p).

(** [str(Path(p).parent)] *)
Definition path_parent (p : string) : string :=
  path_str (path_root p) (removelast (path_parts p)).

(** [Path(p).name] *)
Definition path_name (p : string) : string := List.last (path_parts p) "".

(** [Path(p).stem]: the name without its last suffix; a leading or a
    trailing dot starts no suffix. *)
Definition path_stem (p : string) : string :=
  let name := path_name p in
  match rfind_dot name with
  | Some i =>
      if (0 <? i)%nat && (i <? String.length name - 1)%nat
      then String.substring 0 i name else name
  | None => name
  end.

(** *** [bytes.decode('utf-8', errors='ignore')] *)

(** The ranges the bytes after a lead byte must lie in for a well-formed
    sequence; [None] for a byte that starts none. *)
Definition utf8_tail (b : N) : option (list (N * N)) :=
  (if b <=? 0x7F then Some []
   else if (0xC2 <=? b) && (b <=? 0xDF) then Some [(0x80, 0xBF)]
   else if b =? 0xE0 then Some [(0xA0, 0xBF); (0x80, 0xBF)]
   else if (0xE1 <=? b) && (b <=? 0xEC) then Some [(0x80, 0xBF); (0x80, 0xBF)]
   else if b =? 0xED then Some [(0x80, 0x9F); (0x80, 0xBF)]
   else if (0xEE <=? b) && (b <=? 0xEF) then Some [(0x80, 0xBF); (0x80, 0xBF)]
   else if b =? 0xF0 then Some [(0x90, 0xBF); (0x80, 0xBF); (0x80, 0xBF)]
   else if (0xF1 <=? b) && (b <=? 0xF3) then Some [(0x80, 0xBF); (0x80, 0xBF); (0x80, 0xBF)]
   else if b =? 0xF4 then Some [(0x80, 0x8F); (0x80, 0xBF); (0x80, 0xBF)]
   else None)%N.

Fixpoint utf8_fits (ranges : list (N * N)) (l : list byte) : bool :=
  match ranges, l with
  | [], _ => true
  | (lo, hi) :: ranges', b :: l' =>
      ((lo <=? Byte.to_N b) && (Byte.to_N b <=? hi))%N && utf8_fits ranges' l'
  | _ :: _, [] => false
  end.

(** A byte that completes no well-formed sequence is dropped; [keep]
    counts the bytes of an accepted sequence still to be copied. *)
Fixpoint utf8_filter (keep : nat) (l : list byte) : list byte :=
  match l with
  | [] => []
  | b :: rest =>
      match keep with
      | S k => b :: utf8_filter k rest
      | O =>
          match utf8_tail (Byte.to_N b) with
          | Some ranges =>
              if utf8_fits ranges rest
              then b :: utf8_filter (List.length ranges) rest
              else utf8_filter 0 rest
          | None => utf8_filter 0 rest
          end
      end
  end.

Definition decode_utf8_ignore (data : list byte) : string :=
  string_of_list_byte (utf8_filter 0 data).

(** [s.lower()] on the ASCII letters. *)
Definition lower_ascii (c : ascii) : ascii :=
  let n := N_of_ascii c in
  if ((65 <=? n) && (n <=? 90))%N then ascii_of_N (n + 32) else c.
Fixpoint lower (s : string) : string :=
  match s with
  | EmptyString => EmptyString
  | String c rest => String (lower_ascii c) (lower rest)
  end.

(** [Path(p).suffix] *)
Definition path_suffix (p : string) : string :=
  let name := path_name p in
  match rfind_dot name with
  | Some i =>
      if (0 <? i)%nat && (i <? String.length name - 1)%nat
      then String.substring i (String.length name - i) name else ""
  | None => ""
  end.

(** [data.startswith(prefix)] on bytes. *)
Fixpoint bytes_startswith (data prefix : list byte) : bool :=
  match prefix, data with
  | [], _ => true
  | p :: prefix', d :: data' => Byte.eqb p d && bytes_startswith data' prefix'
  | _ :: _, [] => false
  end.

(** [s.replace(old, new)] for a non-empty [old]: the occurrences of [old]
    are replaced from left to right, none overlapping the one before.
    [skip] counts the characters of a found occurrence still to pass. *)
Fixpoint replace_from (old new : string) (skip : nat) (s : string) : string :=
  match s with
  | EmptyString => EmptyString
  | String c rest =>
      match skip with
      | S k => replace_from old new k rest
      | O =>
          if String.prefix old s
          then new ++ replace_from old new (String.length old - 1) rest
          else String c (replace_from old new 0 rest)
      end
  end.
Definition replace (old new s : string) : string := replace_from old new 0 s.

(** *** Calls *)

(** Binding the arguments of [f(a1, ..., an, **d)] to the parameters of
    [def f(p1, ..., pm, **kwargs)], [self] left out: more positional
    arguments than parameters, or a key of [d] that names a parameter
    already filled by position, raise [TypeError] before the body of [f]
    is entered (for an [async def], before the coroutine is made).  The
    message is the one CPython 3.10 and later give. *)
Definition bind_arguments (qualname : string) (parameters : list string)
    (positional : nat) (keywords : list string) : outcome unit :=
  if (List.length parameters <? positional)%nat then
    Raise (Exn "TypeError" (qualname ++ "() takes too many positional arguments"))
  else
    match List.find (fun k => List.existsb (String.eqb k) (firstn positional parameters))
            keywords with
    | Some k =>
        Raise (Exn "TypeError"
                 (qualname ++ "() got multiple values for argument '" ++ k ++ "'"))
    | None => Ret tt
    end.

End Py.


(** ** The host *)

Module Host.

(** The regular files of the host, by path.  Directories are left
    implicit: a path names a file or nothing. *)
Abbreviation fs := (gmap string (list byte)).

(** [os.path.exists] *)
Definition exists_ (files : fs) (p : string) : bool :=
  match files !! p with Some _ => true | None => false end.

(** The [FileNotFoundError] of the C library, as [str(e)] prints it. *)
Definition no_such_file (p : string) : Py.exn :=
  Py.Exn "FileNotFoundError" ("[Errno 2] No such file or directory: '" ++ p ++ "'").

(** [os.path.getsize] *)
Definition getsize (files : fs) (p : string) : Py.outcome Z :=
  match files !! p with
  | Some data => Py.Ret (Z.of_nat (List.length data))
  | None => Py.Raise (no_such_file p)
  end.

(** [open(p, 'rb').read()] *)
Definition read_bytes (files : fs) (p : string) : Py.outcome (list byte) :=
  match files !! p with
  | Some data => Py.Ret data
  | None => Py.Raise (no_such_file p)
  end.

(** A child process that was waited for. *)
Record completed := Completed {
  returncode : Z;
  stdout : list byte;
  stderr : list byte
}.

(** [create_subprocess_exec] followed by [communicate]: the child runs
    to its end, or the spawn raises; either way the files may have
    changed. *)
Inductive spawned :=
| Exited (p : completed) (after : fs)
| SpawnRaised (e : Py.exn) (after : fs).

Definition files_after (s : spawned) : fs :=
  match s with Exited _ after => after | SpawnRaised _ after => after end.

(** The child failed: the spawn raised, or the exit code is not zero. *)
Definition run_failed (s : spawned) : Prop :=
  match s with
  | Exited p _ => returncode p ≠ 0
  | SpawnRaised _ _ => True
  end.

(** What file operations do when the host refuses them (read-only
    directory, full disk, locked file): each flag makes the operation
    raise [OSError] and leave the files as they are. *)
Record faults := Faults {
  copy_refused : bool;
  move_refused : bool;
  remove_refused : bool;
  write_refused : bool
}.

Definition no_faults : faults := Faults false false false false.

Definition refused (op : string) : Py.exn := Py.Exn "OSError" (op ++ " refused by the host").

(** [shutil.copy2(src, dst)] between regular files *)
Definition copy2 (f : faults) (files : fs) (src dst : string) : Py.outcome fs :=
  if copy_refused f then Py.Raise (refused "copy")
  else match files !! src with
       | Some data => Py.Ret (<[dst := data]> files)
       | None => Py.Raise (no_such_file src)
       end.

(** [shutil.move(src, dst)] between regular files: [dst] is replaced. *)
Definition move (f : faults) (files : fs) (src dst : string) : Py.outcome fs :=
  if move_refused f then Py.Raise (refused "move")
  else match files !! src with
       | Some data => Py.Ret (<[dst := data]> (delete src files))
       | None => Py.Raise (no_such_file src)
       end.

(** [os.remove(p)] *)
Definition remove (f : faults) (files : fs) (p : string) : Py.outcome fs :=
  if remove_refused f then Py.Raise (refused "remove")
  else match files !! p with
       | Some _ => Py.Ret (delete p files)
       | None => Py.Raise (no_such_file p)
       end.

(** [os.makedirs(p, exist_ok=True)]: directories being implicit, the
    call changes nothing; it raises when [p] is empty or names a
    regular file. *)
Definition makedirs_exist_ok (files : fs) (p : string) : Py.outcome unit :=
  if String.eqb p "" then
    Py.Raise (no_such_file p)
  else if exists_ files p then
    Py.Raise (Py.Exn "FileExistsError" ("[Errno 17] File exists: '" ++ p ++ "'"))
  else Py.Ret tt.

(** [open(p, 'wb')]: the file is created or emptied. *)
Definition open_wb (f : faults) (files : fs) (p : string) : Py.outcome fs :=
  if write_refused f then Py.Raise (refused "write")
  else Py.Ret (<[p := []]> files).

(** [f.write(data)] on a file opened by [open_wb]. *)
Definition write (files : fs) (p : string) (data : list byte) : fs :=
  alter (fun old => (old ++ data)%list) p files.

End Host.

(** ** compression_handler.py *)

Module Compression.

Inductive CompressionMethod := UPX | LZMA | BROTLI | GZIP | CUSTOM | AUTO.

#[global] Instance CompressionMethod_eq_dec : EqDecision CompressionMethod.
Proof. solve_decision. Defined.

(** [method.value] *)
Definition value (m : CompressionMethod) : string :=
  match m with
  | UPX => "upx" | LZMA => "lzma" | BROTLI => "brotli"
  | GZIP => "gzip" | CUSTOM => "custom" | AUTO => "auto"
  end.

(** [CompressionMethod(s)]: the member with that value, or [ValueError]. *)
Definition CompressionMethod_of_value (s : string) : Py.outcome CompressionMethod :=
  match List.find (fun m => String.eqb (value m) s) [UPX; LZMA; BROTLI; GZIP; CUSTOM; AUTO] with
  | Some m => Py.Ret m
  | None => Py.Raise (Py.Exn "ValueError" ("'" ++ s ++ "' is not a valid CompressionMethod"))
  end.

Record CompressionOptions := mkCompressionOptions {
  method : CompressionMethod;
  level : Z;
  preserve_resources : bool;
  backup_original : bool;
  upx_ultra_brute : bool;
  upx_compress_icons : bool;
  upx_strip_relocs : bool;
  lzma_preset : Z;
  lzma_check : Z;
  brotli_quality : Z;
  brotli_window_bits : Z;
  custom_algorithm : option string;
  exclude_patterns : option (list string)
}.

(** The defaults of the dataclass, before [__post_init__]. *)
Definition CompressionOptions_defaults : CompressionOptions :=
  mkCompressionOptions AUTO 9 true true false true false 9 1 11 22 None None.

Definition CompressionOptions_post_init (self : CompressionOptions) : CompressionOptions :=
  match exclude_patterns self with
  | None =>
      mkCompressionOptions (method self) (level self) (preserve_resources self)
        (backup_original self) (upx_ultra_brute self) (upx_compress_icons self)
        (upx_strip_relocs self) (lzma_preset self) (lzma_check self)
        (brotli_quality self) (brotli_window_bits self) (custom_algorithm self) (Some [])
  | Some _ => self
  end.

Definition with_method (m : CompressionMethod) (o : CompressionOptions) : CompressionOptions :=
  mkCompressionOptions m (level o) (preserve_resources o) (backup_original o)
    (upx_ultra_brute o) (upx_compress_icons o) (upx_strip_relocs o) (lzma_preset o)
    (lzma_check o) (brotli_quality o) (brotli_window_bits o) (custom_algorithm o)
    (exclude_patterns o).

(** The fields of [CompressionResult] as its constructor receives them:
    [warnings] may still be [None]. *)
Record CompressionResult := mkCompressionResult {
  success : bool;
  original_size : Z;
  compressed_size : Z;
  compression_ratio : Q;
  compression_time : Q;
  method_used : option CompressionMethod;
  output_path : option string;
  error_message : option string;
  warnings : option (list string)
}.

(** [a / b] on integers: the exact quotient, or [ZeroDivisionError]. *)
Definition truediv (a b : Z) : Py.outcome Q :=
  if b =? 0 then Py.Raise (Py.Exn "ZeroDivisionError" "division by zero")
  else Py.Ret (inject_Z a / inject_Z b)%Q.

Definition CompressionResult_post_init (self : CompressionResult)
  : Py.outcome CompressionResult :=
  let warnings' := match warnings self with None => Some [] | Some w => Some w end in
  if (0 <? original_size self) && (0 <? compressed_size self) then
    ratio ← truediv (original_size self - compressed_size self) (original_size self);
    mret (mkCompressionResult (success self) (original_size self) (compressed_size self)
            ratio (compression_time self) (method_used self) (output_path self)
            (error_message self) warnings')
  else
    mret (mkCompressionResult (success self) (original_size self) (compressed_size self)
            (compression_ratio self) (compression_time self) (method_used self)
            (output_path self) (error_message self) warnings').

(** [CompressionResult(success=..., ...)] with [compression_ratio] and
    [warnings] left to their defaults, as every call in the module does. *)
Definition new_result (success : bool) (original_size compressed_size : Z)
    (compression_time : Q) (method_used : option CompressionMethod)
    (output_path error_message : option string) : Py.outcome CompressionResult :=
  CompressionResult_post_init
    (mkCompressionResult success original_size compressed_size 0 compression_time
       method_used output_path error_message None).

Definition failure (error_message : string) (compression_time : Q) (original_size : Z)
  : Py.outcome CompressionResult :=
  new_result false original_size 0 compression_time None None (Some error_message).

(** What the module takes from the host and from the libraries it
    imports. *)
Record env := mkEnv {
  upx_path : option string;          (* [shutil.which] on the candidate names *)
  upx_version_ok : bool;             (* [upx --version] exits with 0 *)
  BROTLI_AVAILABLE : bool;
  lzma_compress : Z → Z → list byte → Py.outcome (list byte);   (* check, preset *)
  brotli_compress : Z → Z → list byte → Py.outcome (list byte); (* quality, lgwin *)
  shannon_entropy : list byte → Q;   (* the sum over [math.log2], data not empty *)
  spawn : list string → Host.fs → Host.spawned;
  elapsed : Q;                       (* [time.time() - start_time] *)
  access_x : string → bool;          (* [os.access(p, os.X_OK)] *)
  io : Host.faults
}.

(** *** CompressionBackend helpers *)

Definition MZ : list byte := ["M"; "Z"]%byte.
Definition ELF : list byte := [x7f; "E"; "L"; "F"]%byte.
Definition MACH : list byte := [xca; xfe; xba; xbe]%byte.

Definition _detect_file_type (files : Host.fs) (file_path : string) : string :=
  match Host.read_bytes files file_path with
  | Py.Ret data =>
      let header := firstn 16 data in
      if Py.bytes_startswith header MZ then "pe_executable"
      else if Py.bytes_startswith header ELF then "elf_executable"
      else if Py.bytes_startswith header MACH then "mach_executable"
      else "unknown"
  | Py.Raise _ => "unknown"
  end.

Record file_info := mkFileInfo {
  size : Z;
  is_executable : bool;
  extension : string;
  type_ : string
}.

(** [_get_file_info]: [None] stands for the empty dict returned when
    [os.stat] raises. *)
Definition _get_file_info (e : env) (files : Host.fs) (file_path : string)
  : option file_info :=
  match Host.getsize files file_path with
  | Py.Ret st_size =>
      Some (mkFileInfo st_size (access_x e file_path)
              (Py.lower (Py.path_suffix file_path)) (_detect_file_type files file_path))
  | Py.Raise _ => None
  end.

(** [file_info.get('type') == t], [file_info.get('is_executable')],
    [file_info.get('size', 0)], [file_info.get('extension', '')] *)
Definition get_type_is (info : option file_info) (t : string) : bool :=
  match info with Some i => String.eqb (type_ i) t | None => false end.
Definition get_is_executable (info : option file_info) : bool :=
  match info with Some i => is_executable i | None => false end.
Definition get_size (info : option file_info) : Z :=
  match info with Some i => size i | None => 0 end.
Definition get_extension (info : option file_info) : string :=
  match info with Some i => extension i | None => "" end.

Definition clamp (score : Z) : Z := Z.min 100 (Z.max 0 score).

(** *** UPXCompressor *)

Definition UPX_is_available (e : env) : bool :=
  match upx_path e with
  | None => false
  | Some _ => upx_version_ok e
  end.

(** [f"-{options.level}"] *)
Definition str_of_int (n : Z) : string := DecimalString.NilZero.string_of_int (Z.to_int n).

Definition UPX_command (upx file_path : string) (options : CompressionOptions)
  : list string :=
  [upx]
  ++ (if (9 <=? level options) || upx_ultra_brute options then ["--ultra-brute"]
      else if 7 <=? level options then ["--best"]
      else if 4 <=? level options then ["-9"]
      else ["-" ++ str_of_int (level options)])
  ++ (if negb (upx_compress_icons options) then ["--compress-icons=0"] else [])
  ++ (if upx_strip_relocs options then ["--strip-relocs=1"] else [])
  ++ (if negb (preserve_resources options) then ["--compress-resources=1"] else [])
  ++ ["--force"; "-qq"]
  ++ [file_path].

(** [if backup_path and os.path.exists(backup_path): try: shutil.move(...)
    except: pass] *)
Definition restore_backup (e : env) (files : Host.fs) (backup_path : option string)
    (file_path : string) : Host.fs :=
  match backup_path with
  | Some backup =>
      if Host.exists_ files backup then
        match Host.move (io e) files backup file_path with
        | Py.Ret files' => files'
        | Py.Raise _ => files
        end
      else files
  | None => files
  end.

(** The [finally] clause. *)
Definition clean_backup (e : env) (files : Host.fs) (backup_path : option string)
    (file_path : string) : Host.fs :=
  match backup_path with
  | Some backup =>
      if Host.exists_ files backup && Host.exists_ files file_path then
        match Host.remove (io e) files backup with
        | Py.Ret files' => files'
        | Py.Raise _ => files
        end
      else files
  | None => files
  end.

Definition UPX_compress (e : env) (files : Host.fs) (file_path : string)
    (options : CompressionOptions) : Py.outcome CompressionResult * Host.fs :=
  match upx_path e with
  | None => (new_result false 0 0 0 None None (Some "UPX non disponible"), files)
  | Some upx =>
      match Host.getsize files file_path with
      | Py.Raise ex =>
          (new_result false 0 0 0 None None
             (Some ("Erreur lecture fichier: " ++ Py.exn_msg ex)), files)
      | Py.Ret original_size =>
          let backup_path :=
            if backup_original options then Some (file_path ++ ".backup") else None in
          let files1 :=
            match backup_path with
            | Some backup =>
                match Host.copy2 (io e) files file_path backup with
                | Py.Ret files' => files'
                | Py.Raise _ => files          (* only a warning is logged *)
                end
            | None => files
            end in
          (* the [try] block *)
          let '(body, files2) :=
            match spawn e (UPX_command upx file_path options) files1 with
            | Host.Exited process after =>
                if Host.returncode process =? 0 then
                  (Py.try_except
                     (compressed_size ← Host.getsize after file_path;
                      new_result true original_size compressed_size (elapsed e)
                        (Some UPX) (Some file_path) None)
                     (fun ex =>
                        new_result false 0 0 (elapsed e) None None
                          (Some ("Erreur post-compression: " ++ Py.exn_msg ex))),
                   after)
                else
                  let after' := restore_backup e after backup_path file_path in
                  let error_msg :=
                    match Host.stderr process with
                    | [] => "Erreur UPX inconnue"
                    | err => Py.decode_utf8_ignore err
                    end in
                  (failure error_msg (elapsed e) original_size, after')
            | Host.SpawnRaised ex after => (Py.Raise ex, after)
            end in
          (* [except Exception as e] *)
          let '(result, files3) :=
            match body with
            | Py.Ret r => (Py.Ret r, files2)
            | Py.Raise ex =>
                let files' := restore_backup e files2 backup_path file_path in
                (failure (Py.exn_msg ex) (elapsed e) original_size, files')
            end in
          (result, clean_backup e files3 backup_path file_path)
      end
  end.

Definition UPX_get_score (e : env) (files : Host.fs) (file_path : string)
    (options : CompressionOptions) : Z :=
  let info := _get_file_info e files file_path in
  let score := 50 in
  let score :=
    if get_type_is info "pe_executable" then score + 40
    else if get_is_executable info then score + 30
    else score in
  let size := get_size info in
  let score :=
    if 10 * 1024 * 1024 <? size then score + 10
    else if 1 * 1024 * 1024 <? size then score + 5
    else score in
  let score := if size <? 100 * 1024 then score - 20 else score in
  clamp score.

(** *** LZMACompressor *)

Definition len (data : list byte) : Z := Z.of_nat (List.length data).

Definition LZMA_compress (e : env) (files : Host.fs) (file_path : string)
    (options : CompressionOptions) : Py.outcome CompressionResult * Host.fs :=
  let '(body, files') :=
    match Host.read_bytes files file_path with
    | Py.Raise ex => (Py.Raise ex, files)
    | Py.Ret original_data =>
        match lzma_compress e (lzma_check options) (lzma_preset options) original_data with
        | Py.Raise ex => (Py.Raise ex, files)
        | Py.Ret compressed_data =>
            let compressed_path := file_path ++ ".lzma" in
            match Host.open_wb (io e) files compressed_path with
            | Py.Raise ex => (Py.Raise ex, files)
            | Py.Ret files1 =>
                (new_result true (len original_data) (len compressed_data) (elapsed e)
                   (Some LZMA) (Some compressed_path) None,
                 Host.write files1 compressed_path compressed_data)
            end
        end
    end in
  (Py.try_except body (fun ex => failure (Py.exn_msg ex) (elapsed e) 0), files').

Definition LZMA_get_score (e : env) (files : Host.fs) (file_path : string)
    (options : CompressionOptions) : Z :=
  let info := _get_file_info e files file_path in
  let score := 60 in
  let size := get_size info in
  let score := if 1 * 1024 * 1024 <? size then score + 20 else score in
  let score := if get_type_is info "pe_executable" then score - 30 else score in
  clamp score.

(** *** BrotliCompressor *)

Definition Brotli_compress (e : env) (files : Host.fs) (file_path : string)
    (options : CompressionOptions) : Py.outcome CompressionResult * Host.fs :=
  if negb (BROTLI_AVAILABLE e) then
    (new_result false 0 0 0 None None (Some "Brotli non disponible"), files)
  else
    let '(body, files') :=
      match Host.read_bytes files file_path with
      | Py.Raise ex => (Py.Raise ex, files)
      | Py.Ret original_data =>
          match brotli_compress e (brotli_quality options) (brotli_window_bits options)
                  original_data with
          | Py.Raise ex => (Py.Raise ex, files)
          | Py.Ret compressed_data =>
              let compressed_path := file_path ++ ".br" in
              match Host.open_wb (io e) files compressed_path with
              | Py.Raise ex => (Py.Raise ex, files)
              | Py.Ret files1 =>
                  (new_result true (len original_data) (len compressed_data) (elapsed e)
                     (Some BROTLI) (Some compressed_path) None,
                   Host.write files1 compressed_path compressed_data)
              end
          end
      end in
    (Py.try_except body (fun ex => failure (Py.exn_msg ex) (elapsed e) 0), files').

Definition text_extensions : list string :=
  [".txt"; ".js"; ".css"; ".html"; ".json"; ".xml"].

Definition Brotli_get_score (e : env) (files : Host.fs) (file_path : string)
    (options : CompressionOptions) : Z :=
  let info := _get_file_info e files file_path in
  let score := 65 in
  let ext := get_extension info in
  let score :=
    if List.existsb (String.eqb ext) text_extensions then score + 25 else score in
  let score := if get_type_is info "pe_executable" then score - 40 else score in
  clamp score.

(** *** CustomCompressor *)

Definition Qltb (x y : Q) : bool := negb (Qle_bool y x).

Definition _calculate_entropy (e : env) (data : list byte) : Q :=
  match data with
  | [] => 0
  | _ => shannon_entropy e data
  end.

(** The number of positions [i >= 1] with [sample[i] == sample[i-1]]. *)
Fixpoint repeated_bytes (sample : list byte) : Z :=
  match sample with
  | a :: (b :: _) as rest => (if Byte.eqb b a then 1 else 0) + repeated_bytes rest
  | _ => 0
  end.

Definition _calculate_repetition_ratio (data : list byte) : Py.outcome Q :=
  if len data <? 100 then mret 0%Q
  else
    let sample_size := Z.min 1000 (len data) in
    let sample := firstn (Z.to_nat sample_size) data in
    truediv (repeated_bytes sample) (sample_size - 1).

(** The library call [_optimal_compress] ends in. *)
Inductive delegate :=
| to_lzma (preset : Z)        (* [lzma.compress(data, preset=preset)] *)
| to_brotli (quality : Z).    (* [brotli.compress(data, quality=quality)] *)

Definition run_delegate (e : env) (d : delegate) (data : list byte)
  : Py.outcome (list byte) :=
  match d with
  | to_lzma preset => lzma_compress e (-1) preset data
  | to_brotli quality => brotli_compress e quality 22 data
  end.

(** The branch [_optimal_compress] takes, with the argument it passes.
    The literal [6.0] is exact.  The literal [0.3] is the float nearest to
    3/10 and the ratio is the float nearest to k/n with n at most 999: the
    one exceeds the other exactly when k/n exceeds 3/10, since a quotient
    above 3/10 is above it by 1/(10 n) at least. *)
Definition _optimal_choice (e : env) (data : list byte) (options : CompressionOptions)
  : Py.outcome delegate :=
  let entropy := _calculate_entropy e data in
  repetition_ratio ← _calculate_repetition_ratio data;
  if Qltb entropy 6 && Qltb (3 # 10) repetition_ratio then
    mret (to_lzma (Py.int_or (lzma_preset options) 9))
  else if BROTLI_AVAILABLE e && (len data <? 1024 * 1024) then
    mret (to_brotli (Py.int_or (brotli_quality options) 11))
  else
    mret (to_lzma (Py.int_or (lzma_preset options) 6)).

Definition _optimal_compress (e : env) (data : list byte) (options : CompressionOptions)
  : Py.outcome (list byte) :=
  d ← _optimal_choice e data options;
  run_delegate e d data.

Definition byte_of_Z (z : Z) : byte :=
  match Byte.of_N (Z.to_N (z mod 256)) with
  | Some b => b
  | None => x00
  end.

(** [struct.pack('<I', n)] *)
Definition pack_le_I (n : Z) : Py.outcome (list byte) :=
  if (0 <=? n) && (n <? 2 ^ 32) then
    mret [byte_of_Z n; byte_of_Z (n / 2 ^ 8); byte_of_Z (n / 2 ^ 16); byte_of_Z (n / 2 ^ 24)]
  else Py.Raise (Py.Exn "struct.error" "'I' format requires 0 <= number <= 4294967295").

Definition PFC_magic : list byte := ["P"; "F"; "C"; x01]%byte.

(** [int.from_bytes(data, 'little')] *)
Fixpoint int_from_bytes_little (data : list byte) : Z :=
  match data with
  | [] => 0
  | b :: rest => Z.of_N (Byte.to_N b) + 256 * int_from_bytes_little rest
  end.

Definition Custom_compress (e : env) (files : Host.fs) (file_path : string)
    (options : CompressionOptions) : Py.outcome CompressionResult * Host.fs :=
  let '(body, files') :=
    match Host.read_bytes files file_path with
    | Py.Raise ex => (Py.Raise ex, files)
    | Py.Ret original_data =>
        let original_size := len original_data in
        match _optimal_compress e original_data options with
        | Py.Raise ex => (Py.Raise ex, files)
        | Py.Ret compressed_data =>
            let compressed_size := len compressed_data in
            let compressed_path := file_path ++ ".pfc" in
            match Host.open_wb (io e) files compressed_path with
            | Py.Raise ex => (Py.Raise ex, files)
            | Py.Ret files1 =>
                let files2 := Host.write files1 compressed_path PFC_magic in
                match pack_le_I original_size with
                | Py.Raise ex => (Py.Raise ex, files2)
                | Py.Ret packed =>
                    let files3 := Host.write files2 compressed_path packed in
                    let files4 := Host.write files3 compressed_path compressed_data in
                    (new_result true original_size (compressed_size + 8) (elapsed e)
                       (Some CUSTOM) (Some compressed_path) None, files4)
                end
            end
        end
    end in
  (Py.try_except body (fun ex => failure (Py.exn_msg ex) (elapsed e) 0), files').

Definition Custom_get_score (e : env) (files : Host.fs) (file_path : string)
    (options : CompressionOptions) : Z :=
  let info := _get_file_info e files file_path in
  let score := 70 in
  let score := score + 15 in
  let size := get_size info in
  let score := if 500 * 1024 <? size then score + 10 else score in
  clamp score.

(** *** The backends behind their common interface *)

Record CompressionBackend := mkBackend {
  name : string;
  is_available : env → bool;
  compress : env → Host.fs → string → CompressionOptions
             → Py.outcome CompressionResult * Host.fs;
  get_score : env → Host.fs → string → CompressionOptions → Z
}.

Definition UPXCompressor : CompressionBackend :=
  mkBackend "upx" UPX_is_available UPX_compress UPX_get_score.
Definition LZMACompressor : CompressionBackend :=
  mkBackend "lzma" (fun _ => true) LZMA_compress LZMA_get_score.
Definition BrotliCompressor : CompressionBackend :=
  mkBackend "brotli" BROTLI_AVAILABLE Brotli_compress Brotli_get_score.
Definition CustomCompressor : CompressionBackend :=
  mkBackend "custom" (fun _ => true) Custom_compress Custom_get_score.

(** *** CompressionHandler *)

(** [self.compressors], in the order the dict literal lists them. *)
Definition compressors : list (CompressionMethod * CompressionBackend) :=
  [(UPX, UPXCompressor); (LZMA, LZMACompressor);
   (BROTLI, BrotliCompressor); (CUSTOM, CustomCompressor)].

Definition _detect_compressors (e : env) : list (CompressionMethod * CompressionBackend) :=
  List.filter (fun mb => is_available (snd mb) e) compressors.

Definition select_best_compressor (e : env) (files : Host.fs)
    (available_compressors : list (CompressionMethod * CompressionBackend))
    (file_path : string) (options : CompressionOptions)
  : Py.outcome (CompressionMethod * CompressionBackend) :=
  let requested :=
    if decide (method options = AUTO) then None
    else Py.dict_get (method options) available_compressors in
  match requested with
  | Some backend => mret (method options, backend)
  | None =>
      let scores :=
        List.map (fun mb => (fst mb, get_score (snd mb) e files file_path options))
          available_compressors in
      match Py.max_by_score scores with
      | None => Py.Raise (Py.Exn "RuntimeError" "Aucun compresseur disponible")
      | Some (best_method, _) =>
          match Py.dict_get best_method available_compressors with
          | Some best_compressor => mret (best_method, best_compressor)
          | None => Py.Raise (Py.Exn "KeyError" (value best_method))
          end
      end
  end.

(** [if isinstance(method, str): method = CompressionMethod(method)] *)
Definition as_method (method : CompressionMethod + string) : Py.outcome CompressionMethod :=
  match method with
  | inl m => mret m
  | inr s => CompressionMethod_of_value s
  end.

(** [compress_executable(exe_path, method, **kwargs)]; [kwargs] gives
    the remaining fields of the options. *)
Definition compress_executable (e : env) (files : Host.fs)
    (available_compressors : list (CompressionMethod * CompressionBackend))
    (exe_path : string) (method : CompressionMethod + string)
    (kwargs : CompressionOptions) : Py.outcome CompressionResult * Host.fs :=
  if negb (Host.exists_ files exe_path) then
    (new_result false 0 0 0 None None (Some ("Fichier non trouvé: " ++ exe_path)), files)
  else
    match as_method method with
    | Py.Raise ex => (Py.Raise ex, files)
    | Py.Ret method =>
        let options := CompressionOptions_post_init (with_method method kwargs) in
        let '(body, files') :=
          match select_best_compressor e files available_compressors exe_path options with
          | Py.Raise ex => (Py.Raise ex, files)
          | Py.Ret (_, compressor) => compress compressor e files exe_path options
          end in
        (Py.try_except body (fun ex => new_result false 0 0 0 None None (Some (Py.exn_msg ex))),
         files')
    end.

(** The keys of [options.__dict__] for a [CompressionOptions]: the fields
    of the dataclass, in the order it declares them. *)
Definition CompressionOptions_fields : list string :=
  ["method"; "level"; "preserve_resources"; "backup_original"; "upx_ultra_brute";
   "upx_compress_icons"; "upx_strip_relocs"; "lzma_preset"; "lzma_check";
   "brotli_quality"; "brotli_window_bits"; "custom_algorithm"; "exclude_patterns"].

(** The parameters of [compress_executable] after [self]; the rest goes to
    [**kwargs]. *)
Definition compress_executable_parameters : list string := ["exe_path"; "method"].

(** The first loop of [batch_compress], which makes one task per file by
    [self.compress_executable(file_path, base_options.method,
    **base_options.__dict__)].  A task is the call it stands for: the path,
    the method and the remaining options.  No [try] surrounds the loop. *)
Fixpoint batch_compress_tasks (files : list string) (base_options : CompressionOptions)
  : Py.outcome (list (string * CompressionMethod * CompressionOptions)) :=
  match files with
  | [] => mret []
  | file_path :: rest =>
      _ ← Py.bind_arguments "CompressionHandler.compress_executable"
            compress_executable_parameters 2 CompressionOptions_fields;
      tasks ← batch_compress_tasks rest base_options;
      mret ((file_path, method base_options, base_options) :: tasks)
  end.

End Compression.

(** ** compiler_engine.py *)

Module Compiler.

Inductive CompilerType := PYINSTALLER | NUITKA | CX_FREEZE.

#[global] Instance CompilerType_eq_dec : EqDecision CompilerType.
Proof. solve_decision. Defined.

(** [compiler_type.value], the tool's name *)
Definition value (c : CompilerType) : string :=
  match c with
  | PYINSTALLER => "pyinstaller" | NUITKA => "nuitka" | CX_FREEZE => "cx_freeze"
  end.

(** [CompilationOptions] after [__post_init__], which replaces a missing
    list by the empty one. *)
Record CompilationOptions := mkCompilationOptions {
  source_path : string;
  output_path : string;
  output_name : option string;
  icon_path : option string;
  onefile : bool;
  console : bool;
  optimize : bool;
  debug : bool;
  exclude_modules : list string;
  hidden_imports : list string;
  upx_compress : bool;
  upx_level : Z;
  obfuscate : bool;
  encrypt_bytecode : bool;
  preferred_compiler : option CompilerType;
  nuitka_standalone : bool;
  pyinstaller_collect_all : list string
}.

(** [CompilationOptions(source_path, output_path)] *)
Definition CompilationOptions_defaults (source_path output_path : string)
  : CompilationOptions :=
  mkCompilationOptions source_path output_path None None true false true false
    [] [] false 9 false false None true [].

(** [CompilationResult] after [__post_init__]. *)
Record CompilationResult := mkCompilationResult {
  success : bool;
  result_path : option string;          (* [output_path] *)
  error_message : option string;
  warnings : list string;
  compilation_time : Q;
  file_size : Z;
  compiler_used : option CompilerType
}.

Definition succeeded (output_file : string) (compilation_time : Q) (file_size : Z)
    (c : CompilerType) : CompilationResult :=
  mkCompilationResult true (Some output_file) None [] compilation_time file_size (Some c).

Definition failed (error_message : string) (compilation_time : Q)
    (c : option CompilerType) : CompilationResult :=
  mkCompilationResult false None (Some error_message) [] compilation_time 0 c.

Record env := mkEnv {
  tool_available : CompilerType → bool;     (* [backend.is_available()] *)
  spawn : list string → string → Host.fs → Host.spawned;   (* command, cwd *)
  elapsed : Q;
  sys_executable : string;
  io : Host.faults
}.

(** [os.path.dirname(p) or "."] *)
Definition cwd_of (source_path : string) : string :=
  Py.str_or (Some (Py.dirname source_path)) ".".

(** [for x in xs: cmd.extend([flag, x])] *)
Definition each_with (flag : string) (xs : list string) : list string :=
  List.concat (List.map (fun x => [flag; x]) xs).

(** [if output_file and os.path.exists(output_file)] *)
Definition found (files : Host.fs) (output_file : option string) : option string :=
  match output_file with
  | Some f => if negb (String.eqb f "") && Host.exists_ files f then Some f else None
  | None => None
  end.

(** [for path in possible_paths: if os.path.exists(path): return path] *)
Definition first_existing (files : Host.fs) (possible_paths : list string)
  : option string :=
  List.find (Host.exists_ files) possible_paths.

(** *** PyInstallerBackend *)

Definition PyInstaller_command (files : Host.fs) (options : CompilationOptions)
  : list string :=
  let name := Py.str_or (output_name options) (Py.path_stem (output_path options)) in
  let output_str := output_path options in
  let dist_dir :=
    if Py.endswith output_str ".exe" then Py.path_parent output_str
    else Py.path_normal output_str in
  (["pyinstaller"]
   ++ (if onefile options then ["--onefile"] else [])
   ++ (if negb (console options) then ["--windowed"] else [])
   ++ (if debug options then ["--debug=all"] else ["--log-level=WARN"])
   ++ (match icon_path options with
       | Some icon =>
           if Py.truthy_str (Some icon) && Host.exists_ files icon
           then ["--icon"; icon] else []
       | None => []
       end)
   ++ ["--name"; name]
   ++ ["--distpath"; dist_dir]
   ++ each_with "--exclude-module" (exclude_modules options)
   ++ each_with "--hidden-import" (hidden_imports options)
   ++ each_with "--collect-all" (pyinstaller_collect_all options)
   ++ (if upx_compress options then ["--upx-compress"] else [])
   ++ [source_path options])%list.

Definition PyInstaller_find_output_file (files : Host.fs) (options : CompilationOptions)
  : option string :=
  let base_name := Py.str_or (output_name options) (Py.path_stem (source_path options)) in
  first_existing files
    [Py.path_join (output_path options) (base_name ++ ".exe");
     Py.path_join (output_path options) base_name;
     Py.path_join "dist" (base_name ++ ".exe");
     Py.path_join "dist" base_name].

Definition PyInstaller_compile (e : env) (files : Host.fs) (options : CompilationOptions)
  : Py.outcome CompilationResult * Host.fs :=
  let '(body, files') :=
    match spawn e (PyInstaller_command files options) (cwd_of (source_path options)) files with
    | Host.SpawnRaised ex after => (Py.Raise ex, after)
    | Host.Exited process after =>
        if Host.returncode process =? 0 then
          match found after (PyInstaller_find_output_file after options) with
          | Some output_file =>
              (file_size ← Host.getsize after output_file;
               mret (succeeded output_file (elapsed e) file_size PYINSTALLER), after)
          | None =>
              (mret (failed "Fichier de sortie introuvable" (elapsed e) (Some PYINSTALLER)),
               after)
          end
        else
          (mret (failed (Py.decode_utf8_ignore (Host.stderr process)) (elapsed e)
                   (Some PYINSTALLER)), after)
    end in
  (Py.try_except body
     (fun ex => mret (failed (Py.exn_msg ex) (elapsed e) (Some PYINSTALLER))), files').

Definition PyInstaller_get_score (options : CompilationOptions) : Z :=
  let score := 70 in
  let score := score + 15 in
  let score := if optimize options then score - 5 else score in
  let score := score + 10 in
  Z.min 100 (Z.max 0 score).

(** *** NuitkaBackend *)

Definition Nuitka_command (files : Host.fs) (options : CompilationOptions) : list string :=
  (["python"; "-m"; "nuitka"]
   ++ (if nuitka_standalone options then ["--standalone"] else ["--onefile"])
   ++ (if negb (console options) then ["--windows-disable-console"] else [])
   ++ (if optimize options then ["--lto=yes"; "--optimize-for-size"] else [])
   ++ (match icon_path options with
       | Some icon =>
           if Py.truthy_str (Some icon) && Host.exists_ files icon
           then ["--windows-icon-from-ico=" +:+ icon] else []
       | None => []
       end)
   ++ (match output_name options with
       | Some n => if Py.truthy_str (Some n) then ["--output-filename=" +:+ n] else []
       | None => []
       end)
   ++ ["--output-dir=" +:+ output_path options]
   ++ List.map (fun m => "--nofollow-import-to=" +:+ m) (exclude_modules options)
   ++ List.map (fun i => "--include-module=" +:+ i) (hidden_imports options)
   ++ ["--assume-yes-for-downloads"; "--remove-output"; "--no-progress-bar"]
   ++ [source_path options])%list.

(** The [def _find_output_file] that the source indents into the body of
    [NuitkaBackend.compile], below its [try] statement: a function local
    to [compile], which no path of [compile] reaches, and not an
    attribute of the class. *)
Definition Nuitka_compile_inner_find_output_file (files : Host.fs)
    (options : CompilationOptions) : option string :=
  let base_name := Py.str_or (output_name options) (Py.path_stem (source_path options)) in
  let dist_dir :=
    if Py.endswith (output_path options) ".exe" then Py.path_parent (output_path options)
    else Py.path_normal (output_path options) in
  first_existing files
    [Py.path_join dist_dir (base_name ++ ".exe");
     Py.path_join (Py.path_join dist_dir base_name) (base_name ++ ".exe");
     Py.path_join dist_dir base_name;
     Py.path_join "dist" (base_name ++ ".exe");
     Py.path_join (Py.path_join "dist" base_name) (base_name ++ ".exe")].

(** The names bound in the body of [class NuitkaBackend] and in that of its
    base [CompilerBackend]: what [self.<name>] can resolve to. *)
Definition NuitkaBackend_attributes : list string :=
  ["__init__"; "is_available"; "get_version"; "compile"; "get_score"].
Definition CompilerBackend_attributes : list string :=
  ["__init__"; "is_available"; "get_version"; "compile"; "get_score"].

(** [self._find_output_file] on a [NuitkaBackend] *)
Definition Nuitka_self_find_output_file
  : Py.outcome (Host.fs → CompilationOptions → option string) :=
  if List.existsb (String.eqb "_find_output_file")
       (NuitkaBackend_attributes ++ CompilerBackend_attributes)%list
  then mret Nuitka_compile_inner_find_output_file
  else Py.Raise (Py.Exn "AttributeError"
                   "'NuitkaBackend' object has no attribute '_find_output_file'").

Definition Nuitka_compile (e : env) (files : Host.fs) (options : CompilationOptions)
  : Py.outcome CompilationResult * Host.fs :=
  let '(body, files') :=
    match spawn e (Nuitka_command files options) (cwd_of (source_path options)) files with
    | Host.SpawnRaised ex after => (Py.Raise ex, after)
    | Host.Exited process after =>
        if Host.returncode process =? 0 then
          (_find_output_file ← Nuitka_self_find_output_file;
           match found after (_find_output_file after options) with
           | Some output_file =>
               file_size ← Host.getsize after output_file;
               mret (succeeded output_file (elapsed e) file_size NUITKA)
           | None =>
               mret (failed "Fichier de sortie introuvable" (elapsed e) (Some NUITKA))
           end, after)
        else
          (mret (failed (Py.decode_utf8_ignore (Host.stderr process)) (elapsed e)
                   (Some NUITKA)), after)
    end in
  (Py.try_except body
     (fun ex => mret (failed (Py.exn_msg ex) (elapsed e) (Some NUITKA))), files').

Definition Nuitka_get_score (options : CompilationOptions) : Z :=
  let score := 85 in
  let score := if optimize options then score + 10 else score in
  let score := if obfuscate options || encrypt_bytecode options then score + 5 else score in
  let score := score - 5 in
  Z.min 100 (Z.max 0 score).

(** *** CxFreezeBackend *)

Definition nl : string := String "010"%char "".
Definition dq : string := String "034"%char "".
Definition quoted (s : string) : string := dq ++ s ++ dq.

(** [repr] of a list of strings, as an f-string prints it; exact for
    names free of quotes, backslashes and control characters. *)
Definition repr_list (l : list string) : string :=
  "[" ++ Py.join ", " (List.map (fun x => "'" ++ x ++ "'") l) ++ "]".

Definition CxFreeze_generate_setup_script (options : CompilationOptions) : string :=
  let base_name := Py.str_or (output_name options) (Py.path_stem (source_path options)) in
  let icon := Py.str_of_opt (icon_path options) in
  Py.join nl
    [ "";
      "import sys";
      "from cx_Freeze import setup, Executable";
      "";
      "# Options de build";
      "build_options = {";
      "    " ++ quoted "packages" ++ ": [],";
      "    " ++ quoted "excludes" ++ ": " ++ repr_list (exclude_modules options) ++ ",";
      "    " ++ quoted "includes" ++ ": " ++ repr_list (hidden_imports options) ++ ",";
      "    " ++ quoted "optimize" ++ ": " ++ (if optimize options then "1" else "0") ++ ",";
      "}";
      "";
      "# Options d'exécutable";
      "exe_options = {";
      "    " ++ quoted "target_name" ++ ": " ++ quoted (base_name ++ ".exe")
        ++ " if sys.platform == " ++ quoted "win32" ++ " else " ++ quoted base_name ++ ",";
      "}";
      "";
      "if " ++ quoted icon ++ " and sys.platform == " ++ quoted "win32" ++ ":";
      "    exe_options[" ++ quoted "icon" ++ "] = " ++ quoted icon;
      "";
      "executables = [";
      "    Executable(";
      "        " ++ quoted (source_path options) ++ ",";
      "        base=" ++ quoted "Win32GUI" ++ " if not " ++ Py.str_of_bool (console options)
        ++ " and sys.platform == " ++ quoted "win32" ++ " else None,";
      "        **exe_options";
      "    )";
      "]";
      "";
      "setup(";
      "    name=" ++ quoted base_name ++ ",";
      "    version=" ++ quoted "1.0" ++ ",";
      "    options={" ++ quoted "build_exe" ++ ": build_options},";
      "    executables=executables,";
      ")";
      "" ].

Definition CxFreeze_find_output_file (files : Host.fs) (options : CompilationOptions)
  : option string :=
  let base_name := Py.str_or (output_name options) (Py.path_stem (source_path options)) in
  first_existing files
    [Py.path_join (output_path options) (base_name ++ ".exe");
     Py.path_join (output_path options) base_name].

Definition CxFreeze_compile (e : env) (files : Host.fs) (options : CompilationOptions)
  : Py.outcome CompilationResult * Host.fs :=
  let setup_content := CxFreeze_generate_setup_script options in
  let setup_path := Py.path_join (Py.dirname (source_path options)) "temp_setup.py" in
  let '(body, files') :=
    match Host.open_wb (io e) files setup_path with
    | Py.Raise ex => (Py.Raise ex, files)
    | Py.Ret files0 =>
        let files1 := Host.write files0 setup_path (list_byte_of_string setup_content) in
        let cmd :=
          [sys_executable e; setup_path; "build_exe";
           "--build-exe=" +:+ output_path options] in
        (* the inner [try] *)
        let '(inner, files2) :=
          match spawn e cmd (cwd_of (source_path options)) files1 with
          | Host.SpawnRaised ex after => (Py.Raise ex, after)
          | Host.Exited process after =>
              if Host.returncode process =? 0 then
                match found after (CxFreeze_find_output_file after options) with
                | Some output_file =>
                    (file_size ← Host.getsize after output_file;
                     mret (succeeded output_file (elapsed e) file_size CX_FREEZE), after)
                | None =>
                    (mret (failed "Fichier de sortie introuvable" (elapsed e)
                             (Some CX_FREEZE)), after)
                end
              else
                (mret (failed (Py.decode_utf8_ignore (Host.stderr process)) (elapsed e)
                         (Some CX_FREEZE)), after)
          end in
        (* its [finally]: an exception raised here replaces the pending result *)
        if Host.exists_ files2 setup_path then
          match Host.remove (io e) files2 setup_path with
          | Py.Ret files3 => (inner, files3)
          | Py.Raise ex => (Py.Raise ex, files2)
          end
        else (inner, files2)
    end in
  (Py.try_except body
     (fun ex => mret (failed (Py.exn_msg ex) (elapsed e) (Some CX_FREEZE))), files').

Definition CxFreeze_get_score (options : CompilationOptions) : Z :=
  let score := 60 in
  let score := score + 5 in
  let score := if obfuscate options || encrypt_bytecode options then score - 10 else score in
  Z.min 100 (Z.max 0 score).

(** *** The backends behind their common interface *)

Record CompilerBackend := mkBackend {
  name : string;
  is_available : env → bool;
  compile_with : env → Host.fs → CompilationOptions
                 → Py.outcome CompilationResult * Host.fs;
  get_score : CompilationOptions → Z
}.

Definition PyInstallerBackend : CompilerBackend :=
  mkBackend "pyinstaller" (fun e => tool_available e PYINSTALLER)
    PyInstaller_compile PyInstaller_get_score.
Definition NuitkaBackend : CompilerBackend :=
  mkBackend "nuitka" (fun e => tool_available e NUITKA) Nuitka_compile Nuitka_get_score.
Definition CxFreezeBackend : CompilerBackend :=
  mkBackend "cx_freeze" (fun e => tool_available e CX_FREEZE)
    CxFreeze_compile CxFreeze_get_score.

(** *** CompilerEngine *)

(** [self.compilers], in the order the dict literal lists them. *)
Definition compilers : list (CompilerType * CompilerBackend) :=
  [(PYINSTALLER, PyInstallerBackend); (NUITKA, NuitkaBackend);
   (CX_FREEZE, CxFreezeBackend)].

Definition _detect_compilers (e : env) : list (CompilerType * CompilerBackend) :=
  List.filter (fun cb => is_available (snd cb) e) compilers.

Definition select_best_compiler
    (available_compilers : list (CompilerType * CompilerBackend))
    (options : CompilationOptions) : Py.outcome (CompilerType * CompilerBackend) :=
  let requested :=
    match preferred_compiler options with
    | Some c => option_map (fun b => (c, b)) (Py.dict_get c available_compilers)
    | None => None
    end in
  match requested with
  | Some choice => mret choice
  | None =>
      let scores :=
        List.map (fun cb => (fst cb, get_score (snd cb) options)) available_compilers in
      match Py.max_by_score scores with
      | None => Py.Raise (Py.Exn "RuntimeError" "Aucun compilateur disponible")
      | Some (best_compiler, _) =>
          match Py.dict_get best_compiler available_compilers with
          | Some best_backend => mret (best_compiler, best_backend)
          | None => Py.Raise (Py.Exn "KeyError" (value best_compiler))
          end
      end
  end.

(** [CompilerEngine.compile] *)
Definition compile (e : env) (files : Host.fs)
    (available_compilers : list (CompilerType * CompilerBackend))
    (options : CompilationOptions) : Py.outcome CompilationResult * Host.fs :=
  if negb (Host.exists_ files (source_path options)) then
    (mret (failed ("Fichier source introuvable: " ++ source_path options) 0 None), files)
  else
    match Host.makedirs_exist_ok files (output_path options) with
    | Py.Raise ex => (Py.Raise ex, files)
    | Py.Ret _ =>
        let '(body, files') :=
          match select_best_compiler available_compilers options with
          | Py.Raise ex => (Py.Raise ex, files)
          | Py.Ret (_, backend) => compile_with backend e files options
          end in
        (Py.try_except body (fun ex => mret (failed (Py.exn_msg ex) 0 None)), files')
    end.

(** The options with another [preferred_compiler]. *)
Definition with_preferred (c : option CompilerType) (o : CompilationOptions)
  : CompilationOptions :=
  mkCompilationOptions (source_path o) (output_path o) (output_name o) (icon_path o)
    (onefile o) (console o) (optimize o) (debug o) (exclude_modules o) (hidden_imports o)
    (upx_compress o) (upx_level o) (obfuscate o) (encrypt_bytecode o) c
    (nuitka_standalone o) (pyinstaller_collect_all o).

(** The file [CxFreezeBackend.compile] writes its setup script to. *)
Definition CxFreeze_setup_path (options : CompilationOptions) : string :=
  Py.path_join (Py.dirname (source_path options)) "temp_setup.py".

End Compiler.

(** ** protection_manager.py *)

Module Protection.

Inductive ProtectionLevel := BASIC | INTERMEDIATE | ADVANCED | MAXIMUM.

Inductive ObfuscationMethod := PYARMOR | CUSTOM | BYTECODE | STRING_ENCODING | CONTROL_FLOW.

#[global] Instance ProtectionLevel_eq_dec : EqDecision ProtectionLevel.
Proof. solve_decision. Defined.
#[global] Instance ObfuscationMethod_eq_dec : EqDecision ObfuscationMethod.
Proof. solve_decision. Defined.

Definition level_value (l : ProtectionLevel) : string :=
  match l with
  | BASIC => "basic" | INTERMEDIATE => "intermediate"
  | ADVANCED => "advanced" | MAXIMUM => "maximum"
  end.

(** [ProtectionLevel(s)] *)
Definition ProtectionLevel_of_value (s : string) : Py.outcome ProtectionLevel :=
  match List.find (fun l => String.eqb (level_value l) s)
          [BASIC; INTERMEDIATE; ADVANCED; MAXIMUM] with
  | Some l => mret l
  | None => Py.Raise (Py.Exn "ValueError" ("'" ++ s ++ "' is not a valid ProtectionLevel"))
  end.

Record ProtectionOptions := mkProtectionOptions {
  level : ProtectionLevel;
  methods : list ObfuscationMethod;
  obfuscate_names : bool;
  obfuscate_strings : bool;
  encrypt_bytecode : bool;
  add_anti_debug : bool;
  use_pyarmor : bool;
  pyarmor_license : option string;
  pyarmor_exclude : list string;
  custom_key : option string;
  preserve_docstrings : bool;
  obfuscation_depth : Z;
  detect_debugger : bool;
  detect_vm : bool;
  integrity_check : bool
}.

(** The defaults of the dataclass, before [__post_init__]. *)
Definition ProtectionOptions_defaults : ProtectionOptions :=
  mkProtectionOptions INTERMEDIATE [] true true false false false None [] None false 3
    false false false.

Definition with_methods (ms : list ObfuscationMethod) (o : ProtectionOptions)
  : ProtectionOptions :=
  mkProtectionOptions (level o) ms (obfuscate_names o) (obfuscate_strings o)
    (encrypt_bytecode o) (add_anti_debug o) (use_pyarmor o) (pyarmor_license o)
    (pyarmor_exclude o) (custom_key o) (preserve_docstrings o) (obfuscation_depth o)
    (detect_debugger o) (detect_vm o) (integrity_check o).

Definition with_level (l : ProtectionLevel) (o : ProtectionOptions) : ProtectionOptions :=
  mkProtectionOptions l (methods o) (obfuscate_names o) (obfuscate_strings o)
    (encrypt_bytecode o) (add_anti_debug o) (use_pyarmor o) (pyarmor_license o)
    (pyarmor_exclude o) (custom_key o) (preserve_docstrings o) (obfuscation_depth o)
    (detect_debugger o) (detect_vm o) (integrity_check o).

Definition ProtectionOptions_post_init (self : ProtectionOptions) : ProtectionOptions :=
  match methods self with
  | [] =>
      match level self with
      | BASIC => with_methods [BYTECODE] self
      | INTERMEDIATE => with_methods [CUSTOM; STRING_ENCODING] self
      | ADVANCED => with_methods [CUSTOM; STRING_ENCODING; CONTROL_FLOW] self
      | MAXIMUM =>
          with_methods [PYARMOR; CUSTOM; BYTECODE; STRING_ENCODING; CONTROL_FLOW] self
      end
  | _ :: _ => self
  end.

(** A [dict] from original to protected path, in insertion order. *)
Abbreviation path_dict := (list (string * string)).

(** [d[k] = v]: a present key keeps its place. *)
Fixpoint dict_set (d : path_dict) (k v : string) : path_dict :=
  match d with
  | [] => [(k, v)]
  | (k', v') :: rest =>
      if String.eqb k' k then (k, v) :: rest else (k', v') :: dict_set rest k v
  end.

(** [d.update(other)] *)
Definition dict_update (d other : path_dict) : path_dict :=
  List.fold_left (fun acc kv => dict_set acc (fst kv) (snd kv)) other d.

Record ProtectionResult := mkProtectionResult {
  success : bool;
  protected_files : path_dict;
  error_message : option string;
  warnings : list string;
  protection_time : Q;
  methods_applied : list ObfuscationMethod;
  entropy_increase : Q
}.

Definition protected (files : path_dict) (protection_time : Q)
    (applied : list ObfuscationMethod) : ProtectionResult :=
  mkProtectionResult true files None [] protection_time applied 0.

Definition failed (error_message : string) (protection_time : Q) : ProtectionResult :=
  mkProtectionResult false [] (Some error_message) [] protection_time [] 0.

(** *** The syntax trees of [ast] *)

Inductive expr_context := Load | Store | Del.

(** The value of an [ast.Constant]: a [str], or any other literal kept
    as its source text. *)
Inductive constant :=
| CStr (s : string)
| COther (text : string).

(** The node classes the string pass builds or tests, and every other
    class by its name with its child nodes in field order. *)
#[local] Unset Elimination Schemes.
Inductive ast :=
| Constant (value : constant)
| Name (id : string) (ctx : expr_context)
| Attribute (value : ast) (attr : string) (ctx : expr_context)
| Call (func : ast) (args : list ast) (keywords : list ast)
| Node (class : string) (children : list ast).
#[local] Set Elimination Schemes.

(** [len(s)] of a [str]: its code points, that is the bytes of its
    UTF-8 form that are not continuation bytes. *)
Fixpoint str_len (s : string) : Z :=
  match s with
  | EmptyString => 0
  | String c rest =>
      (if ((128 <=? N_of_ascii c) && (N_of_ascii c <? 192))%N then 0 else 1) + str_len rest
  end.

(** The base64 alphabet. *)
Definition b64_char (n : N) : ascii :=
  (if n <? 26 then ascii_of_N (65 + n)
   else if n <? 52 then ascii_of_N (97 + (n - 26))
   else if n <? 62 then ascii_of_N (48 + (n - 52))
   else if n =? 62 then "+"%char
   else "/"%char)%N.

(** [base64.b64encode(data).decode()] *)
Fixpoint b64encode (data : list byte) : string :=
  match data with
  | [] => EmptyString
  | [a] =>
      let x := Byte.to_N a in
      String (b64_char (x / 4))
        (String (b64_char (x mod 4 * 16)) "==")
  | [a; b] =>
      let x := Byte.to_N a in
      let y := Byte.to_N b in
      String (b64_char (x / 4))
        (String (b64_char (x mod 4 * 16 + y / 16))
           (String (b64_char (y mod 16 * 4)) "="))
  | a :: b :: c :: rest =>
      let x := Byte.to_N a in
      let y := Byte.to_N b in
      let z := Byte.to_N c in
      String (b64_char (x / 4))
        (String (b64_char (x mod 4 * 16 + y / 16))
           (String (b64_char (y mod 16 * 4 + z / 64))
              (String (b64_char (z mod 64)) (b64encode rest))))
  end%N.

(** The call node [visit_Constant] builds around the encoded text. *)
Definition decode_call (encoded : string) : ast :=
  Call (Attribute (Attribute (Name "base64" Load) "b64decode" Load) "decode" Load)
    [Constant (CStr encoded)] [].

(** [StringObfuscator().visit]: [visit_Constant] on a constant,
    [generic_visit] on every other node. *)
Fixpoint StringObfuscator_visit (node : ast) : ast :=
  match node with
  | Constant (CStr s) =>
      if 3 <? str_len s then decode_call (b64encode (list_byte_of_string s)) else node
  | Constant (COther _) => node
  | Name _ _ => node
  | Attribute value attr ctx => Attribute (StringObfuscator_visit value) attr ctx
  | Call func args keywords =>
      Call (StringObfuscator_visit func) (List.map StringObfuscator_visit args)
        (List.map StringObfuscator_visit keywords)
  | Node class children => Node class (List.map StringObfuscator_visit children)
  end.

Definition _obfuscate_strings (tree : ast) : ast := StringObfuscator_visit tree.

(** Induction on trees, with the children of a node under [Forall]. *)
Section ast_induction.
Variable P : ast → Prop.
Hypothesis on_Constant : ∀ value, P (Constant value).
Hypothesis on_Name : ∀ id ctx, P (Name id ctx).
Hypothesis on_Attribute : ∀ value attr ctx, P value → P (Attribute value attr ctx).
Hypothesis on_Call :
  ∀ func args keywords,
    P func → Forall P args → Forall P keywords → P (Call func args keywords).
Hypothesis on_Node : ∀ class children, Forall P children → P (Node class children).

Fixpoint ast_ind (node : ast) : P node :=
  let all :=
    fix all (l : list ast) : Forall P l :=
      match l with
      | [] => @List.Forall_nil _ P
      | x :: l' => @List.Forall_cons _ P x l' (ast_ind x) (all l')
      end in
  match node with
  | Constant value => on_Constant value
  | Name id ctx => on_Name id ctx
  | Attribute value attr ctx => on_Attribute value attr ctx (ast_ind value)
  | Call func args keywords =>
      on_Call func args keywords (ast_ind func) (all args) (all keywords)
  | Node class children => on_Node class children (all children)
  end.
End ast_induction.

(** The string literals of a tree that are longer than 3 characters. *)
Fixpoint long_strings (node : ast) : nat :=
  match node with
  | Constant (CStr s) => if (3 <? str_len s)%Z then 1 else 0
  | Constant (COther _) => 0
  | Name _ _ => 0
  | Attribute value _ _ => long_strings value
  | Call func args keywords =>
      long_strings func + list_sum (List.map long_strings args)
      + list_sum (List.map long_strings keywords)
  | Node _ children => list_sum (List.map long_strings children)
  end%nat.

(** The number of nodes of a tree. *)
Fixpoint tree_size (node : ast) : nat :=
  match node with
  | Constant _ => 1
  | Name _ _ => 1
  | Attribute value _ _ => 1 + tree_size value
  | Call func args keywords =>
      1 + tree_size func + list_sum (List.map tree_size args)
      + list_sum (List.map tree_size keywords)
  | Node _ children => 1 + list_sum (List.map tree_size children)
  end%nat.

(** *** What the module takes from the host and from its libraries *)

Record env := mkEnv {
  pyarmor_path : option string;               (* [_find_pyarmor()] *)
  CRYPTO_AVAILABLE : bool;
  astor_installed : bool;
  parse : string → Py.outcome ast;            (* [ast.parse] *)
  to_source : ast → Py.outcome string;        (* [astor.to_source] *)
  rename : ast → ast;                         (* [NameObfuscator().visit], names drawn *)
  add_noise : ast → ast;                      (* [ControlFlowObfuscator().visit], draws made *)
  anti_debug_body : list ast;                 (* [ast.parse(anti_debug_code).body] *)
  run_pyarmor : string → ProtectionOptions → Host.fs
                → Py.outcome ProtectionResult * Host.fs;
  encrypt_file : string → ProtectionOptions → Host.fs → Py.outcome string * Host.fs;
  elapsed : Q;
  io : Host.faults
}.

(** *** CustomObfuscator *)

Definition _obfuscate_names (e : env) (tree : ast) : ast := rename e tree.

Definition _obfuscate_control_flow (e : env) (tree : ast) : ast := add_noise e tree.

Definition _add_anti_debug_code (e : env) (tree : ast) : ast :=
  match tree with
  | Node "Module" body => Node "Module" (anti_debug_body e ++ body)
  | _ => tree
  end.

Definition has_method (m : ObfuscationMethod) (ms : list ObfuscationMethod) : bool :=
  List.existsb (fun m' => bool_decide (m' = m)) ms.

Definition _obfuscate_file (e : env) (files : Host.fs) (file_path : string)
    (options : ProtectionOptions) : Py.outcome string * Host.fs :=
  match Host.read_bytes files file_path with
  | Py.Raise ex => (Py.Raise ex, files)
  | Py.Ret raw =>
      let source_code := Py.decode_utf8_ignore raw in
      match parse e source_code with
      | Py.Raise ex => (Py.Raise ex, files)
      | Py.Ret tree =>
          let tree := if obfuscate_names options then _obfuscate_names e tree else tree in
          let tree := if obfuscate_strings options then _obfuscate_strings tree else tree in
          let tree :=
            if has_method CONTROL_FLOW (methods options)
            then _obfuscate_control_flow e tree else tree in
          let tree := if add_anti_debug options then _add_anti_debug_code e tree else tree in
          if negb (astor_installed e) then
            (Py.Raise (Py.Exn "ModuleNotFoundError" "No module named 'astor'"), files)
          else
            match to_source e tree with
            | Py.Raise ex => (Py.Raise ex, files)
            | Py.Ret obfuscated_code =>
                let output_path := file_path ++ ".obfuscated" in
                match Host.open_wb (io e) files output_path with
                | Py.Raise ex => (Py.Raise ex, files)
                | Py.Ret files1 =>
                    (mret output_path,
                     Host.write files1 output_path (list_byte_of_string obfuscated_code))
                end
            end
      end
  end.

(** The [.py] files [os.walk(source_path)] meets. *)
Definition walk_py (files : Host.fs) (source_path : string) : list string :=
  List.filter
    (fun p => String.prefix (source_path ++ "/") p && Py.endswith p ".py")
    (List.map fst (map_to_list files)).

(** The loop of [protect] over the files of a directory: the first file
    that raises ends it. *)
Fixpoint protect_each (one : string → Host.fs → Py.outcome string * Host.fs)
    (paths : list string) (protected_files : path_dict) (files : Host.fs)
  : Py.outcome path_dict * Host.fs :=
  match paths with
  | [] => (mret protected_files, files)
  | file_path :: rest =>
      match one file_path files with
      | (Py.Raise ex, files') => (Py.Raise ex, files')
      | (Py.Ret result_path, files') =>
          protect_each one rest (dict_set protected_files file_path result_path) files'
      end
  end.

Definition protect_with (e : env) (m : ObfuscationMethod)
    (one : string → Host.fs → Py.outcome string * Host.fs)
    (files : Host.fs) (source_path : string) : Py.outcome ProtectionResult * Host.fs :=
  let paths :=
    if Host.exists_ files source_path then [source_path] else walk_py files source_path in
  match protect_each one paths [] files with
  | (Py.Ret protected_files, files') =>
      (mret (protected protected_files (elapsed e) [m]), files')
  | (Py.Raise ex, files') => (mret (failed (Py.exn_msg ex) (elapsed e)), files')
  end.

Definition Custom_protect (e : env) (files : Host.fs) (source_path : string)
    (options : ProtectionOptions) : Py.outcome ProtectionResult * Host.fs :=
  protect_with e CUSTOM (fun p fs => _obfuscate_file e fs p options) files source_path.

Definition Custom_get_score (options : ProtectionOptions) : Z :=
  let score := 75 in
  let score := if obfuscate_names options then score + 5 else score in
  let score := if obfuscate_strings options then score + 5 else score in
  let score := if add_anti_debug options then score + 10 else score in
  Z.min 100 score.

(** *** PyArmorProtector and BytecodeEncryptor *)

Definition PyArmor_protect (e : env) (files : Host.fs) (source_path : string)
    (options : ProtectionOptions) : Py.outcome ProtectionResult * Host.fs :=
  match pyarmor_path e with
  | None => (mret (failed "PyArmor non disponible" 0), files)
  | Some _ => run_pyarmor e source_path options files
  end.

Definition PyArmor_get_score (options : ProtectionOptions) : Z :=
  let score := 90 in
  let score :=
    match level options with
    | ADVANCED | MAXIMUM => score + 10
    | _ => score
    end in
  Z.min 100 score.

Definition Bytecode_protect (e : env) (files : Host.fs) (source_path : string)
    (options : ProtectionOptions) : Py.outcome ProtectionResult * Host.fs :=
  if negb (CRYPTO_AVAILABLE e) then
    (mret (failed "Module cryptographique non disponible" 0), files)
  else
    protect_with e BYTECODE (fun p fs => encrypt_file e p options fs) files source_path.

Definition Bytecode_get_score (e : env) (options : ProtectionOptions) : Z :=
  if negb (CRYPTO_AVAILABLE e) then 0
  else
    let score := 80 in
    let score := if encrypt_bytecode options then score + 15 else score in
    Z.min 100 score.

(** *** The backends behind their common interface *)

Record ProtectionBackend := mkBackend {
  name : string;
  is_available : env → bool;
  protect : env → Host.fs → string → ProtectionOptions
            → Py.outcome ProtectionResult * Host.fs;
  get_score : env → ProtectionOptions → Z
}.

Definition PyArmorProtector : ProtectionBackend :=
  mkBackend "pyarmor"
    (fun e => match pyarmor_path e with Some _ => true | None => false end)
    PyArmor_protect (fun _ => PyArmor_get_score).
Definition CustomObfuscator : ProtectionBackend :=
  mkBackend "custom" (fun _ => true) Custom_protect (fun _ => Custom_get_score).
Definition BytecodeEncryptor : ProtectionBackend :=
  mkBackend "bytecode" CRYPTO_AVAILABLE Bytecode_protect Bytecode_get_score.

(** *** ProtectionManager *)

Definition protectors : list (ObfuscationMethod * ProtectionBackend) :=
  [(PYARMOR, PyArmorProtector); (CUSTOM, CustomObfuscator); (BYTECODE, BytecodeEncryptor)].

Definition _detect_protectors (e : env) : list (ObfuscationMethod * ProtectionBackend) :=
  List.filter (fun mb => is_available (snd mb) e) protectors.

(** The local variables of the loop of [protect_code]. *)
Record progress := mkProgress {
  current_path : string;
  all_protected_files : path_dict;
  all_methods : list ObfuscationMethod;
  total_time : Q
}.

(** [next(iter(d.values()))] when [d] is not empty *)
Definition first_value (d : path_dict) : option string :=
  match d with
  | [] => None
  | (_, v) :: _ => Some v
  end.

(** The [for method in options.methods] loop.  The third component lists
    the methods whose protector was called, in order (the code logs
    "Application de <method>" before each call). *)
Fixpoint protect_loop (e : env)
    (available_protectors : list (ObfuscationMethod * ProtectionBackend))
    (options : ProtectionOptions) (todo : list ObfuscationMethod)
    (st : progress) (files : Host.fs)
  : Py.outcome ProtectionResult * Host.fs * list ObfuscationMethod :=
  match todo with
  | [] =>
      (mret (protected (all_protected_files st) (total_time st) (all_methods st)),
       files, [])
  | method :: rest =>
      match Py.dict_get method available_protectors with
      | None => protect_loop e available_protectors options rest st files
      | Some protector =>
          match protect protector e files (current_path st) options with
          | (Py.Raise ex, files') => (Py.Raise ex, files', [method])
          | (Py.Ret result, files') =>
              if success result then
                let st' :=
                  mkProgress
                    (match first_value (protected_files result) with
                     | Some v => v
                     | None => current_path st
                     end)
                    (dict_update (all_protected_files st) (protected_files result))
                    (all_methods st ++ methods_applied result)
                    (total_time st + protection_time result)%Q in
                let '(r, files'', called) :=
                  protect_loop e available_protectors options rest st' files' in
                (r, files'', method :: called)
              else (mret result, files', [method])
          end
      end
  end.

(** [if isinstance(level, str): level = ProtectionLevel(level)] *)
Definition as_level (level : ProtectionLevel + string) : Py.outcome ProtectionLevel :=
  match level with
  | inl l => mret l
  | inr s => ProtectionLevel_of_value s
  end.

(** [method in self.available_protectors] *)
Definition is_available_method {B} (available_protectors : list (ObfuscationMethod * B))
    (m : ObfuscationMethod) : bool :=
  match Py.dict_get m available_protectors with Some _ => true | None => false end.

(** [protect_code(source_path, level, **kwargs)]; [kwargs] gives the
    remaining fields of the options. *)
Definition protect_code (e : env) (files : Host.fs)
    (available_protectors : list (ObfuscationMethod * ProtectionBackend))
    (source_path : string) (level : ProtectionLevel + string)
    (kwargs : ProtectionOptions)
  : Py.outcome ProtectionResult * Host.fs * list ObfuscationMethod :=
  if negb (Host.exists_ files source_path) then
    (mret (failed ("Fichier/dossier non trouvé: " ++ source_path) 0), files, [])
  else
    match as_level level with
    | Py.Raise ex => (Py.Raise ex, files, [])
    | Py.Ret level =>
        let options := ProtectionOptions_post_init (with_level level kwargs) in
        let '(body, files', called) :=
          protect_loop e available_protectors options (methods options)
            (mkProgress source_path [] [] 0) files in
        (Py.try_except body (fun ex => mret (failed (Py.exn_msg ex) 0)), files', called)
    end.

(** [method.value] *)
Definition method_value (m : ObfuscationMethod) : string :=
  match m with
  | PYARMOR => "pyarmor" | CUSTOM => "custom" | BYTECODE => "bytecode"
  | STRING_ENCODING => "string_encoding" | CONTROL_FLOW => "control_flow"
  end.

(** [select_best_protector]: the available protectors of the requested
    methods are scored; when there is none, the custom obfuscator is the
    fallback. *)
Definition select_best_protector (e : env)
    (available_protectors : list (ObfuscationMethod * ProtectionBackend))
    (options : ProtectionOptions) : Py.outcome (ObfuscationMethod * ProtectionBackend) :=
  let available_methods :=
    List.filter (fun mb => has_method (fst mb) (methods options)) available_protectors in
  match available_methods with
  | [] =>
      match Py.dict_get CUSTOM available_protectors with
      | Some custom => mret (CUSTOM, custom)
      | None => Py.Raise (Py.Exn "RuntimeError" "Aucun protecteur disponible")
      end
  | _ :: _ =>
      let scores :=
        List.map (fun mb => (fst mb, get_score (snd mb) e options)) available_methods in
      match Py.max_by_score scores with
      | None => Py.Raise (Py.Exn "ValueError" "max() arg is an empty sequence")
      | Some (best_method, _) =>
          match Py.dict_get best_method available_methods with
          | Some best_protector => mret (best_method, best_protector)
          | None => Py.Raise (Py.Exn "KeyError" (method_value best_method))
          end
      end
  end.

(** The string literals of a tree, in the order of its fields. *)
Fixpoint string_literals (node : ast) : list string :=
  match node with
  | Constant (CStr s) => [s]
  | Constant (COther _) => []
  | Name _ _ => []
  | Attribute value _ _ => string_literals value
  | Call func args keywords =>
      (string_literals func ++ List.concat (List.map string_literals args)
       ++ List.concat (List.map string_literals keywords))%list
  | Node _ children => List.concat (List.map string_literals children)
  end.

End Protection.

(** ** dependency_analyzer.py *)

Module Analyzer.

Record DependencyInfo := mkDependencyInfo {
  name : string;
  version : option string;
  location : option string;
  is_builtin : bool;
  is_local : bool;
  is_third_party : bool;
  size_estimate : Z;
  required_by : gset string;
  imports : gset string;
  sub_dependencies : gset string
}.

(** [DependencyInfo(name=module_name)] *)
Definition DependencyInfo_new (module_name : string) : DependencyInfo :=
  mkDependencyInfo module_name None None false false false 0 ∅ ∅ ∅.

(** A module spec as [importlib.util.find_spec] returns it: its [origin]. *)
Record ModuleSpec := mkModuleSpec { origin : option string }.

Record env := mkEnv {
  _builtin_modules : gset string;             (* [sys.builtin_module_names] *)
  _stdlib_modules : gset string;              (* [_get_stdlib_modules()] *)
  find_spec : string → Py.outcome (option ModuleSpec);
  dist_version : string → Py.outcome string;  (* [importlib.metadata.version] *)
  _static_analysis : string → bool → gmap string (gset string);
  _dynamic_analysis : string → gmap string (gset string);
  _get_directory_size : string → Z
}.

Definition _get_module_info (e : env) (module_name : string) : DependencyInfo :=
  let info := DependencyInfo_new module_name in
  if bool_decide (module_name ∈ _builtin_modules e)
     || bool_decide (module_name ∈ _stdlib_modules e) then
    mkDependencyInfo module_name None None true false false 0 ∅ ∅ ∅
  else
    match find_spec e module_name with
    | Py.Raise _ => info
    | Py.Ret None => info
    | Py.Ret (Some spec) =>
        match origin spec with
        | Some path =>
            if String.eqb path "" then
              mkDependencyInfo module_name None (Some path) false false false 0 ∅ ∅ ∅
            else if negb (Py.contains "site-packages" path) then
              mkDependencyInfo module_name None (Some path) false true false 0 ∅ ∅ ∅
            else
              let v := match dist_version e module_name with
                       | Py.Ret v => Some v
                       | Py.Raise _ => None
                       end in
              mkDependencyInfo module_name v (Some path) false false true 0 ∅ ∅ ∅
        | None => info
        end
    end.

(** [merged[module].update(deps)] for the static, then the dynamic map *)
Definition _merge_dependencies (static dynamic : gmap string (gset string))
  : gmap string (gset string) :=
  union_with (fun a b => Some (a ∪ b)) static dynamic.

Definition add_required_by (parent : string) (info : DependencyInfo) : DependencyInfo :=
  mkDependencyInfo (name info) (version info) (location info) (is_builtin info)
    (is_local info) (is_third_party info) (size_estimate info)
    ({[parent]} ∪ required_by info) (imports info) (sub_dependencies info).

(** [for module_deps in dependencies.values(): all_modules.update(module_deps)] *)
Definition collect_modules (dependencies : gmap string (gset string)) : gset string :=
  map_fold (fun _ module_deps all_modules => all_modules ∪ module_deps) ∅ dependencies.

(** The loop that classifies each module. *)
Definition classify_each (e : env) (include_stdlib : bool) (all_modules : gset string)
  : gmap string DependencyInfo :=
  set_fold
    (fun module classified =>
       let info := _get_module_info e module in
       if negb include_stdlib && is_builtin info then classified
       else <[module := info]> classified)
    ∅ all_modules.

(** [if dep in classified: classified[dep].required_by.add(parent)] *)
Definition relate (parent dep : string) (classified : gmap string DependencyInfo)
  : gmap string DependencyInfo :=
  match classified !! dep with
  | Some info => <[dep := add_required_by parent info]> classified
  | None => classified
  end.

Definition _classify_dependencies (e : env) (dependencies : gmap string (gset string))
    (include_stdlib : bool) : gmap string DependencyInfo :=
  let all_modules := collect_modules dependencies in
  let classified := classify_each e include_stdlib all_modules in
  map_fold
    (fun parent deps classified => set_fold (relate parent) classified deps)
    classified dependencies.

Definition with_size (size : Z) (info : DependencyInfo) : DependencyInfo :=
  mkDependencyInfo (name info) (version info) (location info) (is_builtin info)
    (is_local info) (is_third_party info) size
    (required_by info) (imports info) (sub_dependencies info).

(** The body of the loop of [_estimate_sizes]. *)
Definition estimate_size (e : env) (files : Host.fs) (info : DependencyInfo) : Z :=
  let by_type :=
    if is_builtin info then 1024
    else if is_third_party info then 50 * 1024
    else 5 * 1024 in
  match location info with
  | Some loc =>
      if negb (String.eqb loc "") && Host.exists_ files loc then
        match Host.getsize files loc with
        | Py.Ret size =>
            if Py.endswith loc "__init__.py"
            then size + _get_directory_size e (Py.path_parent loc)
            else size
        | Py.Raise _ => 1024
        end
      else by_type
  | None => by_type
  end.

Definition _estimate_sizes (e : env) (files : Host.fs)
    (dependencies : gmap string DependencyInfo) : gmap string DependencyInfo :=
  (fun info => with_size (estimate_size e files info) info) <$> dependencies.

(** The fields of [AnalysisResult] that derive from the classified
    graph; the list of cycles and the wall time are left out. *)
Record AnalysisResult := mkAnalysisResult {
  dependencies : gmap string DependencyInfo;
  builtin_modules : gset string;
  third_party_modules : gset string;
  local_modules : gset string;
  missing_modules : gset string;
  total_size_estimate : Z
}.

Definition names_where (p : DependencyInfo → bool) (classified : gmap string DependencyInfo)
  : gset string :=
  dom (filter (fun kv => p (snd kv) = true) classified).

Definition analyze_dependencies (e : env) (files : Host.fs) (script_path : string)
    (include_stdlib deep_analysis : bool) : Py.outcome AnalysisResult :=
  if negb (Host.exists_ files script_path) then
    Py.Raise (Py.Exn "FileNotFoundError" ("Script non trouvé: " ++ script_path))
  else
    let static_deps := _static_analysis e script_path deep_analysis in
    let dynamic_deps := _dynamic_analysis e script_path in
    let all_deps := _merge_dependencies static_deps dynamic_deps in
    let classified := _classify_dependencies e all_deps include_stdlib in
    let classified := _estimate_sizes e files classified in
    let total_size :=
      map_fold (fun _ dep total => total + size_estimate dep) 0 classified in
    mret (mkAnalysisResult classified
            (names_where is_builtin classified)
            (names_where is_third_party classified)
            (names_where is_local classified)
            ∅ total_size).

(** *** Circular dependencies *)

(** The three variables [find_cycles] shares with its local [dfs]. *)
Record search := mkSearch {
  visited : gset string;
  rec_stack : gset string;
  cycles : list (list string)
}.

(** [graph.get(node, [])] on the graph kept in insertion order. *)
Definition neighbors (graph : list (string * list string)) (node : string) : list string :=
  match Py.dict_get node graph with
  | Some l => l
  | None => []
  end.

(** [path.index(node)] *)
Fixpoint index (node : string) (path : list string) : Py.outcome nat :=
  match path with
  | [] => Py.Raise (Py.Exn "ValueError" ("'" ++ node ++ "' is not in list"))
  | x :: rest => if String.eqb x node then mret O else i ← index node rest; mret (S i)
  end.

(** The local function [dfs].  [depth] counts the calls the interpreter
    still allows to nest: when none is left the call raises
    [RecursionError]. *)
Fixpoint dfs (depth : nat) (graph : list (string * list string)) (node : string)
    (path : list string) (st : search) : Py.outcome search :=
  match depth with
  | O => Py.Raise (Py.Exn "RecursionError" "maximum recursion depth exceeded")
  | S depth' =>
      if bool_decide (node ∈ rec_stack st) then
        cycle_start ← index node path;
        mret (mkSearch (visited st) (rec_stack st)
                (cycles st ++ [drop cycle_start path ++ [node]])%list)
      else if bool_decide (node ∈ visited st) then mret st
      else
        let entered :=
          mkSearch ({[node]} ∪ visited st) ({[node]} ∪ rec_stack st) (cycles st) in
        st' ← (fix each (todo : list string) (st : search) : Py.outcome search :=
                 match todo with
                 | [] => mret st
                 | neighbor :: rest =>
                     st' ← dfs depth' graph neighbor (path ++ [neighbor])%list st;
                     each rest st'
                 end) (neighbors graph node) entered;
        mret (mkSearch (visited st') (rec_stack st' ∖ {[node]}) (cycles st'))
  end.

(** [for node in graph: if node not in visited: dfs(node, [node])] *)
Fixpoint find_from (depth : nat) (graph : list (string * list string))
    (todo : list string) (st : search) : Py.outcome search :=
  match todo with
  | [] => mret st
  | node :: rest =>
      if bool_decide (node ∈ visited st) then find_from depth graph rest st
      else st' ← dfs depth graph node [node] st; find_from depth graph rest st'
  end.

Definition find_cycles (depth : nat) (graph : list (string * list string))
  : Py.outcome (list (list string)) :=
  st ← find_from depth graph (List.map fst graph) (mkSearch ∅ ∅ []);
  mret (cycles st).

(** [_detect_circular_dependencies]: the graph maps each key to the list
    of its [required_by] set.  [items] and [iteration] give the order in
    which the interpreter iterates over the dict and over a set. *)
Definition _detect_circular_dependencies (depth : nat)
    (items : gmap string DependencyInfo → list (string * DependencyInfo))
    (iteration : gset string → list string)
    (dependencies : gmap string DependencyInfo) : Py.outcome (list (list string)) :=
  let graph :=
    List.map (fun ni => (fst ni, iteration (required_by (snd ni)))) (items dependencies) in
  find_cycles depth graph.

End Analyzer.

(** ** file_utils.py *)

Module FileUtils.

(** [FileUtils.backup_file(file_path, backup_suffix)] *)
Definition backup_file (f : Host.faults) (files : Host.fs) (file_path backup_suffix : string)
  : Py.outcome string * Host.fs :=
  let backup_path := file_path ++ backup_suffix in
  match Host.copy2 f files file_path backup_path with
  | Py.Ret files' => (mret backup_path, files')
  | Py.Raise ex => (Py.Raise ex, files)
  end.

(** [FileUtils.restore_backup(backup_path, original_path)] *)
Definition restore_backup (f : Host.faults) (files : Host.fs) (backup_path : string)
    (original_path : option string) : bool * Host.fs :=
  let original_path :=
    match original_path with
    | None => Py.replace ".backup" "" backup_path
    | Some p => p
    end in
  match Host.move f files backup_path original_path with
  | Py.Ret files' => (true, files')
  | Py.Raise _ => (false, files)
  end.

End FileUtils.

(** ** Concrete hosts and jobs used as test inputs *)

Module Scenario.

(** A result built with an explicit [compression_ratio] and no sizes:
    [CompressionResult(success=False, compression_ratio=0.5)]. *)
Definition explicit_ratio : Compression.CompressionResult :=
  Compression.mkCompressionResult false 0 0 (1 # 2) 0 None None None None.

(** [CompressionResult(success=True, original_size=1000, compressed_size=400)] *)
Definition sized_result : Compression.CompressionResult :=
  Compression.mkCompressionResult true 1000 400 0 0 None None None None.

(** A host on which the three compilers answer their version probe and
    every child process exits with 0 and touches no file. *)
Definition all_compilers : Compiler.env :=
  Compiler.mkEnv (fun _ => true)
    (fun _ _ files => Host.Exited (Host.Completed 0 [] []) files)
    0 "python" Host.no_faults.

(** [CompilationOptions("app.py", "dist")]: [optimize] is on, no
    obfuscation, no preferred compiler. *)
Definition default_job : Compiler.CompilationOptions :=
  Compiler.CompilationOptions_defaults "app.py" "dist".

(** A host without UPX and without Brotli; its codecs copy their input. *)
Definition plain_host : Compression.env :=
  Compression.mkEnv None false false
    (fun _ _ data => Py.Ret data) (fun _ _ data => Py.Ret data) (fun _ => 0%Q)
    (fun _ files => Host.Exited (Host.Completed 0 [] []) files)
    0 (fun _ => false) Host.no_faults.

Definition hello_bytes : list byte := list_byte_of_string "hello".

(** One regular file, [app.py], holding [hello]. *)
Definition one_file : Host.fs := {[ "app.py" := hello_bytes ]}.

(** The "hello" program of the specification: [hello.py] imports [os],
    [sys], [json] and [datetime], all four in the standard library; the
    trace of the dynamic pass is empty. *)
Definition hello_imports : gset string := {[ "os"; "sys"; "json"; "datetime" ]}.

Definition hello_host : Analyzer.env :=
  Analyzer.mkEnv {[ "sys" ]} hello_imports
    (fun _ => Py.Ret None) (fun m => Py.Raise (Py.Exn "PackageNotFoundError" m))
    (fun _ _ => {[ "hello" := hello_imports ]}) (fun _ => ∅) (fun _ => 0).

Definition hello_files : Host.fs := {[ "hello.py" := hello_bytes ]}.

(** A hundred zero bytes: every byte repeats its predecessor. *)
Definition zeros : list byte := List.repeat x00 100.

(** The tree of [print("hello")] followed by the expression ["abc"]. *)
Definition print_hello : Protection.ast :=
  Protection.Node "Module"
    [Protection.Node "Expr"
       [Protection.Call (Protection.Name "print" Protection.Load)
          [Protection.Constant (Protection.CStr "hello")] []];
     Protection.Node "Expr" [Protection.Constant (Protection.CStr "abc")]].

(** A tree whose only string literal has three characters. *)
Definition short_only : Protection.ast :=
  Protection.Node "Module" [Protection.Node "Expr" [Protection.Constant (Protection.CStr "abc")]].

(** A host with no PyArmor, no crypto library and no [astor]. *)
Definition bare_protection : Protection.env :=
  Protection.mkEnv None false false
    (fun _ => Py.Raise (Py.Exn "SyntaxError" "invalid syntax"))
    (fun _ => Py.Ret "") (fun t => t) (fun t => t) []
    (fun _ _ files => (Py.Ret (Protection.failed "PyArmor non disponible" 0), files))
    (fun _ _ files => (Py.Raise (Py.Exn "ImportError" "No module named 'Crypto'"), files))
    0 Host.no_faults.

(** [app.py] next to a built [dist/app.exe]. *)
Definition built_files : Host.fs :=
  {[ "app.py" := hello_bytes; "dist/app.exe" := Compression.MZ ]}.

(** [app.py] next to a regular file named [dist]. *)
Definition dist_is_a_file : Host.fs :=
  {[ "app.py" := hello_bytes; "dist" := hello_bytes ]}.

(** A host whose compilers all exit with 1 and write nothing to stderr. *)
Definition silent_failure : Compiler.env :=
  Compiler.mkEnv (fun _ => true)
    (fun _ _ files => Host.Exited (Host.Completed 1 [] []) files)
    0 "python" Host.no_faults.

(** An artifact and what a failing compressor leaves of it. *)
Definition artifact : list byte := (Compression.MZ ++ hello_bytes)%list.
Definition damaged : list byte := Compression.MZ.
Definition artifact_files : Host.fs := {[ "app.exe" := artifact ]}.

(** A host with UPX on which the backup copy is refused; the compressor
    damages the artifact and exits with 1. *)
Definition no_backup_host : Compression.env :=
  Compression.mkEnv (Some "upx") true false
    (fun _ _ data => Py.Ret data) (fun _ _ data => Py.Ret data) (fun _ => 0%Q)
    (fun _ files => Host.Exited (Host.Completed 1 [] []) (<[ "app.exe" := damaged ]> files))
    0 (fun _ => false) (Host.Faults true false false false).

(** The same compressor on a host that refuses nothing. *)
Definition upx_host : Compression.env :=
  Compression.mkEnv (Some "upx") true false
    (fun _ _ data => Py.Ret data) (fun _ _ data => Py.Ret data) (fun _ => 0%Q)
    (fun _ files => Host.Exited (Host.Completed 1 [] []) (<[ "app.exe" := damaged ]> files))
    0 (fun _ => false) Host.no_faults.

(** A host that takes the backup but refuses to move it back. *)
Definition no_restore_host : Compression.env :=
  Compression.mkEnv (Some "upx") true false
    (fun _ _ data => Py.Ret data) (fun _ _ data => Py.Ret data) (fun _ => 0%Q)
    (fun _ files => Host.Exited (Host.Completed 1 [] []) (<[ "app.exe" := damaged ]> files))
    0 (fun _ => false) (Host.Faults false true false false).

(** A host without PyArmor and crypto library but with [astor]: every
    file parses to the tree of [print_hello] and unparses to [pass]. *)
Definition obfuscating_host : Protection.env :=
  Protection.mkEnv None false true (fun _ => Py.Ret print_hello) (fun _ => Py.Ret "pass")
    (fun t => t) (fun t => t) []
    (fun _ _ files => (Py.Ret (Protection.failed "PyArmor non disponible" 0), files))
    (fun _ _ files => (Py.Raise (Py.Exn "ImportError" "No module named 'Crypto'"), files))
    0 Host.no_faults.

End Scenario.

(** * Properties *)

Local Open Scope list_scope.

(** ** The Python fragment on small inputs *)

Example path_join_examples :
  Py.path_join "dist" "app.exe" = "dist/app.exe"
  ∧ Py.path_join "dist/" "app" = "dist/app"
  ∧ Py.path_join "dist" "/abs" = "/abs"
  ∧ Py.path_join "" "app" = "app".
Proof. repeat split; reflexivity. Qed.

Example pathlib_examples :
  Py.path_stem "/home/u/app.py" = "app"
  ∧ Py.path_stem "archive.tar.gz" = "archive.tar"
  ∧ Py.path_stem ".bashrc" = ".bashrc"
  ∧ Py.path_stem "./dist" = "dist"
  ∧ Py.path_suffix "a/File.TXT" = ".TXT"
  ∧ Py.path_normal "./dist/" = "dist"
  ∧ Py.path_normal "" = "."
  ∧ Py.path_parent "out/app.exe" = "out"
  ∧ Py.path_parent "app.exe" = "."
  ∧ Py.dirname "/home/u/app.py" = "/home/u"
  ∧ Py.dirname "app.py" = "".
Proof. repeat split; reflexivity. Qed.

Example decode_ignore_example :
  Py.decode_utf8_ignore [x41; xe2; x82; xac; xff; x42; xe2; x82]%byte
  = String "A"%char (String "226"%char (String "130"%char (String "172"%char "B")))
  ∧ Py.decode_utf8_ignore [] = "".
Proof. split; reflexivity. Qed.

Example b64encode_examples :
  Protection.b64encode (list_byte_of_string "hello") = "aGVsbG8="
  ∧ Protection.b64encode (list_byte_of_string "hell") = "aGVsbA=="
  ∧ Protection.b64encode [xff; xfe; xfd; xfb]%byte = "//79+w=="
  ∧ Protection.str_len "hello" = 5.
Proof. repeat split; reflexivity. Qed.

Example commands_of_the_default_job :
  Compiler.PyInstaller_command ∅ Scenario.default_job
  = ["pyinstaller"; "--onefile"; "--windowed"; "--log-level=WARN"; "--name"; "dist";
     "--distpath"; "dist"; "app.py"]
  ∧ Compression.UPX_command "upx" "app.exe" Compression.CompressionOptions_defaults
    = ["upx"; "--ultra-brute"; "--force"; "-qq"; "app.exe"].
Proof. split; reflexivity. Qed.

(** ** Protection options (C7) *)

(** C7.  When the job gives no method list, [__post_init__] installs the
    list of its level: basic gives bytecode; intermediate gives
    self-obfuscator, string-encode; advanced adds control-flow; maximum
    gives external, self-obfuscator, bytecode, string-encode, control-flow.
    A non-empty explicit list leaves the options as they are. *)
Theorem default_methods_by_level (o : Protection.ProtectionOptions) :
  let init l ms :=
    Protection.ProtectionOptions_post_init
      (Protection.with_level l (Protection.with_methods ms o)) in
  Protection.methods (init Protection.BASIC []) = [Protection.BYTECODE]
  ∧ Protection.methods (init Protection.INTERMEDIATE [])
    = [Protection.CUSTOM; Protection.STRING_ENCODING]
  ∧ Protection.methods (init Protection.ADVANCED [])
    = [Protection.CUSTOM; Protection.STRING_ENCODING; Protection.CONTROL_FLOW]
  ∧ Protection.methods (init Protection.MAXIMUM [])
    = [Protection.PYARMOR; Protection.CUSTOM; Protection.BYTECODE;
       Protection.STRING_ENCODING; Protection.CONTROL_FLOW]
  ∧ ∀ l m ms,
      init l (m :: ms) = Protection.with_level l (Protection.with_methods (m :: ms) o).
Proof. cbn. repeat split. Qed.

(** The other fields of the options are not touched by [__post_init__]. *)
Lemma post_init_keeps_level (o : Protection.ProtectionOptions) :
  Protection.level (Protection.ProtectionOptions_post_init o) = Protection.level o.
Proof. destruct o as [l ms]; destruct ms, l; reflexivity. Qed.

(** ** Compression results (C9) *)

(** The guard of [__post_init__] keeps the division defined. *)
Lemma truediv_positive (a b : Z) :
  0 < b → Compression.truediv a b = Py.Ret (inject_Z a / inject_Z b)%Q.
Proof.
  intros Hb. unfold Compression.truediv.
  destruct (Z.eqb_spec b 0) as [->|_]; [lia | reflexivity].
Qed.

Lemma post_init_returns (r : Compression.CompressionResult) :
  ∃ r', Compression.CompressionResult_post_init r = Py.Ret r'
        ∧ Compression.success r' = Compression.success r
        ∧ Compression.original_size r' = Compression.original_size r
        ∧ Compression.compressed_size r' = Compression.compressed_size r
        ∧ Compression.error_message r' = Compression.error_message r
        ∧ Compression.output_path r' = Compression.output_path r.
Proof.
  unfold Compression.CompressionResult_post_init.
  destruct (0 <? Compression.original_size r) eqn:Ho; cbn [andb].
  - destruct (0 <? Compression.compressed_size r).
    + rewrite truediv_positive by (apply Z.ltb_lt; exact Ho).
      eexists; split; [reflexivity | cbn; auto].
    + eexists; split; [reflexivity | cbn; auto].
  - eexists; split; [reflexivity | cbn; auto].
Qed.

(** The results the module builds itself, with the ratio left out. *)
Lemma new_result_returns (ok : bool) (o c : Z) (t : Q)
    (m : option Compression.CompressionMethod) (p err : option string) :
  ∃ r, Compression.new_result ok o c t m p err = Py.Ret r ∧ Compression.success r = ok.
Proof.
  unfold Compression.new_result.
  destruct (post_init_returns
              (Compression.mkCompressionResult ok o c 0 t m p err None))
    as (r & Hr & Hs & _).
  exists r. split; [exact Hr | exact Hs].
Qed.

Lemma failure_returns (msg : string) (t : Q) (o : Z) :
  ∃ r, Compression.failure msg t o = Py.Ret r ∧ Compression.success r = false.
Proof. apply new_result_returns. Qed.




(** ** Selection by score (C5) *)

Section FirstBest.
Context {K : Type}.

(** The maximum kept by [max] is the first entry that no later entry
    exceeds: the entries before it are strictly below, those after it
    are not above. *)
Lemma max_from_first (l : list (K * Z)) (best : K * Z) :
  ∃ pre post,
    best :: l = pre ++ Py.max_from best l :: post
    ∧ (∀ x, In x pre → snd x < snd (Py.max_from best l))
    ∧ (∀ x, In x post → snd x ≤ snd (Py.max_from best l)).
Proof.
  revert best. induction l as [|[k s] rest IH]; intros best; cbn [Py.max_from].
  - exists [], []. repeat split; intros x [].
  - destruct (Z.ltb_spec (snd best) s) as [Hlt|Hge].
    + destruct (IH (k, s)) as (pre & post & E & Hpre & Hpost).
      exists (best :: pre), post. split; [cbn; by rewrite <- E |].
      split; [| exact Hpost].
      intros x [<-|Hx]; [| by apply Hpre].
      destruct pre as [|y pre'].
      * cbn in E. injection E as E _. rewrite <- E. exact Hlt.
      * cbn in E. injection E as E _. subst y.
        specialize (Hpre (k, s) (or_introl eq_refl)). cbn in Hpre. lia.
    + destruct (IH best) as (pre & post & E & Hpre & Hpost).
      destruct pre as [|y pre'].
      * cbn in E. injection E as E1 E2.
        exists [], ((k, s) :: post). split; [cbn; by rewrite <- E1, <- E2 |].
        split; [intros x [] |].
        intros x [<-|Hx]; [cbn; rewrite <- E1; exact Hge | by apply Hpost].
      * cbn in E. injection E as E1 E2. subst y.
        exists (best :: (k, s) :: pre'), post. split; [cbn; by rewrite <- E2 |].
        split; [| exact Hpost].
        pose proof (Hpre best (or_introl eq_refl)) as Hb.
        intros x [<-|[<-|Hx]]; [exact Hb | cbn; lia |].
        apply Hpre. by right.
Qed.

Context `{EqDecision K} {B : Type} (score : B → Z).

Lemma dict_get_middle (pre post : list (K * B)) (k : K) (b : B) :
  ¬ In k (List.map fst pre) → Py.dict_get k (pre ++ (k, b) :: post) = Some b.
Proof.
  induction pre as [|[k' b'] pre IH]; cbn; intros Hk.
  - by rewrite decide_True.
  - rewrite decide_False by (intros ->; apply Hk; by left).
    apply IH. intros Hin. apply Hk. by right.
Qed.

(** What [select_best_*] computes when it scores: the first entry of the
    registry among those with the greatest score. *)
Lemma first_best_selected (d : list (K * B)) :
  d ≠ [] → List.NoDup (List.map fst d) →
  ∃ k b pre post,
    Py.max_by_score (List.map (fun kb => (fst kb, score (snd kb))) d) = Some (k, score b)
    ∧ Py.dict_get k d = Some b
    ∧ d = pre ++ (k, b) :: post
    ∧ (∀ x, In x pre → score (snd x) < score b)
    ∧ (∀ x, In x post → score (snd x) ≤ score b).
Proof.
  intros Hne Hnd. destruct d as [|[k0 b0] rest]; [done |].
  cbn [List.map Py.max_by_score fst snd].
  destruct (max_from_first (List.map (fun kb => (fst kb, score (snd kb))) rest)
              (k0, score b0)) as (pre & post & E & Hpre & Hpost).
  change ((k0, score b0) :: List.map (fun kb => (fst kb, score (snd kb))) rest)
    with (List.map (fun kb : K * B => (fst kb, score (snd kb))) ((k0, b0) :: rest)) in E.
  apply List.map_eq_app in E as (pre' & tail & Ed & Epre & Etail).
  destruct tail as [|[k b] post']; [discriminate |].
  cbn in Etail. injection Etail as Ebest Epost.
  exists k, b, pre', post'. rewrite <- Ebest in *. cbn [snd] in *.
  split; [reflexivity |]. rewrite Ed in Hnd |- *.
  split.
  - apply dict_get_middle. rewrite List.map_app in Hnd. cbn in Hnd.
    apply List.NoDup_remove_2 in Hnd. intros Hin. apply Hnd.
    apply List.in_or_app. by left.
  - split; [reflexivity |]. split.
    + intros x Hx. subst pre.
      apply (Hpre (fst x, score (snd x))).
      apply (List.in_map (fun kb : K * B => (fst kb, score (snd kb)))). exact Hx.
    + intros x Hx. subst post.
      apply (Hpost (fst x, score (snd x))).
      apply (List.in_map (fun kb : K * B => (fst kb, score (snd kb)))). exact Hx.
Qed.
End FirstBest.

(** The engine's registry lists each tool once. *)
Lemma detect_compilers_NoDup (e : Compiler.env) :
  List.NoDup (List.map fst (Compiler._detect_compilers e)).
Proof.
  unfold Compiler._detect_compilers, Compiler.compilers. cbn.
  destruct (Compiler.tool_available e Compiler.PYINSTALLER),
    (Compiler.tool_available e Compiler.NUITKA),
    (Compiler.tool_available e Compiler.CX_FREEZE); cbn;
    repeat constructor; cbn; intuition discriminate.
Qed.

Lemma detect_compressors_NoDup (e : Compression.env) :
  List.NoDup (List.map fst (Compression._detect_compressors e)).
Proof.
  unfold Compression._detect_compressors, Compression.compressors. cbn.
  destruct (Compression.UPX_is_available e), (Compression.BROTLI_AVAILABLE e); cbn;
    repeat constructor; cbn; intuition discriminate.
Qed.

(** C5, as the code has it.  With no preferred tool (no preferred compiler;
    method [auto] for compression) and at least one available tool, the
    scheduler returns a tool of the greatest score, and among the tools of
    that score the one declared first in the registry: every tool before
    it scores strictly less, every tool after it scores no more. *)
Theorem best_score_first_declared_wins :
  (∀ (available : list (Compiler.CompilerType * Compiler.CompilerBackend)) options,
      Compiler.preferred_compiler options = None →
      available ≠ [] →
      List.NoDup (List.map fst available) →
      ∃ c b pre post,
        Compiler.select_best_compiler available options = Py.Ret (c, b)
        ∧ available = pre ++ (c, b) :: post
        ∧ (∀ x, In x pre →
             Compiler.get_score (snd x) options < Compiler.get_score b options)
        ∧ (∀ x, In x post →
             Compiler.get_score (snd x) options ≤ Compiler.get_score b options))
  ∧ (∀ e files (available : list (Compression.CompressionMethod * Compression.CompressionBackend))
       file_path options,
      Compression.method options = Compression.AUTO →
      available ≠ [] →
      List.NoDup (List.map fst available) →
      ∃ m b pre post,
        Compression.select_best_compressor e files available file_path options
        = Py.Ret (m, b)
        ∧ available = pre ++ (m, b) :: post
        ∧ (∀ x, In x pre →
             Compression.get_score (snd x) e files file_path options
             < Compression.get_score b e files file_path options)
        ∧ (∀ x, In x post →
             Compression.get_score (snd x) e files file_path options
             ≤ Compression.get_score b e files file_path options)).
Proof.
  split.
  - intros available options Hpref Hne Hnd.
    destruct (first_best_selected (fun b => Compiler.get_score b options) available Hne Hnd)
      as (c & b & pre & post & Emax & Eget & Ed & Hpre & Hpost).
    exists c, b, pre, post. split; [| by repeat split].
    unfold Compiler.select_best_compiler. rewrite Hpref, Emax, Eget. reflexivity.
  - intros e files available file_path options Hauto Hne Hnd.
    destruct (first_best_selected
                (fun b => Compression.get_score b e files file_path options)
                available Hne Hnd)
      as (m & b & pre & post & Emax & Eget & Ed & Hpre & Hpost).
    exists m, b, pre, post. split; [| by repeat split].
    unfold Compression.select_best_compressor.
    rewrite Hauto, decide_True by reflexivity. rewrite Emax, Eget. reflexivity.
Qed.

(** The theorem at the default job with the three compilers present, and
    at [app.py] on a host with the two built-in compressors. *)
Lemma best_score_first_declared_wins_witness :
  (∃ c b pre post,
      Compiler.select_best_compiler (Compiler._detect_compilers Scenario.all_compilers)
        Scenario.default_job = Py.Ret (c, b)
      ∧ Compiler._detect_compilers Scenario.all_compilers = pre ++ (c, b) :: post
      ∧ (∀ x, In x pre →
           Compiler.get_score (snd x) Scenario.default_job
           < Compiler.get_score b Scenario.default_job)
      ∧ (∀ x, In x post →
           Compiler.get_score (snd x) Scenario.default_job
           ≤ Compiler.get_score b Scenario.default_job))
  ∧ (∃ m b pre post,
      Compression.select_best_compressor Scenario.plain_host Scenario.one_file
        (Compression._detect_compressors Scenario.plain_host) "app.py"
        Compression.CompressionOptions_defaults = Py.Ret (m, b)
      ∧ Compression._detect_compressors Scenario.plain_host = pre ++ (m, b) :: post
      ∧ (∀ x, In x pre →
           Compression.get_score (snd x) Scenario.plain_host Scenario.one_file "app.py"
             Compression.CompressionOptions_defaults
           < Compression.get_score b Scenario.plain_host Scenario.one_file "app.py"
               Compression.CompressionOptions_defaults)
      ∧ (∀ x, In x post →
           Compression.get_score (snd x) Scenario.plain_host Scenario.one_file "app.py"
             Compression.CompressionOptions_defaults
           ≤ Compression.get_score b Scenario.plain_host Scenario.one_file "app.py"
               Compression.CompressionOptions_defaults)).
Proof.
  split.
  - apply (proj1 best_score_first_declared_wins).
    + reflexivity.
    + discriminate.
    + apply detect_compilers_NoDup.
  - apply (proj2 best_score_first_declared_wins).
    + reflexivity.
    + discriminate.
    + apply detect_compressors_NoDup.
Defined.

(** C5 as stated fails on a tie.  For the default job PyInstaller and
    Nuitka both score 90, the greatest score; PyInstaller, declared first,
    is selected although "nuitka" sorts before "pyinstaller". *)
Lemma tie_goes_to_first_declared_not_alphabetical :
  fst <$> (match Compiler.select_best_compiler
                   (Compiler._detect_compilers Scenario.all_compilers)
                   Scenario.default_job with
           | Py.Ret choice => Some choice
           | Py.Raise _ => None
           end) = Some Compiler.PYINSTALLER
  ∧ In (Compiler.NUITKA, Compiler.NuitkaBackend)
       (Compiler._detect_compilers Scenario.all_compilers)
  ∧ Compiler.get_score Compiler.NuitkaBackend Scenario.default_job = 90
  ∧ Compiler.get_score Compiler.PyInstallerBackend Scenario.default_job = 90
  ∧ (∀ x, In x (Compiler._detect_compilers Scenario.all_compilers) →
          Compiler.get_score (snd x) Scenario.default_job ≤ 90)
  ∧ String.ltb (Compiler.value Compiler.NUITKA) (Compiler.value Compiler.PYINSTALLER) = true.
Proof.
  split; [reflexivity |]. split; [cbn; auto |].
  split; [reflexivity |]. split; [reflexivity |].
  split; [| reflexivity].
  intros x [<-|[<-|[<-|[]]]]; apply Z.leb_le; reflexivity.
Qed.

(** ** The dependency graph (C3) *)

(** [parent] imports [module] according to the merged import map. *)
Definition imports_of (deps : gmap string (gset string)) (parent module : string) : Prop :=
  ∃ imported, deps !! parent = Some imported ∧ module ∈ imported.

Lemma module_info_fresh (e : Analyzer.env) (module : string) :
  Analyzer.required_by (Analyzer._get_module_info e module) = ∅.
Proof.
  unfold Analyzer._get_module_info.
  destruct (_ || _); [reflexivity |].
  destruct (Analyzer.find_spec e module) as [[[[path|]]|]|]; try reflexivity.
  cbn. destruct (String.eqb path ""); [reflexivity |].
  destruct (negb _); reflexivity.
Qed.

(** The classification loop keeps, for a subset of the collected modules,
    the fresh record of each. *)
Lemma classify_each_spec (e : Analyzer.env) (include_stdlib : bool) (X : gset string) :
  ∀ n info,
    Analyzer.classify_each e include_stdlib X !! n = Some info →
    info = Analyzer._get_module_info e n ∧ n ∈ X.
Proof.
  unfold Analyzer.classify_each.
  apply (set_fold_ind_L
           (fun (r : gmap string Analyzer.DependencyInfo) (X : gset string) =>
              ∀ n info, r !! n = Some info → info = Analyzer._get_module_info e n ∧ n ∈ X)).
  - intros n info H. by rewrite lookup_empty in H.
  - intros x Y r _ IH n info H.
    destruct (negb include_stdlib && Analyzer.is_builtin (Analyzer._get_module_info e x)).
    + destruct (IH n info H) as [E Hn].
      split; [exact E | apply elem_of_union; by right].
    + destruct (decide (x = n)) as [->|Hne].
      * rewrite lookup_insert_eq in H. injection H as E.
        split; [by symmetry | apply elem_of_union; left; by apply elem_of_singleton].
      * rewrite lookup_insert_ne in H by exact Hne.
        destruct (IH n info H) as [E Hn].
        split; [exact E | apply elem_of_union; by right].
Qed.

(** Every collected module is imported by some key of the map. *)
Lemma collect_modules_spec (deps : gmap string (gset string)) (n : string) :
  n ∈ Analyzer.collect_modules deps → ∃ parent, imports_of deps parent n.
Proof.
  unfold Analyzer.collect_modules. revert n.
  apply (map_fold_weak_ind
           (fun (acc : gset string) (m : gmap string (gset string)) =>
              ∀ n, n ∈ acc → ∃ parent, imports_of m parent n)).
  - intros n H. set_solver.
  - intros i x m r Hi IH n Hn. apply elem_of_union in Hn as [Hn|Hn].
    + destruct (IH n Hn) as (parent & imported & Hp & Hin).
      exists parent, imported. split; [| exact Hin].
      rewrite lookup_insert_ne; [exact Hp | intros ->; congruence].
    + exists i, x. split; [apply lookup_insert_eq | exact Hn].
Qed.

(** One pass of the inner loop for [parent]: a name in some [required_by]
    is [parent], put there for one of its imports, or was there before;
    the keys do not change. *)
Lemma relate_loop_spec (parent : string) (acc : gmap string Analyzer.DependencyInfo)
    (imported : gset string) :
  ∀ n info,
    set_fold (Analyzer.relate parent) acc imported !! n = Some info →
    (∃ info0, acc !! n = Some info0
              ∧ ∀ p, p ∈ Analyzer.required_by info →
                     (p = parent ∧ n ∈ imported) ∨ p ∈ Analyzer.required_by info0).
Proof.
  apply (set_fold_ind_L
           (fun (r : gmap string Analyzer.DependencyInfo) (X : gset string) =>
              ∀ n info, r !! n = Some info →
                ∃ info0, acc !! n = Some info0
                  ∧ ∀ p, p ∈ Analyzer.required_by info →
                         (p = parent ∧ n ∈ X) ∨ p ∈ Analyzer.required_by info0)).
  - intros n info H. exists info. split; [exact H | auto].
  - intros x X r _ IH n info H. unfold Analyzer.relate in H.
    destruct (r !! x) as [ix|] eqn:Ex.
    + destruct (decide (x = n)) as [->|Hne].
      * rewrite lookup_insert_eq in H. injection H as <-.
        destruct (IH n ix Ex) as (info0 & H0 & Hreq). exists info0. split; [exact H0 |].
        intros p Hp. cbn in Hp. apply elem_of_union in Hp as [Hp|Hp].
        -- left. split; set_solver.
        -- destruct (Hreq p Hp) as [[-> Hn]|Hold]; [left; split; set_solver | by right].
      * rewrite lookup_insert_ne in H by exact Hne.
        destruct (IH n info H) as (info0 & H0 & Hreq). exists info0. split; [exact H0 |].
        intros p Hp. destruct (Hreq p Hp) as [[-> Hn]|Hold]; [left; split; set_solver | by right].
    + destruct (IH n info H) as (info0 & H0 & Hreq). exists info0. split; [exact H0 |].
      intros p Hp. destruct (Hreq p Hp) as [[-> Hn]|Hold]; [left; split; set_solver | by right].
Qed.

Lemma classify_dependencies_spec (e : Analyzer.env) (deps : gmap string (gset string))
    (include_stdlib : bool) :
  ∀ n info,
    Analyzer._classify_dependencies e deps include_stdlib !! n = Some info →
    (∃ parent, imports_of deps parent n)
    ∧ ∀ p, p ∈ Analyzer.required_by info → imports_of deps p n.
Proof.
  unfold Analyzer._classify_dependencies.
  set (classified := Analyzer.classify_each e include_stdlib (Analyzer.collect_modules deps)).
  assert (Hfresh : ∀ n info, classified !! n = Some info →
                     Analyzer.required_by info = ∅ ∧ ∃ parent, imports_of deps parent n).
  { intros n info H. apply classify_each_spec in H as [-> Hn].
    split; [apply module_info_fresh | by apply collect_modules_spec]. }
  clearbody classified.
  cut (∀ n info,
          map_fold (fun parent imported acc => set_fold (Analyzer.relate parent) acc imported)
            classified deps !! n = Some info →
          (∃ info0, classified !! n = Some info0)
          ∧ ∀ p, p ∈ Analyzer.required_by info → imports_of deps p n).
  { intros Hcut n info H. destruct (Hcut n info H) as [[info0 H0] Hreq].
    split; [by destruct (Hfresh n info0 H0) | exact Hreq]. }
  apply (map_fold_weak_ind
           (fun (r : gmap string Analyzer.DependencyInfo) (m : gmap string (gset string)) =>
              ∀ n info, r !! n = Some info →
                (∃ info0, classified !! n = Some info0)
                ∧ ∀ p, p ∈ Analyzer.required_by info → imports_of m p n)).
  - intros n info H. split; [by exists info |].
    intros p Hp. destruct (Hfresh n info H) as [E _]. rewrite E in Hp. set_solver.
  - intros i x m r Hi IH n info H.
    apply relate_loop_spec in H as (info1 & H1 & Hreq).
    destruct (IH n info1 H1) as [Hkey Hold]. split; [exact Hkey |].
    intros p Hp. destruct (Hreq p Hp) as [[-> Hn]|Hp1].
    + exists x. split; [apply lookup_insert_eq | exact Hn].
    + destruct (Hold p Hp1) as (imported & Em & Hin). exists imported.
      split; [| exact Hin]. rewrite lookup_insert_ne; [exact Em | intros ->; congruence].
Qed.

(** C3, as the code has it.  In the graph returned by
    [analyze_dependencies], every key is a module that some recorded module
    imports, and every name in the [required_by] set of a node is a module
    recorded as importing that node: a key of the merged import map.  Such
    a name is a key of the graph only when it is imported itself. *)
Theorem required_by_names_are_importers
    (e : Analyzer.env) (files : Host.fs) (script_path : string)
    (include_stdlib deep_analysis : bool) (r : Analyzer.AnalysisResult) :
  Analyzer.analyze_dependencies e files script_path include_stdlib deep_analysis = Py.Ret r →
  let merged :=
    Analyzer._merge_dependencies (Analyzer._static_analysis e script_path deep_analysis)
      (Analyzer._dynamic_analysis e script_path) in
  ∀ n info,
    Analyzer.dependencies r !! n = Some info →
    (∃ parent, imports_of merged parent n)
    ∧ ∀ p, p ∈ Analyzer.required_by info → imports_of merged p n.
Proof.
  unfold Analyzer.analyze_dependencies.
  destruct (negb (Host.exists_ files script_path)); [discriminate |].
  intros E. injection E as <-. cbn. intros n info H.
  unfold Analyzer._estimate_sizes in H.
  apply lookup_fmap_Some in H as (info0 & <- & H0).
  exact (classify_dependencies_spec _ _ _ n info0 H0).
Qed.

(** The theorem at the hello program: [os] is a key, imported by [hello]. *)
Lemma required_by_names_are_importers_witness :
  ∃ r info,
    Analyzer.analyze_dependencies Scenario.hello_host Scenario.hello_files "hello.py"
      true true = Py.Ret r
    ∧ Analyzer.dependencies r !! "os" = Some info
    ∧ ∀ p, p ∈ Analyzer.required_by info →
           imports_of
             (Analyzer._merge_dependencies
                (Analyzer._static_analysis Scenario.hello_host "hello.py" true)
                (Analyzer._dynamic_analysis Scenario.hello_host "hello.py")) p "os".
Proof.
  eexists _, _. split; [reflexivity |].
  assert (Hos : Analyzer.dependencies
                  (match Analyzer.analyze_dependencies Scenario.hello_host
                           Scenario.hello_files "hello.py" true true with
                   | Py.Ret r => r
                   | Py.Raise _ => Analyzer.mkAnalysisResult ∅ ∅ ∅ ∅ ∅ 0
                   end) !! "os"
                = Some (Analyzer.with_size 1024
                          (Analyzer.add_required_by "hello"
                             (Analyzer._get_module_info Scenario.hello_host "os")))).
  { vm_compute. reflexivity. }
  split; [exact Hos |].
  exact (proj2 (required_by_names_are_importers Scenario.hello_host Scenario.hello_files
                  "hello.py" true true _ eq_refl "os" _ Hos)).
Defined.

(** C3 as stated fails at the hello program: [required_by] of [os] holds
    the entry module's name [hello], and [hello] is not a key of the graph. *)
Lemma entry_module_is_not_a_key :
  ∃ r info,
    Analyzer.analyze_dependencies Scenario.hello_host Scenario.hello_files "hello.py"
      true true = Py.Ret r
    ∧ Analyzer.dependencies r !! "os" = Some info
    ∧ "hello" ∈ Analyzer.required_by info
    ∧ Analyzer.dependencies r !! "hello" = None.
Proof.
  eexists _, _. split; [reflexivity |].
  split; [vm_compute; reflexivity |].
  split; [| vm_compute; reflexivity].
  cbn. set_solver.
Qed.

(** ** The adaptive compressor (C6) *)

Lemma Qltb_lt (x y : Q) : Compression.Qltb x y = true ↔ (x < y)%Q.
Proof.
  unfold Compression.Qltb. rewrite negb_true_iff. split.
  - intros H. apply Qnot_le_lt. intros Hle. apply Qle_bool_iff in Hle. congruence.
  - intros H. destruct (Qle_bool y x) eqn:E; [| reflexivity].
    apply Qle_bool_iff in E. exfalso. exact (Qlt_not_le _ _ H E).
Qed.

(** The ratio is always defined: the sample has at least 100 bytes when it
    is divided by its size less one. *)
Lemma repetition_ratio_returns (data : list byte) :
  ∃ ratio, Compression._calculate_repetition_ratio data = Py.Ret ratio.
Proof.
  unfold Compression._calculate_repetition_ratio.
  destruct (Z.ltb_spec (Compression.len data) 100) as [Hlt|Hge]; [by eexists |].
  rewrite truediv_positive by lia. by eexists.
Qed.

Lemma byte_of_Z_value (z : Z) : Z.of_N (Byte.to_N (Compression.byte_of_Z z)) = z mod 256.
Proof.
  unfold Compression.byte_of_Z.
  assert (Hr : 0 ≤ z mod 256 < 256) by (apply Z.mod_pos_bound; lia).
  destruct (Byte.of_N (Z.to_N (z mod 256))) as [b|] eqn:E.
  - apply Byte.to_of_N in E. rewrite E. lia.
  - apply Byte.of_N_None_iff in E. lia.
Qed.

(** [struct.pack('<I', n)] gives the four little-endian bytes of [n]. *)
Lemma pack_le_I_spec (n : Z) :
  0 ≤ n < 2 ^ 32 →
  ∃ packed, Compression.pack_le_I n = Py.Ret packed
            ∧ List.length packed = 4%nat
            ∧ Compression.int_from_bytes_little packed = n.
Proof.
  intros Hn. unfold Compression.pack_le_I.
  destruct (Z.leb_spec 0 n) as [_|]; [| lia].
  destruct (Z.ltb_spec n (2 ^ 32)) as [_|]; [| lia]. cbn [andb].
  eexists. split; [reflexivity |]. split; [reflexivity |].
  cbn [Compression.int_from_bytes_little]. rewrite !byte_of_Z_value.
  change (2 ^ 8) with 256. change (2 ^ 16) with 65536. change (2 ^ 24) with 16777216.
  change (2 ^ 32) with 4294967296 in Hn.
  Z.div_mod_to_equations. lia.
Qed.




(** ** The string-encoding pass (C8) *)

Lemma str_len_nonneg (s : string) : 0 ≤ Protection.str_len s.
Proof.
  induction s as [|c s IH]; cbn [Protection.str_len]; [lia |].
  destruct (_ && _); lia.
Qed.

(** A character of the base64 alphabet, or the padding, is one code point. *)
Lemma str_len_b64_char (n : N) (s : string) :
  Protection.str_len (String (Protection.b64_char n) s) = 1 + Protection.str_len s.
Proof.
  cbn [Protection.str_len].
  assert (H : (N_of_ascii (Protection.b64_char n) < 128)%N).
  { unfold Protection.b64_char.
    destruct (N.ltb_spec n 26); [rewrite N_ascii_embedding; lia |].
    destruct (N.ltb_spec n 52); [rewrite N_ascii_embedding; lia |].
    destruct (N.ltb_spec n 62); [rewrite N_ascii_embedding; lia |].
    destruct (n =? 62)%N; cbn; lia. }
  destruct (N.leb_spec 128 (N_of_ascii (Protection.b64_char n))); [lia |].
  reflexivity.
Qed.

(** The encoding of a non-empty byte string has at least four characters,
    so the literal the pass leaves behind is again longer than 3. *)
Lemma b64encode_long (data : list byte) :
  data ≠ [] → 3 < Protection.str_len (Protection.b64encode data).
Proof.
  destruct data as [|a [|b [|c rest]]]; [done | | |]; intros _;
    cbn [Protection.b64encode]; rewrite !str_len_b64_char.
  - change (Protection.str_len "==") with 2. lia.
  - change (Protection.str_len "=") with 1. lia.
  - pose proof (str_len_nonneg (Protection.b64encode rest)). lia.
Qed.

Lemma long_literal_not_empty (s : string) :
  3 < Protection.str_len s → list_byte_of_string s ≠ [].
Proof. destruct s; cbn; [lia | discriminate]. Qed.

Lemma visit_long_literal (s : string) :
  3 < Protection.str_len s →
  Protection.StringObfuscator_visit (Protection.Constant (Protection.CStr s))
  = Protection.decode_call (Protection.b64encode (list_byte_of_string s))
  ∧ Protection.long_strings
      (Protection.decode_call (Protection.b64encode (list_byte_of_string s))) = 1%nat.
Proof.
  intros Hs. cbn. destruct (Z.ltb_spec 3 (Protection.str_len s)); [| lia].
  split; [reflexivity |].
  pose proof (b64encode_long _ (long_literal_not_empty s Hs)) as Henc.
  destruct (Z.ltb_spec 3 (Protection.str_len (Protection.b64encode (list_byte_of_string s))));
    [reflexivity | lia].
Qed.

Lemma list_sum_cons (x : nat) (l : list nat) : list_sum (x :: l) = (x + list_sum l)%nat.
Proof. reflexivity. Qed.

Lemma sum_map_ext {A} (f g : A → nat) (l : list A) :
  Forall (fun x => f x = g x) l → list_sum (List.map f l) = list_sum (List.map g l).
Proof.
  induction 1 as [|x l Hx _ IH]; cbn [List.map]; [reflexivity |].
  by rewrite !list_sum_cons, Hx, IH.
Qed.

(** The pass trades each long literal for a call around one long literal. *)
Lemma visit_keeps_long_strings (tree : Protection.ast) :
  Protection.long_strings (Protection.StringObfuscator_visit tree)
  = Protection.long_strings tree.
Proof.
  induction tree as [[s|text]| | value attr ctx IH | func args keywords IHf IHa IHk
                    | class children IH] using Protection.ast_ind; try reflexivity.
  - destruct (Z.ltb_spec 3 (Protection.str_len s)) as [Hs|Hs].
    + destruct (visit_long_literal s Hs) as [-> ->]. cbn.
      by destruct (Z.ltb_spec 3 (Protection.str_len s)); [| lia].
    + cbn. destruct (Z.ltb_spec 3 (Protection.str_len s)); [lia |]. cbn.
      by destruct (Z.ltb_spec 3 (Protection.str_len s)); [lia |].
  - exact IH.
  - cbn. rewrite IHf, !List.map_map.
    by rewrite (sum_map_ext _ _ _ IHa), (sum_map_ext _ _ _ IHk).
  - cbn. rewrite List.map_map. by rewrite (sum_map_ext _ _ _ IH).
Qed.

Lemma sum_map_plus {A} (f g h : A → nat) (l : list A) :
  Forall (fun x => f x = (g x + 4 * h x)%nat) l →
  list_sum (List.map f l)
  = (list_sum (List.map g l) + 4 * list_sum (List.map h l))%nat.
Proof.
  induction 1 as [|x l Hx _ IH]; cbn [List.map]; [reflexivity |].
  rewrite !list_sum_cons, Hx, IH. lia.
Qed.

(** Each long literal costs four more nodes. *)
Lemma visit_grows (tree : Protection.ast) :
  Protection.tree_size (Protection.StringObfuscator_visit tree)
  = (Protection.tree_size tree + 4 * Protection.long_strings tree)%nat.
Proof.
  induction tree as [[s|text]| | value attr ctx IH | func args keywords IHf IHa IHk
                    | class children IH] using Protection.ast_ind; try reflexivity.
  - cbn. destruct (Z.ltb_spec 3 (Protection.str_len s)); reflexivity.
  - cbn. rewrite IH. lia.
  - cbn. rewrite IHf, !List.map_map.
    rewrite (sum_map_plus _ _ _ _ IHa), (sum_map_plus _ _ _ _ IHk). lia.
  - cbn. rewrite List.map_map, (sum_map_plus _ _ _ _ IH). lia.
Qed.

Lemma map_fixed {A} (f : A → A) (l : list A) :
  Forall (fun x => f x = x) l → List.map f l = l.
Proof. induction 1 as [|x l Hx _ IH]; cbn; [reflexivity | by rewrite Hx, IH]. Qed.

Lemma sum_zero_all (f : Protection.ast → nat) (P : Protection.ast → Prop)
    (l : list Protection.ast) :
  Forall (fun x => f x = 0%nat → P x) l → list_sum (List.map f l) = 0%nat → Forall P l.
Proof.
  induction 1 as [|x l Hx _ IH]; cbn [List.map]; [constructor |].
  rewrite list_sum_cons. intros Hsum. constructor.
  - apply Hx. lia.
  - apply IH. lia.
Qed.

(** A tree without long literal is left as it is. *)
Lemma visit_without_long_strings (tree : Protection.ast) :
  Protection.long_strings tree = 0%nat → Protection.StringObfuscator_visit tree = tree.
Proof.
  induction tree as [[s|text]| | value attr ctx IH | func args keywords IHf IHa IHk
                    | class children IH] using Protection.ast_ind; try reflexivity.
  - cbn. destruct (3 <? Protection.str_len s); [discriminate | reflexivity].
  - cbn. intros H. by rewrite IH.
  - cbn. intros H. rewrite IHf by lia.
    rewrite (map_fixed _ args), (map_fixed _ keywords); [reflexivity | |].
    + apply (sum_zero_all Protection.long_strings); [exact IHk | lia].
    + apply (sum_zero_all Protection.long_strings); [exact IHa | lia].
  - cbn. intros H. rewrite (map_fixed _ children); [reflexivity |].
    by apply (sum_zero_all Protection.long_strings).
Qed.




(** The anti-debug pass is no more idempotent: each application puts the
    prelude in front of the module once more. *)
Lemma anti_debug_pass_repeats_prelude (e : Protection.env) (body : list Protection.ast) :
  Protection._add_anti_debug_code e
    (Protection._add_anti_debug_code e (Protection.Node "Module" body))
  = Protection.Node "Module"
      (Protection.anti_debug_body e ++ Protection.anti_debug_body e ++ body).
Proof. reflexivity. Qed.

(** ** The protection loop (C10) *)

Lemma protect_loop_spec (e : Protection.env)
    (available : list (Protection.ObfuscationMethod * Protection.ProtectionBackend))
    (options : Protection.ProtectionOptions) (todo : list Protection.ObfuscationMethod) :
  ∀ st files,
    ∃ r files' called rest,
      Protection.protect_loop e available options todo st files = (r, files', called)
      ∧ List.filter (Protection.is_available_method available) todo = called ++ rest
      ∧ ((∀ m, In m todo → Py.dict_get m available = None) →
         r = Py.Ret (Protection.protected (Protection.all_protected_files st)
                       (Protection.total_time st) (Protection.all_methods st))
         ∧ files' = files ∧ called = []).
Proof.
  induction todo as [|m todo IH]; intros st files; cbn [Protection.protect_loop List.filter].
  - eexists _, _, [], []. split; [reflexivity |]. split; [reflexivity | auto].
  - unfold Protection.is_available_method at 1.
    destruct (Py.dict_get m available) as [protector|] eqn:Em.
    + destruct (Protection.protect protector e files (Protection.current_path st) options)
        as [[result|ex] files1].
      * destruct (Protection.success result).
        -- match goal with |- context [Protection.protect_loop e available options todo ?s ?f] =>
             destruct (IH s f) as (r & files' & called & rest & E & Hf & _) end.
           rewrite E. exists r, files', (m :: called), rest.
           split; [reflexivity |]. split; [cbn; by rewrite Hf |].
           intros Hnone. specialize (Hnone m (or_introl eq_refl)). congruence.
        -- eexists _, _, [m], _. split; [reflexivity |]. split; [reflexivity |].
           intros Hnone. specialize (Hnone m (or_introl eq_refl)). congruence.
      * eexists _, _, [m], _. split; [reflexivity |]. split; [reflexivity |].
        intros Hnone. specialize (Hnone m (or_introl eq_refl)). congruence.
    + destruct (IH st files) as (r & files' & called & rest & E & Hf & Hnone).
      exists r, files', called, rest. split; [exact E |]. split; [exact Hf |].
      intros H. apply Hnone. intros m' Hm'. apply H. by right.
Qed.




(** ** The Nuitka backend (C4) *)

(** [_find_output_file] is bound neither in the body of [NuitkaBackend] nor
    in that of its base class, so looking it up on [self] raises. *)
Lemma Nuitka_has_no_locator :
  Compiler.Nuitka_self_find_output_file
  = Py.Raise (Py.Exn "AttributeError"
                "'NuitkaBackend' object has no attribute '_find_output_file'").
Proof. reflexivity. Qed.

(** C4 fails on the code.  Whatever the job and the host, [compile] of the
    Nuitka backend returns a failure: when the child exits with zero, the
    lookup of the locator raises [AttributeError], which the handler of
    [compile] turns into the error text, wherever the artifact lies. *)
Theorem Nuitka_compile_never_succeeds
    (e : Compiler.env) (files : Host.fs) (options : Compiler.CompilationOptions) :
  ∃ r, fst (Compiler.Nuitka_compile e files options) = Py.Ret r
       ∧ Compiler.success r = false
       ∧ Compiler.result_path r = None.
Proof.
  unfold Compiler.Nuitka_compile.
  destruct (Compiler.spawn e _ _ files) as [process after|ex after].
  - destruct (Host.returncode process =? 0).
    + rewrite Nuitka_has_no_locator. cbn. eexists. by repeat split.
    + cbn. eexists. by repeat split.
  - cbn. eexists. by repeat split.
Qed.

(** The failing job: the child exits with zero and [dist/app.exe], the
    first conventional path, exists; the result is the [AttributeError]. *)
Lemma Nuitka_compile_with_artifact_present :
  Compiler.Nuitka_compile_inner_find_output_file Scenario.built_files Scenario.default_job
  = Some "dist/app.exe"
  ∧ Compiler.Nuitka_compile Scenario.all_compilers Scenario.built_files Scenario.default_job
    = (Py.Ret (Compiler.failed "'NuitkaBackend' object has no attribute '_find_output_file'"
                 0 (Some Compiler.NUITKA)),
       Scenario.built_files).
Proof. split; reflexivity. Qed.

(** ** Exceptions and error texts at the stage boundary (C2) *)

(** C2 fails on the code, at four inputs.  [compress_executable] with the
    method string "zip" and [protect_code] with the level string "ultra"
    let [ValueError] out: the conversion to the enumeration sits before the
    [try].  [CompilerEngine.compile] lets [FileExistsError] out when the
    output directory names a regular file: [os.makedirs] sits before the
    [try].  And when PyInstaller exits with 1 without writing to stderr,
    [compile] returns a failure whose error text is empty. *)
Theorem stage_boundary_leaks :
  fst (Compression.compress_executable Scenario.plain_host Scenario.one_file
         (Compression._detect_compressors Scenario.plain_host) "app.py" (inr "zip")
         Compression.CompressionOptions_defaults)
  = Py.Raise (Py.Exn "ValueError" "'zip' is not a valid CompressionMethod")
  ∧ fst (fst (Protection.protect_code Scenario.bare_protection Scenario.one_file
                (Protection._detect_protectors Scenario.bare_protection) "app.py"
                (inr "ultra") Protection.ProtectionOptions_defaults))
    = Py.Raise (Py.Exn "ValueError" "'ultra' is not a valid ProtectionLevel")
  ∧ fst (Compiler.compile Scenario.all_compilers Scenario.dist_is_a_file
           (Compiler._detect_compilers Scenario.all_compilers) Scenario.default_job)
    = Py.Raise (Py.Exn "FileExistsError" "[Errno 17] File exists: 'dist'")
  ∧ fst (Compiler.compile Scenario.silent_failure Scenario.one_file
           (Compiler._detect_compilers Scenario.silent_failure) Scenario.default_job)
    = Py.Ret (Compiler.failed "" 0 (Some Compiler.PYINSTALLER)).
Proof. repeat split; vm_compute; reflexivity. Qed.

(** Past the conversion and [os.makedirs], nothing leaves the three
    operations: their [try] block turns every exception, also one raised by
    a backend, into a result. *)
Lemma compress_executable_typed_returns
    (e : Compression.env) (files : Host.fs)
    (available : list (Compression.CompressionMethod * Compression.CompressionBackend))
    (exe_path : string) (m : Compression.CompressionMethod)
    (kwargs : Compression.CompressionOptions) :
  ∃ r, fst (Compression.compress_executable e files available exe_path (inl m) kwargs)
       = Py.Ret r.
Proof.
  unfold Compression.compress_executable.
  destruct (negb (Host.exists_ files exe_path)).
  - destruct (new_result_returns false 0 0 0 None None
                (Some ("Fichier non trouvé: " +:+ exe_path))) as (r & Hr & _).
    exists r. exact Hr.
  - cbn [Compression.as_method mret Py.outcome_ret].
    destruct (Compression.select_best_compressor e files available exe_path _)
      as [[method backend]|ex].
    + destruct (Compression.compress backend e files exe_path _) as [[r|ex] files'];
        cbn [fst Py.try_except]; [by exists r |].
      destruct (new_result_returns false 0 0 0 None None (Some (Py.exn_msg ex)))
        as (r & Hr & _).
      exists r. exact Hr.
    + cbn [fst Py.try_except].
      destruct (new_result_returns false 0 0 0 None None (Some (Py.exn_msg ex)))
        as (r & Hr & _).
      exists r. exact Hr.
Qed.

Lemma protect_code_typed_returns
    (e : Protection.env) (files : Host.fs)
    (available : list (Protection.ObfuscationMethod * Protection.ProtectionBackend))
    (source_path : string) (l : Protection.ProtectionLevel)
    (kwargs : Protection.ProtectionOptions) :
  ∃ r, fst (fst (Protection.protect_code e files available source_path (inl l) kwargs))
       = Py.Ret r.
Proof.
  unfold Protection.protect_code.
  destruct (negb (Host.exists_ files source_path)); [by eexists |].
  cbn [Protection.as_level mret Py.outcome_ret].
  destruct (Protection.protect_loop e available _ _ _ files) as [[[r|ex] files'] called];
    by eexists.
Qed.

Lemma compile_returns_when_makedirs_succeeds
    (e : Compiler.env) (files : Host.fs)
    (available : list (Compiler.CompilerType * Compiler.CompilerBackend))
    (options : Compiler.CompilationOptions) :
  Host.makedirs_exist_ok files (Compiler.output_path options) = Py.Ret tt →
  ∃ r, fst (Compiler.compile e files available options) = Py.Ret r.
Proof.
  intros Hdir. unfold Compiler.compile.
  destruct (negb (Host.exists_ files (Compiler.source_path options))); [by eexists |].
  rewrite Hdir.
  destruct (Compiler.select_best_compiler available options) as [[c backend]|ex];
    [| by eexists].
  destruct (Compiler.compile_with backend e files options) as [[r|ex] files'];
    by eexists.
Qed.

(** The backends themselves never raise: every path of their [compile]
    ends in a result. *)
Lemma PyInstaller_compile_returns
    (e : Compiler.env) (files : Host.fs) (options : Compiler.CompilationOptions) :
  ∃ r, fst (Compiler.PyInstaller_compile e files options) = Py.Ret r.
Proof.
  unfold Compiler.PyInstaller_compile.
  destruct (Compiler.spawn e _ _ files) as [process after|ex after]; [| by eexists].
  destruct (Host.returncode process =? 0); [| by eexists].
  destruct (Compiler.found after _) as [output_file|]; [| by eexists].
  cbn. destruct (Host.getsize after output_file); by eexists.
Qed.

(** ** Backup and rollback in the UPX backend (C1) *)

Lemma backup_path_differs (file_path : string) : file_path ≠ file_path +:+ ".backup".
Proof.
  induction file_path as [|c s IH]; cbn; [discriminate |].
  intros E. injection E as E. exact (IH E).
Qed.

(** With the backup in place, restoring puts the original bytes back and
    removes the backup; the [finally] clause then finds nothing to clean. *)
Lemma restore_then_clean (e : Compression.env) (after : Host.fs)
    (file_path : string) (data : list byte) :
  Host.move_refused (Compression.io e) = false →
  after !! (file_path +:+ ".backup") = Some data →
  let restored :=
    Compression.restore_backup e after (Some (file_path +:+ ".backup")) file_path in
  Compression.clean_backup e restored (Some (file_path +:+ ".backup")) file_path = restored
  ∧ restored !! file_path = Some data
  ∧ restored !! (file_path +:+ ".backup") = None.
Proof.
  intros Hmove Hbackup. cbn zeta.
  unfold Compression.restore_backup, Host.exists_, Host.move. rewrite Hbackup, Hmove.
  assert (Hgone : (<[file_path := data]> (delete (file_path +:+ ".backup") after))
                    !! (file_path +:+ ".backup") = None).
  { rewrite lookup_insert_ne by apply backup_path_differs. apply lookup_delete_eq. }
  split; [| split; [apply lookup_insert_eq | exact Hgone]].
  unfold Compression.clean_backup, Host.exists_. by rewrite Hgone.
Qed.

(** C1, as the code has it.  Take a run of the UPX backend with
    [backup_original] on an existing artifact, on a host that refuses
    neither the backup copy, nor the move back, nor the removal, and whose
    compressor leaves [<artifact>.backup] alone.  If the compressor fails
    (its spawn raises or it exits with a code other than zero), the run
    reports failure, the artifact holds its original bytes and no backup
    remains.  If the run succeeds, no backup remains. *)
Theorem upx_backup_restored_or_removed
    (e : Compression.env) (files : Host.fs) (file_path upx : string)
    (options : Compression.CompressionOptions) (data : list byte) :
  Compression.backup_original options = true →
  Compression.upx_path e = Some upx →
  files !! file_path = Some data →
  Host.copy_refused (Compression.io e) = false →
  Host.move_refused (Compression.io e) = false →
  Host.remove_refused (Compression.io e) = false →
  let backup := file_path +:+ ".backup" in
  let run :=
    Compression.spawn e (Compression.UPX_command upx file_path options)
      (<[backup := data]> files) in
  Host.files_after run !! backup = Some data →
  ∃ r files',
    Compression.UPX_compress e files file_path options = (Py.Ret r, files')
    ∧ (Host.run_failed run →
       Compression.success r = false
       ∧ files' !! file_path = Some data
       ∧ files' !! backup = None)
    ∧ (Compression.success r = true → files' !! backup = None).
Proof.
  intros Hopt Hupx Hfile Hcopy Hmove Hremove backup run Hframe. subst backup.
  unfold Compression.UPX_compress, Host.getsize, Host.copy2.
  rewrite Hupx, Hfile, Hopt, Hcopy. fold run.
  destruct run as [process after|ex after] eqn:Erun; cbn [Host.files_after] in Hframe.
  - destruct (Z.eqb_spec (Host.returncode process) 0) as [Hzero|Hnonzero].
    + (* the compressor exits with zero *)
      unfold Host.getsize. destruct (after !! file_path) as [packed|] eqn:Eafter.
      * destruct (new_result_returns true (Z.of_nat (List.length data))
                    (Z.of_nat (List.length packed)) (Compression.elapsed e)
                    (Some Compression.UPX) (Some file_path) None) as (r & Hr & Hs).
        cbn [mbind Py.outcome_bind Py.bind]. rewrite Hr. cbn [Py.try_except].
        exists r, (delete (file_path +:+ ".backup") after). split.
        { unfold Compression.clean_backup, Host.exists_, Host.remove.
          by rewrite Hframe, Eafter, Hremove. }
        split; [cbn; intros Hfail; congruence |].
        intros _. apply lookup_delete_eq.
      * cbn [mbind Py.outcome_bind Py.bind Py.try_except].
        match goal with |- context [Compression.new_result false ?o ?c ?t ?m ?p ?err] =>
          destruct (new_result_returns false o c t m p err) as (r & Hr & Hs) end.
        rewrite Hr. exists r, after. split.
        { unfold Compression.clean_backup, Host.exists_.
          by rewrite Hframe, Eafter. }
        split; [cbn; intros Hfail; congruence | congruence].
    + (* the compressor exits with another code *)
      destruct (restore_then_clean e after file_path data Hmove Hframe)
        as (Hclean & Hrestored & Hgone).
      match goal with |- context [Compression.failure ?msg ?t ?o] =>
        destruct (failure_returns msg t o) as (r & Hr & Hs) end.
      rewrite Hr. eexists r, _. split; [by rewrite Hclean |].
      split; [intros _; by repeat split | congruence].
  - (* the spawn raises *)
    destruct (restore_then_clean e after file_path data Hmove Hframe)
      as (Hclean & Hrestored & Hgone).
    destruct (failure_returns (Py.exn_msg ex) (Compression.elapsed e)
                (Z.of_nat (List.length data))) as (r & Hr & Hs).
    rewrite Hr. eexists r, _. split; [by rewrite Hclean |].
    split; [intros _; by repeat split | congruence].
Qed.

(** The theorem at an artifact that the compressor damages before it exits
    with 1: the artifact comes back and no backup is left. *)
Lemma upx_backup_restored_or_removed_witness :
  ∃ r files',
    Compression.UPX_compress Scenario.upx_host Scenario.artifact_files "app.exe"
      Compression.CompressionOptions_defaults = (Py.Ret r, files')
    ∧ Compression.success r = false
    ∧ files' !! "app.exe" = Some Scenario.artifact
    ∧ files' !! "app.exe.backup" = None.
Proof.
  destruct (upx_backup_restored_or_removed Scenario.upx_host Scenario.artifact_files
              "app.exe" "upx" Compression.CompressionOptions_defaults Scenario.artifact)
    as (r & files' & E & Hfail & _).
  - reflexivity.
  - reflexivity.
  - apply lookup_singleton_eq.
  - reflexivity.
  - reflexivity.
  - reflexivity.
  - vm_compute. reflexivity.
  - exists r, files'. split; [exact E |]. apply Hfail. cbn. lia.
Defined.

(** C1 as stated fails when the backup cannot be taken.  The copy to
    [app.exe.backup] is refused, which the code only logs; the compressor
    damages the artifact and exits with 1; nothing is restored, and the
    artifact no longer holds its original bytes. *)
Lemma upx_without_backup_loses_artifact :
  Compression.backup_original Compression.CompressionOptions_defaults = true
  ∧ Host.run_failed
      (Compression.spawn Scenario.no_backup_host
         (Compression.UPX_command "upx" "app.exe" Compression.CompressionOptions_defaults)
         Scenario.artifact_files)
  ∧ Scenario.artifact_files !! "app.exe" = Some Scenario.artifact
  ∧ Scenario.damaged ≠ Scenario.artifact
  ∧ ∃ r files',
      Compression.UPX_compress Scenario.no_backup_host Scenario.artifact_files "app.exe"
        Compression.CompressionOptions_defaults = (Py.Ret r, files')
      ∧ Compression.success r = false
      ∧ files' !! "app.exe" = Some Scenario.damaged.
Proof.
  split; [reflexivity |]. split; [cbn; lia |].
  split; [apply lookup_singleton_eq |]. split; [discriminate |].
  eexists _, _. split; [vm_compute; reflexivity |].
  split; vm_compute; reflexivity.
Qed.

(** When the backup is taken but the move back is refused, the [finally]
    clause still finds both files and removes the backup: the artifact
    stays damaged and its backup is gone. *)
Lemma upx_refused_restore_drops_backup :
  ∃ r files',
    Compression.UPX_compress Scenario.no_restore_host Scenario.artifact_files "app.exe"
      Compression.CompressionOptions_defaults = (Py.Ret r, files')
    ∧ Compression.success r = false
    ∧ files' !! "app.exe" = Some Scenario.damaged
    ∧ files' !! "app.exe.backup" = None.
Proof.
  eexists _, _. split; [vm_compute; reflexivity |].
  repeat split; vm_compute; reflexivity.
Qed.

(** An input of 2^32 bytes or more cannot be framed: [struct.pack] raises
    after the magic is written, so the output file holds the magic alone and
    the run reports failure. *)
Lemma adaptive_oversized_input
    (e : Compression.env) (files : Host.fs) (file_path : string)
    (options : Compression.CompressionOptions) (data payload : list byte) :
  files !! file_path = Some data →
  2 ^ 32 ≤ Compression.len data →
  Host.write_refused (Compression.io e) = false →
  Compression._optimal_compress e data options = Py.Ret payload →
  ∃ r,
    Compression.Custom_compress e files file_path options
    = (Py.Ret r, <[file_path +:+ ".pfc" := Compression.PFC_magic]> files)
    ∧ Compression.success r = false.
Proof.
  intros Hfile Hlen Hio Hpayload.
  unfold Compression.Custom_compress, Host.read_bytes, Host.open_wb, Compression.pack_le_I.
  rewrite Hfile, Hpayload, Hio.
  destruct (Z.ltb_spec (Compression.len data) (2 ^ 32)) as [|_]; [lia |].
  rewrite andb_false_r. cbn [Py.try_except].
  match goal with |- context [Compression.failure ?msg ?t ?o] =>
    destruct (failure_returns msg t o) as (r & Hr & Hs) end.
  rewrite Hr. exists r. split; [| exact Hs].
  f_equal. unfold Host.write. by rewrite alter_insert_eq.
Qed.

(** * Further properties of the code *)

(** ** Scores *)

Ltac split_ifs :=
  repeat match goal with
         | |- context [if ?b then _ else _] => destruct b
         end.

(** Every scoring function of the three registries stays within 0..100,
    as the docstring of the abstract [get_score] promises. *)
Theorem scores_within_bounds :
  (∀ cb options, In cb Compiler.compilers →
     0 ≤ Compiler.get_score (snd cb) options ≤ 100)
  ∧ (∀ mb e files file_path options, In mb Compression.compressors →
     0 ≤ Compression.get_score (snd mb) e files file_path options ≤ 100)
  ∧ (∀ mb e options, In mb Protection.protectors →
     0 ≤ Protection.get_score (snd mb) e options ≤ 100).
Proof.
  split; [| split].
  - intros cb options [<-|[<-|[<-|[]]]]; cbn;
      unfold Compiler.PyInstaller_get_score, Compiler.Nuitka_get_score,
        Compiler.CxFreeze_get_score; split_ifs; lia.
  - intros mb e files file_path options [<-|[<-|[<-|[<-|[]]]]]; cbn;
      unfold Compression.UPX_get_score, Compression.LZMA_get_score,
        Compression.Brotli_get_score, Compression.Custom_get_score, Compression.clamp; lia.
  - intros mb e options [<-|[<-|[<-|[]]]]; cbn;
      unfold Protection.PyArmor_get_score, Protection.Custom_get_score,
        Protection.Bytecode_get_score; split_ifs;
      try destruct (Protection.level options); cbn; lia.
Qed.

Lemma scores_within_bounds_witness :
  0 ≤ Compiler.get_score Compiler.NuitkaBackend Scenario.default_job ≤ 100.
Proof.
  apply (proj1 scores_within_bounds (Compiler.NUITKA, Compiler.NuitkaBackend)).
  cbn. auto.
Defined.

(** ** The compiler engine *)

(** The choice of [select_best_compiler] on the engine's registry when no
    compiler is preferred, as a table: PyInstaller whenever it is installed,
    except that Nuitka is taken when it is installed too and the job asks for
    optimisation together with obfuscation or bytecode encryption; Nuitka
    when PyInstaller is missing; cx_Freeze only when it is the one tool
    installed; [RuntimeError] when none is. *)
Theorem select_best_compiler_table
    (e : Compiler.env) (options : Compiler.CompilationOptions) :
  Compiler.preferred_compiler options = None →
  Compiler.select_best_compiler (Compiler._detect_compilers e) options
  = if Compiler.tool_available e Compiler.PYINSTALLER then
      if Compiler.tool_available e Compiler.NUITKA
         && Compiler.optimize options
         && (Compiler.obfuscate options || Compiler.encrypt_bytecode options)
      then Py.Ret (Compiler.NUITKA, Compiler.NuitkaBackend)
      else Py.Ret (Compiler.PYINSTALLER, Compiler.PyInstallerBackend)
    else if Compiler.tool_available e Compiler.NUITKA then
      Py.Ret (Compiler.NUITKA, Compiler.NuitkaBackend)
    else if Compiler.tool_available e Compiler.CX_FREEZE then
      Py.Ret (Compiler.CX_FREEZE, Compiler.CxFreezeBackend)
    else Py.Raise (Py.Exn "RuntimeError" "Aucun compilateur disponible").
Proof.
  intros Hpref.
  unfold Compiler.select_best_compiler, Compiler._detect_compilers, Compiler.compilers.
  rewrite Hpref. clear Hpref.
  destruct options as [src out oname icon one cons opt dbg excl hid upx lvl obf enc pref
                         standalone collect].
  cbn [List.filter snd Compiler.is_available Compiler.PyInstallerBackend
         Compiler.NuitkaBackend Compiler.CxFreezeBackend Compiler.optimize
         Compiler.obfuscate Compiler.encrypt_bytecode].
  destruct (Compiler.tool_available e Compiler.PYINSTALLER),
    (Compiler.tool_available e Compiler.NUITKA),
    (Compiler.tool_available e Compiler.CX_FREEZE), opt, obf, enc; reflexivity.
Qed.

Lemma select_best_compiler_table_witness :
  Compiler.select_best_compiler (Compiler._detect_compilers Scenario.all_compilers)
    Scenario.default_job
  = Py.Ret (Compiler.PYINSTALLER, Compiler.PyInstallerBackend).
Proof.
  rewrite (select_best_compiler_table Scenario.all_compilers Scenario.default_job);
    reflexivity.
Defined.

(** A preferred compiler that is installed is taken whatever the scores; one
    that is not installed is dropped without a word, and the choice is the
    one made for the same job without a preference. *)
Theorem preferred_compiler_or_fallback
    (e : Compiler.env) (options : Compiler.CompilationOptions) (c : Compiler.CompilerType) :
  Compiler.preferred_compiler options = Some c →
  if Compiler.tool_available e c then
    ∃ backend,
      Compiler.select_best_compiler (Compiler._detect_compilers e) options
      = Py.Ret (c, backend)
      ∧ Compiler.name backend = Compiler.value c
  else
    Compiler.select_best_compiler (Compiler._detect_compilers e) options
    = Compiler.select_best_compiler (Compiler._detect_compilers e)
        (Compiler.with_preferred None options).
Proof.
  intros Hpref.
  unfold Compiler.select_best_compiler, Compiler._detect_compilers, Compiler.compilers.
  rewrite Hpref. cbn.
  destruct c;
    destruct (Compiler.tool_available e Compiler.PYINSTALLER),
      (Compiler.tool_available e Compiler.NUITKA),
      (Compiler.tool_available e Compiler.CX_FREEZE); cbn;
    first [reflexivity | by eexists].
Qed.

Lemma preferred_compiler_or_fallback_witness :
  ∃ backend,
    Compiler.select_best_compiler (Compiler._detect_compilers Scenario.all_compilers)
      (Compiler.with_preferred (Some Compiler.CX_FREEZE) Scenario.default_job)
    = Py.Ret (Compiler.CX_FREEZE, backend)
    ∧ Compiler.name backend = Compiler.value Compiler.CX_FREEZE.
Proof.
  exact (preferred_compiler_or_fallback Scenario.all_compilers
           (Compiler.with_preferred (Some Compiler.CX_FREEZE) Scenario.default_job)
           Compiler.CX_FREEZE eq_refl).
Defined.

(** On the engine's registry a selected pair is one of the three declared
    ones. *)
Lemma select_best_compiler_declared
    (e : Compiler.env) (options : Compiler.CompilationOptions)
    (c : Compiler.CompilerType) (backend : Compiler.CompilerBackend) :
  Compiler.select_best_compiler (Compiler._detect_compilers e) options = Py.Ret (c, backend) →
  In (c, backend) Compiler.compilers ∧ Compiler.tool_available e c = true.
Proof.
  unfold Compiler.select_best_compiler, Compiler._detect_compilers, Compiler.compilers.
  destruct options as [src out oname icon one cons opt dbg excl hid upx lvl obf enc pref
                         standalone collect].
  cbn [List.filter snd Compiler.is_available Compiler.PyInstallerBackend
         Compiler.NuitkaBackend Compiler.CxFreezeBackend Compiler.optimize
         Compiler.obfuscate Compiler.encrypt_bytecode Compiler.preferred_compiler].
  destruct (Compiler.tool_available e Compiler.PYINSTALLER) eqn:Ep,
    (Compiler.tool_available e Compiler.NUITKA) eqn:En,
    (Compiler.tool_available e Compiler.CX_FREEZE) eqn:Ec;
    destruct pref as [[| |]|], opt, obf, enc; cbn; intros E;
    try discriminate; injection E as <- <-; cbn; auto.
Qed.

(** The Nuitka backend ends every run in a failure: after a child that
    exits with zero, the lookup of the locator raises, and the handler of
    [compile] makes a failure of it. *)
Lemma Nuitka_compile_fails
    (e : Compiler.env) (files : Host.fs) (options : Compiler.CompilationOptions) :
  ∃ r, fst (Compiler.Nuitka_compile e files options) = Py.Ret r
       ∧ Compiler.success r = false.
Proof.
  unfold Compiler.Nuitka_compile.
  destruct (Compiler.spawn e _ _ files) as [process after|ex after].
  - destruct (Host.returncode process =? 0).
    + rewrite Nuitka_has_no_locator. cbn. eexists. by split.
    + cbn. eexists. by split.
  - cbn. eexists. by split.
Qed.

(** A success of the PyInstaller backend names a file that exists when the
    backend returns, and reports that file's size. *)
Lemma PyInstaller_success_names_file
    (e : Compiler.env) (files files' : Host.fs) (options : Compiler.CompilationOptions)
    (r : Compiler.CompilationResult) :
  Compiler.PyInstaller_compile e files options = (Py.Ret r, files') →
  Compiler.success r = true →
  ∃ f, Compiler.result_path r = Some f
       ∧ Host.getsize files' f = Py.Ret (Compiler.file_size r)
       ∧ Compiler.compiler_used r = Some Compiler.PYINSTALLER.
Proof.
  unfold Compiler.PyInstaller_compile.
  destruct (Compiler.spawn e _ _ files) as [process after|ex after].
  - destruct (Host.returncode process =? 0).
    + destruct (Compiler.found after _) as [output_file|].
      * destruct (Host.getsize after output_file) as [size|ex] eqn:Esize; cbn;
          intros E Hs; injection E as <- <-; [| discriminate].
        exists output_file. by repeat split.
      * cbn. intros E Hs. injection E as <- <-. discriminate.
    + cbn. intros E Hs. injection E as <- <-. discriminate.
  - cbn. intros E Hs. injection E as <- <-. discriminate.
Qed.

(** The same for the cx_Freeze backend, but for one case: the file it
    names may be the setup script, which its [finally] clause has removed. *)
Lemma CxFreeze_success_names_file
    (e : Compiler.env) (files files' : Host.fs) (options : Compiler.CompilationOptions)
    (r : Compiler.CompilationResult) :
  Compiler.CxFreeze_compile e files options = (Py.Ret r, files') →
  Compiler.success r = true →
  ∃ f, Compiler.result_path r = Some f
       ∧ (Host.getsize files' f = Py.Ret (Compiler.file_size r)
          ∨ f = Compiler.CxFreeze_setup_path options ∧ files' !! f = None)
       ∧ Compiler.compiler_used r = Some Compiler.CX_FREEZE.
Proof.
  unfold Compiler.CxFreeze_compile. fold (Compiler.CxFreeze_setup_path options).
  set (setup_path := Compiler.CxFreeze_setup_path options).
  destruct (Host.open_wb (Compiler.io e) files setup_path) as [files0|ex];
    [| cbn; intros E Hs; injection E as <- <-; discriminate].
  destruct (Compiler.spawn e _ _ _) as [process after|ex after].
  - destruct (Host.returncode process =? 0).
    + destruct (Compiler.found after _) as [output_file|].
      * destruct (Host.getsize after output_file) as [size|ex] eqn:Esize.
        -- cbn [mbind Py.outcome_bind Py.bind mret Py.outcome_ret].
           destruct (Host.exists_ after setup_path) eqn:Ex.
           ++ unfold Host.remove.
              destruct (Host.remove_refused (Compiler.io e));
                [cbn; intros E Hs; injection E as <- <-; discriminate |].
              unfold Host.exists_ in Ex.
              destruct (after !! setup_path) as [script|] eqn:Escript; [| discriminate].
              cbn. intros E _. injection E as <- <-. exists output_file.
              split; [reflexivity |]. split; [| reflexivity].
              destruct (decide (output_file = setup_path)) as [->|Hne].
              ** right. split; [reflexivity | apply lookup_delete_eq].
              ** left. unfold Host.getsize in *. cbn.
                 by rewrite lookup_delete_ne.
           ++ cbn. intros E _. injection E as <- <-. exists output_file.
              split; [reflexivity |]. split; [by left | reflexivity].
        -- cbn [mbind Py.outcome_bind Py.bind].
           destruct (Host.exists_ after setup_path);
             [destruct (Host.remove (Compiler.io e) after setup_path) |];
             cbn; intros E Hs; injection E as <- <-; discriminate.
      * destruct (Host.exists_ after setup_path);
          [destruct (Host.remove (Compiler.io e) after setup_path) |];
          cbn; intros E Hs; injection E as <- <-; discriminate.
    + destruct (Host.exists_ after setup_path);
        [destruct (Host.remove (Compiler.io e) after setup_path) |];
        cbn; intros E Hs; injection E as <- <-; discriminate.
  - destruct (Host.exists_ after setup_path);
      [destruct (Host.remove (Compiler.io e) after setup_path) |];
      cbn; intros E Hs; injection E as <- <-; discriminate.
Qed.



(** With Nuitka installed, a job that asks for optimisation together with
    obfuscation or bytecode encryption, and prefers Nuitka or no compiler,
    is handed to the Nuitka backend and therefore never succeeds, even
    when PyInstaller is installed as well. *)
Theorem optimised_protected_job_never_succeeds
    (e : Compiler.env) (files files' : Host.fs) (options : Compiler.CompilationOptions)
    (r : Compiler.CompilationResult) :
  Compiler.tool_available e Compiler.NUITKA = true →
  Compiler.preferred_compiler options = None
  ∨ Compiler.preferred_compiler options = Some Compiler.NUITKA →
  Compiler.optimize options = true →
  Compiler.obfuscate options || Compiler.encrypt_bytecode options = true →
  Compiler.compile e files (Compiler._detect_compilers e) options = (Py.Ret r, files') →
  Compiler.success r = false
  ∧ (Host.exists_ files (Compiler.source_path options) = true →
     Compiler.compiler_used r = Some Compiler.NUITKA).
Proof.
  intros Hn Hpref Hopt Hprot.
  assert (Esel : Compiler.select_best_compiler (Compiler._detect_compilers e) options
                 = Py.Ret (Compiler.NUITKA, Compiler.NuitkaBackend)).
  { unfold Compiler.select_best_compiler, Compiler._detect_compilers, Compiler.compilers.
    destruct options as [src out oname icon one cons opt dbg excl hid upx lvl obf enc pref
                           standalone collect].
    cbn [List.filter snd Compiler.is_available Compiler.PyInstallerBackend
           Compiler.NuitkaBackend Compiler.CxFreezeBackend Compiler.optimize
           Compiler.obfuscate Compiler.encrypt_bytecode Compiler.preferred_compiler] in *.
    subst opt. rewrite Hn.
    destruct Hpref as [->| ->];
      destruct (Compiler.tool_available e Compiler.PYINSTALLER),
        (Compiler.tool_available e Compiler.CX_FREEZE), obf, enc;
      try discriminate; reflexivity. }
  unfold Compiler.compile. rewrite Esel.
  destruct (Host.exists_ files (Compiler.source_path options)); cbn [negb];
    [| intros E; injection E as <- <-; split; [reflexivity | discriminate]].
  destruct (Host.makedirs_exist_ok files (Compiler.output_path options));
    [| intros E; discriminate].
  cbn [Compiler.compile_with Compiler.NuitkaBackend].
  unfold Compiler.Nuitka_compile.
  destruct (Compiler.spawn e _ _ files) as [process after|ex after].
  - destruct (Host.returncode process =? 0).
    + rewrite Nuitka_has_no_locator. cbn. intros E. injection E as <- <-. by split.
    + cbn. intros E. injection E as <- <-. by split.
  - cbn. intros E. injection E as <- <-. by split.
Qed.

(** The theorem at a host with the three compilers whose child exits with
    zero next to a built [dist/app.exe]. *)
Lemma optimised_protected_job_never_succeeds_witness :
  Compiler.success
    (Compiler.failed "'NuitkaBackend' object has no attribute '_find_output_file'" 0
       (Some Compiler.NUITKA)) = false
  ∧ (Host.exists_ Scenario.built_files "app.py" = true →
     Some Compiler.NUITKA = Some Compiler.NUITKA).
Proof.
  apply (optimised_protected_job_never_succeeds Scenario.all_compilers
           Scenario.built_files Scenario.built_files
           (Compiler.mkCompilationOptions "app.py" "dist" None None true false true false
              [] [] false 9 true false None true [])).
  - reflexivity.
  - by left.
  - reflexivity.
  - reflexivity.
  - vm_compute. reflexivity.
Defined.



(** ** The compression handler *)

Lemma suffixed_path_differs (p : string) (c : ascii) (s : string) : p ≠ p +:+ String c s.
Proof.
  induction p as [|a p IH]; cbn; [discriminate |].
  intros E. injection E as E. exact (IH E).
Qed.

(** A file is typed [pe_executable] exactly when it can be read and starts
    with [MZ]. *)
Lemma pe_type_spec (e : Compression.env) (files : Host.fs) (file_path : string) :
  Compression.get_type_is (Compression._get_file_info e files file_path) "pe_executable"
  = true →
  ∃ data, files !! file_path = Some data
          ∧ Py.bytes_startswith (firstn 16 data) Compression.MZ = true.
Proof.
  unfold Compression._get_file_info, Compression._detect_file_type, Host.getsize,
    Host.read_bytes.
  destruct (files !! file_path) as [data|]; [| discriminate].
  cbn. intros H. exists data. split; [reflexivity |].
  destruct (Py.bytes_startswith (firstn 16 data) Compression.MZ); [reflexivity |].
  destruct (Py.bytes_startswith (firstn 16 data) Compression.ELF); [discriminate |].
  destruct (Py.bytes_startswith (firstn 16 data) Compression.MACH); discriminate.
Qed.

(** In [auto] mode the handler always finds a compressor, the adaptive one
    being built in, and it never picks LZMA, which the adaptive one always
    outscores.  UPX is picked only for a file that starts with [MZ];
    Brotli only for a file of at most 500 KiB with a text extension. *)
Theorem auto_mode_choice
    (e : Compression.env) (files : Host.fs) (file_path : string)
    (options : Compression.CompressionOptions) :
  Compression.method options = Compression.AUTO →
  ∃ m backend,
    Compression.select_best_compressor e files (Compression._detect_compressors e)
      file_path options = Py.Ret (m, backend)
    ∧ In (m, backend) (Compression._detect_compressors e)
    ∧ m ≠ Compression.LZMA
    ∧ (m = Compression.UPX →
       ∃ data, files !! file_path = Some data
               ∧ Py.bytes_startswith (firstn 16 data) Compression.MZ = true)
    ∧ (m = Compression.BROTLI →
       Compression.get_size (Compression._get_file_info e files file_path) ≤ 500 * 1024
       ∧ In (Compression.get_extension (Compression._get_file_info e files file_path))
            Compression.text_extensions).
Proof.
  intros Hauto.
  pose proof (pe_type_spec e files file_path) as Hpe.
  unfold Compression.select_best_compressor. rewrite Hauto.
  rewrite decide_True by reflexivity.
  unfold Compression._detect_compressors, Compression.compressors.
  cbn [List.filter snd Compression.is_available Compression.UPXCompressor
         Compression.LZMACompressor Compression.BrotliCompressor
         Compression.CustomCompressor].
  set (info := Compression._get_file_info e files file_path) in *.
  assert (Hext : List.existsb (String.eqb (Compression.get_extension info))
                   Compression.text_extensions = true →
                 In (Compression.get_extension info) Compression.text_extensions).
  { intros H. apply List.existsb_exists in H as (x & Hin & Hx).
    apply String.eqb_eq in Hx. by subst x. }
  destruct (Compression.UPX_is_available e), (Compression.BROTLI_AVAILABLE e);
    cbn [List.map fst snd Compression.get_score Compression.UPXCompressor
           Compression.LZMACompressor Compression.BrotliCompressor
           Compression.CustomCompressor];
    unfold Compression.UPX_get_score, Compression.LZMA_get_score,
      Compression.Brotli_get_score, Compression.Custom_get_score;
    fold info;
    destruct (Compression.get_type_is info "pe_executable");
    destruct (Compression.get_is_executable info);
    destruct (List.existsb (String.eqb (Compression.get_extension info))
                Compression.text_extensions);
    destruct (Z.ltb_spec (10 * 1024 * 1024) (Compression.get_size info));
    destruct (Z.ltb_spec (1 * 1024 * 1024) (Compression.get_size info));
    destruct (Z.ltb_spec (Compression.get_size info) (100 * 1024));
    destruct (Z.ltb_spec (500 * 1024) (Compression.get_size info));
    try lia;
    cbn; eexists _, _; (split; [reflexivity |]);
    (split; [auto 6 |]); (split; [discriminate |]);
    (split; [first [discriminate | intros _; by apply Hpe]
            | first [discriminate | intros _; split; [lia | by apply Hext]]]).
Qed.

Lemma auto_mode_choice_witness :
  ∃ m backend,
    Compression.select_best_compressor Scenario.plain_host Scenario.one_file
      (Compression._detect_compressors Scenario.plain_host) "app.py"
      Compression.CompressionOptions_defaults = Py.Ret (m, backend)
    ∧ m ≠ Compression.LZMA.
Proof.
  destruct (auto_mode_choice Scenario.plain_host Scenario.one_file "app.py"
              Compression.CompressionOptions_defaults eq_refl)
    as (m & backend & E & _ & Hm & _).
  exists m, backend. split; [exact E | exact Hm].
Defined.

Lemma dict_get_In `{EqDecision K} {B} (k : K) (b : B) (d : list (K * B)) :
  Py.dict_get k d = Some b → In (k, b) d.
Proof.
  induction d as [|[k' b'] d IH]; cbn; [discriminate |].
  destruct (decide (k' = k)) as [->|_].
  - intros E. injection E as ->. by left.
  - intros E. right. by apply IH.
Qed.

Lemma detect_compressors_declared (e : Compression.env)
    (mb : Compression.CompressionMethod * Compression.CompressionBackend) :
  In mb (Compression._detect_compressors e) →
  In mb Compression.compressors ∧ Compression.is_available (snd mb) e = true.
Proof. unfold Compression._detect_compressors. apply List.filter_In. Qed.

(** No backend reads the [method] field of its options. *)
Lemma compress_ignores_method (e : Compression.env) (files : Host.fs) (file_path : string)
    (m m' : Compression.CompressionMethod) (kwargs : Compression.CompressionOptions)
    (mb : Compression.CompressionMethod * Compression.CompressionBackend) :
  In mb Compression.compressors →
  Compression.compress (snd mb) e files file_path
    (Compression.CompressionOptions_post_init (Compression.with_method m kwargs))
  = Compression.compress (snd mb) e files file_path
      (Compression.CompressionOptions_post_init (Compression.with_method m' kwargs)).
Proof.
  destruct kwargs as [m0 lvl pres bak brute icons relocs preset check qual bits algo excl].
  destruct excl as [patterns|]; intros [<-|[<-|[<-|[<-|[]]]]]; reflexivity.
Qed.

(** No score depends on the options. *)
Lemma get_score_ignores_options (e : Compression.env) (files : Host.fs)
    (file_path : string) (o o' : Compression.CompressionOptions)
    (mb : Compression.CompressionMethod * Compression.CompressionBackend) :
  In mb Compression.compressors →
  Compression.get_score (snd mb) e files file_path o
  = Compression.get_score (snd mb) e files file_path o'.
Proof. intros [<-|[<-|[<-|[<-|[]]]]]; reflexivity. Qed.

(** A method that has no available backend is treated as [auto], without a
    word to the caller: this is so for [gzip], which has no backend at all,
    and for UPX and Brotli on a host that lacks them.  The run is the very
    run of [auto], since no backend reads the [method] field. *)
Theorem unavailable_method_runs_auto
    (e : Compression.env) (files : Host.fs) (exe_path : string)
    (m : Compression.CompressionMethod) (kwargs : Compression.CompressionOptions) :
  Py.dict_get m (Compression._detect_compressors e) = None →
  Compression.compress_executable e files (Compression._detect_compressors e) exe_path
    (inl m) kwargs
  = Compression.compress_executable e files (Compression._detect_compressors e) exe_path
      (inl Compression.AUTO) kwargs.
Proof.
  intros Hm. unfold Compression.compress_executable.
  destruct (negb (Host.exists_ files exe_path)); [reflexivity |].
  cbn [Compression.as_method mret Py.outcome_ret].
  set (om := Compression.CompressionOptions_post_init (Compression.with_method m kwargs)).
  set (oa := Compression.CompressionOptions_post_init
               (Compression.with_method Compression.AUTO kwargs)).
  assert (Em : Compression.method om = m).
  { subst om. destruct kwargs as [? ? ? ? ? ? ? ? ? ? ? ? [?|]]; reflexivity. }
  assert (Ea : Compression.method oa = Compression.AUTO).
  { subst oa. destruct kwargs as [? ? ? ? ? ? ? ? ? ? ? ? [?|]]; reflexivity. }
  unfold Compression.select_best_compressor. rewrite Em, Ea, Hm.
  rewrite (decide_True (P := Compression.AUTO = Compression.AUTO)) by reflexivity.
  replace (if decide (m = Compression.AUTO) then None else None)
    with (@None Compression.CompressionBackend) by (by destruct (decide _)).
  replace (List.map (λ mb, (mb.1, Compression.get_score mb.2 e files exe_path om))
             (Compression._detect_compressors e))
    with (List.map (λ mb, (mb.1, Compression.get_score mb.2 e files exe_path oa))
            (Compression._detect_compressors e)).
  2:{ apply List.map_ext_in. intros mb Hin. f_equal.
      apply get_score_ignores_options.
      apply detect_compressors_declared in Hin as [Hin _]. exact Hin. }
  destruct (Py.max_by_score _) as [[best score]|]; [| reflexivity].
  destruct (Py.dict_get best _) as [backend|] eqn:Eb; [| reflexivity].
  apply dict_get_In, detect_compressors_declared in Eb as [Eb _].
  pose proof (compress_ignores_method e files exe_path m Compression.AUTO kwargs _ Eb)
    as E.
  cbn [snd] in E. subst om oa.
  cbn [mret Py.outcome_ret]. by rewrite E.
Qed.

(** [gzip] is a member of the enumeration without a backend. *)
Lemma unavailable_method_runs_auto_witness :
  Compression.compress_executable Scenario.plain_host Scenario.one_file
    (Compression._detect_compressors Scenario.plain_host) "app.py"
    (inl Compression.GZIP) Compression.CompressionOptions_defaults
  = Compression.compress_executable Scenario.plain_host Scenario.one_file
      (Compression._detect_compressors Scenario.plain_host) "app.py"
      (inl Compression.AUTO) Compression.CompressionOptions_defaults.
Proof.
  apply (unavailable_method_runs_auto Scenario.plain_host Scenario.one_file "app.py"
           Compression.GZIP Compression.CompressionOptions_defaults).
  reflexivity.
Defined.

(** What the constructor keeps of its arguments. *)
Lemma new_result_fields (ok : bool) (o c : Z) (t : Q)
    (m : option Compression.CompressionMethod) (p err : option string) :
  ∃ r, Compression.new_result ok o c t m p err = Py.Ret r
       ∧ Compression.success r = ok
       ∧ Compression.original_size r = o
       ∧ Compression.compressed_size r = c
       ∧ Compression.method_used r = m
       ∧ Compression.output_path r = p.
Proof.
  unfold Compression.new_result, Compression.CompressionResult_post_init. cbn.
  destruct (Z.ltb_spec 0 o) as [Ho|Ho]; cbn [andb].
  - destruct (0 <? c).
    + rewrite truediv_positive by exact Ho. eexists. by repeat split.
    + eexists. by repeat split.
  - eexists. by repeat split.
Qed.

Ltac new_result_as r H :=
  match goal with
  | |- context [Compression.new_result ?ok ?o ?c ?t ?m ?p ?err] =>
      let E := fresh "E" in
      destruct (new_result_fields ok o c t m p err) as (r & E & H); rewrite E; clear E
  | |- context [Compression.failure ?msg ?t ?o] =>
      let E := fresh "E" in
      destruct (new_result_fields false o 0 t None None (Some msg)) as (r & E & H);
      unfold Compression.failure; rewrite E; clear E
  end.


Lemma UPX_success_sizes
    (e : Compression.env) (files files' : Host.fs) (file_path : string)
    (options : Compression.CompressionOptions) (r : Compression.CompressionResult) :
  Compression.UPX_compress e files file_path options = (Py.Ret r, files') →
  Compression.success r = true →
  Host.getsize files file_path = Py.Ret (Compression.original_size r)
  ∧ Compression.output_path r = Some file_path
  ∧ Host.getsize files' file_path = Py.Ret (Compression.compressed_size r)
  ∧ Compression.method_used r = Some Compression.UPX.
Proof.
  unfold Compression.UPX_compress.
  destruct (Compression.upx_path e) as [upx|].
  2:{ new_result_as r0 H. intros E. injection E as <- <-.
      destruct H as (Hs & _). congruence. }
  destruct (Host.getsize files file_path) as [original_size|ex] eqn:Esize.
  2:{ new_result_as r0 H. intros E. injection E as <- <-.
      destruct H as (Hs & _). congruence. }
  set (backup_path := if Compression.backup_original options
                      then Some (file_path +:+ ".backup") else None).
  destruct (Compression.spawn e _ _) as [process after|ex after].
  - destruct (Host.returncode process =? 0).
    + destruct (Host.getsize after file_path) as [compressed_size|ex] eqn:Eafter;
        cbn [mbind Py.outcome_bind Py.bind Py.try_except].
      * new_result_as r0 H. intros E. injection E as <- <-.
        destruct H as (_ & -> & -> & -> & ->). intros _.
        split; [reflexivity |]. split; [reflexivity |]. split; [| reflexivity].
        unfold Compression.clean_backup, backup_path.
        destruct (Compression.backup_original options); [| exact Eafter].
        destruct (Host.exists_ after (file_path +:+ ".backup") && Host.exists_ after file_path);
          [| exact Eafter].
        unfold Host.remove.
        destruct (Host.remove_refused (Compression.io e)); [exact Eafter |].
        destruct (after !! (file_path +:+ ".backup")); [| exact Eafter].
        unfold Host.getsize in *. rewrite lookup_delete_ne; [exact Eafter |].
        intros E. symmetry in E. exact (suffixed_path_differs _ _ _ E).
      * new_result_as r0 H. cbn [Py.try_except]. intros E. injection E as <- <-.
        destruct H as (Hs & _). congruence.
    + new_result_as r0 H. intros E. injection E as <- <-.
      destruct H as (Hs & _). congruence.
  - new_result_as r0 H. intros E. injection E as <- <-.
    destruct H as (Hs & _). congruence.
Qed.

Lemma getsize_written (files : Host.fs) (p : string) (data : list byte) :
  Host.getsize (<[p := data]> files) p = Py.Ret (Compression.len data).
Proof. unfold Host.getsize. by rewrite lookup_insert_eq. Qed.

Lemma LZMA_success_sizes
    (e : Compression.env) (files files' : Host.fs) (file_path : string)
    (options : Compression.CompressionOptions) (r : Compression.CompressionResult) :
  Compression.LZMA_compress e files file_path options = (Py.Ret r, files') →
  Compression.success r = true →
  Host.getsize files file_path = Py.Ret (Compression.original_size r)
  ∧ Compression.output_path r = Some (file_path +:+ ".lzma")
  ∧ Host.getsize files' (file_path +:+ ".lzma") = Py.Ret (Compression.compressed_size r)
  ∧ Compression.method_used r = Some Compression.LZMA.
Proof.
  unfold Compression.LZMA_compress, Host.read_bytes, Host.open_wb, Host.write.
  destruct (files !! file_path) as [data|] eqn:Efile.
  2:{ cbn [Py.try_except]. new_result_as r0 H. intros E. injection E as <- <-.
      destruct H as (Hs & _). congruence. }
  destruct (Compression.lzma_compress e _ _ data) as [packed|ex].
  2:{ cbn [Py.try_except]. new_result_as r0 H. intros E. injection E as <- <-.
      destruct H as (Hs & _). congruence. }
  destruct (Host.write_refused (Compression.io e)).
  { cbn [Py.try_except]. new_result_as r0 H. intros E. injection E as <- <-.
    destruct H as (Hs & _). congruence. }
  new_result_as r0 H. cbn [Py.try_except]. intros E. injection E as <- <-.
  destruct H as (_ & -> & -> & -> & ->). intros _.
  rewrite alter_insert_eq. unfold Host.getsize at 1. rewrite Efile.
  split; [reflexivity |]. split; [reflexivity |]. split; [| reflexivity].
  apply getsize_written.
Qed.

Lemma Brotli_success_sizes
    (e : Compression.env) (files files' : Host.fs) (file_path : string)
    (options : Compression.CompressionOptions) (r : Compression.CompressionResult) :
  Compression.Brotli_compress e files file_path options = (Py.Ret r, files') →
  Compression.success r = true →
  Host.getsize files file_path = Py.Ret (Compression.original_size r)
  ∧ Compression.output_path r = Some (file_path +:+ ".br")
  ∧ Host.getsize files' (file_path +:+ ".br") = Py.Ret (Compression.compressed_size r)
  ∧ Compression.method_used r = Some Compression.BROTLI.
Proof.
  unfold Compression.Brotli_compress, Host.read_bytes, Host.open_wb, Host.write.
  destruct (negb (Compression.BROTLI_AVAILABLE e)).
  { new_result_as r0 H. intros E. injection E as <- <-.
    destruct H as (Hs & _). congruence. }
  destruct (files !! file_path) as [data|] eqn:Efile.
  2:{ cbn [Py.try_except]. new_result_as r0 H. intros E. injection E as <- <-.
      destruct H as (Hs & _). congruence. }
  destruct (Compression.brotli_compress e _ _ data) as [packed|ex].
  2:{ cbn [Py.try_except]. new_result_as r0 H. intros E. injection E as <- <-.
      destruct H as (Hs & _). congruence. }
  destruct (Host.write_refused (Compression.io e)).
  { cbn [Py.try_except]. new_result_as r0 H. intros E. injection E as <- <-.
    destruct H as (Hs & _). congruence. }
  new_result_as r0 H. cbn [Py.try_except]. intros E. injection E as <- <-.
  destruct H as (_ & -> & -> & -> & ->). intros _.
  rewrite alter_insert_eq. unfold Host.getsize at 1. rewrite Efile.
  split; [reflexivity |]. split; [reflexivity |]. split; [| reflexivity].
  apply getsize_written.
Qed.

Lemma Custom_success_sizes
    (e : Compression.env) (files files' : Host.fs) (file_path : string)
    (options : Compression.CompressionOptions) (r : Compression.CompressionResult) :
  Compression.Custom_compress e files file_path options = (Py.Ret r, files') →
  Compression.success r = true →
  Host.getsize files file_path = Py.Ret (Compression.original_size r)
  ∧ Compression.output_path r = Some (file_path +:+ ".pfc")
  ∧ Host.getsize files' (file_path +:+ ".pfc") = Py.Ret (Compression.compressed_size r)
  ∧ Compression.method_used r = Some Compression.CUSTOM.
Proof.
  unfold Compression.Custom_compress, Host.read_bytes, Host.open_wb, Host.write.
  destruct (files !! file_path) as [data|] eqn:Efile.
  2:{ cbn [Py.try_except]. new_result_as r0 H. intros E. injection E as <- <-.
      destruct H as (Hs & _). congruence. }
  destruct (Compression._optimal_compress e data options) as [payload|ex].
  2:{ cbn [Py.try_except]. new_result_as r0 H. intros E. injection E as <- <-.
      destruct H as (Hs & _). congruence. }
  destruct (Host.write_refused (Compression.io e)).
  { cbn [Py.try_except]. new_result_as r0 H. intros E. injection E as <- <-.
    destruct H as (Hs & _). congruence. }
  unfold Compression.pack_le_I.
  destruct ((0 <=? Compression.len data) && (Compression.len data <? 2 ^ 32)).
  2:{ cbn [Py.try_except]. new_result_as r0 H. intros E. injection E as <- <-.
      destruct H as (Hs & _). congruence. }
  cbn [mret Py.outcome_ret].
  new_result_as r0 H. cbn [Py.try_except]. intros E. injection E as <- <-.
  destruct H as (_ & -> & -> & -> & ->). intros _.
  rewrite !alter_insert_eq. unfold Host.getsize at 1. rewrite Efile.
  split; [reflexivity |]. split; [reflexivity |]. split; [| reflexivity].
  rewrite getsize_written. f_equal. unfold Compression.len, Compression.PFC_magic.
  rewrite !List.length_app. cbn [List.length]. lia.
Qed.

(** The handler runs a backend of its registry. *)
Lemma select_best_compressor_available
    (e : Compression.env) (files : Host.fs)
    (available : list (Compression.CompressionMethod * Compression.CompressionBackend))
    (file_path : string) (options : Compression.CompressionOptions)
    (m : Compression.CompressionMethod) (backend : Compression.CompressionBackend) :
  Compression.select_best_compressor e files available file_path options
  = Py.Ret (m, backend) →
  In (m, backend) available.
Proof.
  unfold Compression.select_best_compressor.
  destruct (decide (Compression.method options = Compression.AUTO)) as [_|_].
  - destruct (Py.max_by_score _) as [[best score]|]; [| discriminate].
    destruct (Py.dict_get best available) as [b|] eqn:Eb; [| discriminate].
    intros E. injection E as <- <-. by apply dict_get_In.
  - destruct (Py.dict_get (Compression.method options) available) as [b|] eqn:Er.
    + intros E. injection E as <- <-. by apply dict_get_In.
    + destruct (Py.max_by_score _) as [[best score]|]; [| discriminate].
      destruct (Py.dict_get best available) as [b|] eqn:Eb; [| discriminate].
      intros E. injection E as <- <-. by apply dict_get_In.
Qed.

(** What a success of the handler tells its caller.  The result names the
    backend that ran, an available one, and the output: the input itself
    for UPX, which compresses in place, and the input path followed by
    [.lzma], [.br] or [.pfc] for the others.  [original_size] is the size
    the input had before the run, and [compressed_size] is the size the
    output has when the handler returns. *)
Theorem compress_success_reports_sizes
    (e : Compression.env) (files files' : Host.fs) (exe_path : string)
    (method : Compression.CompressionMethod) (kwargs : Compression.CompressionOptions)
    (r : Compression.CompressionResult) :
  Compression.compress_executable e files (Compression._detect_compressors e) exe_path
    (inl method) kwargs = (Py.Ret r, files') →
  Compression.success r = true →
  ∃ m backend out,
    In (m, backend) (Compression._detect_compressors e)
    ∧ Compression.method_used r = Some m
    ∧ Compression.output_path r = Some out
    ∧ (m = Compression.UPX ∧ out = exe_path
       ∨ m = Compression.LZMA ∧ out = exe_path +:+ ".lzma"
       ∨ m = Compression.BROTLI ∧ out = exe_path +:+ ".br"
       ∨ m = Compression.CUSTOM ∧ out = exe_path +:+ ".pfc")
    ∧ Host.getsize files exe_path = Py.Ret (Compression.original_size r)
    ∧ Host.getsize files' out = Py.Ret (Compression.compressed_size r).
Proof.
  unfold Compression.compress_executable.
  destruct (negb (Host.exists_ files exe_path)).
  { new_result_as r0 H. intros E. injection E as <- <-.
    destruct H as (Hs & _). congruence. }
  cbn [Compression.as_method mret Py.outcome_ret].
  destruct (Compression.select_best_compressor e files _ exe_path _)
    as [[m backend]|ex] eqn:Esel.
  2:{ cbn [Py.try_except]. new_result_as r0 H. intros E. injection E as <- <-.
      destruct H as (Hs & _). congruence. }
  apply select_best_compressor_available in Esel.
  destruct (Compression.compress backend e files exe_path _) as [[r0|ex] files0] eqn:Erun;
    cbn [Py.try_except].
  2:{ new_result_as r1 H. intros E. injection E as <- <-.
      destruct H as (Hs & _). congruence. }
  intros E Hs. injection E as <- <-.
  exists m, backend.
  destruct (detect_compressors_declared e _ Esel) as [[Eb|[Eb|[Eb|[Eb|[]]]]] _];
    injection Eb as <- <-; cbn [Compression.compress Compression.UPXCompressor
      Compression.LZMACompressor Compression.BrotliCompressor
      Compression.CustomCompressor] in Erun.
  - destruct (UPX_success_sizes _ _ _ _ _ _ Erun Hs) as (Ho & Hout & Hc & Hm).
    exists exe_path. repeat split; auto.
  - destruct (LZMA_success_sizes _ _ _ _ _ _ Erun Hs) as (Ho & Hout & Hc & Hm).
    exists (exe_path +:+ ".lzma"). repeat split; auto.
  - destruct (Brotli_success_sizes _ _ _ _ _ _ Erun Hs) as (Ho & Hout & Hc & Hm).
    exists (exe_path +:+ ".br"). repeat split; auto 6.
  - destruct (Custom_success_sizes _ _ _ _ _ _ Erun Hs) as (Ho & Hout & Hc & Hm).
    exists (exe_path +:+ ".pfc"). repeat split; auto 6.
Qed.

(** The theorem at [app.py] on a host with the built-in codecs, which copy
    their input: the adaptive backend writes [app.py.pfc], 13 bytes long. *)
Lemma compress_success_reports_sizes_witness :
  let r :=
    Compression.mkCompressionResult true 5 13 (inject_Z (5 - 13) / inject_Z 5)%Q 0
      (Some Compression.CUSTOM) (Some "app.py.pfc") None (Some []) in
  let files' :=
    <["app.py.pfc" := Compression.PFC_magic ++ [x05; x00; x00; x00]%byte
                      ++ Scenario.hello_bytes]> Scenario.one_file in
  ∃ m backend out,
    In (m, backend) (Compression._detect_compressors Scenario.plain_host)
    ∧ Compression.method_used r = Some m
    ∧ Compression.output_path r = Some out
    ∧ (m = Compression.UPX ∧ out = "app.py"
       ∨ m = Compression.LZMA ∧ out = "app.py.lzma"
       ∨ m = Compression.BROTLI ∧ out = "app.py.br"
       ∨ m = Compression.CUSTOM ∧ out = "app.py.pfc")
    ∧ Host.getsize Scenario.one_file "app.py" = Py.Ret (Compression.original_size r)
    ∧ Host.getsize files' out = Py.Ret (Compression.compressed_size r).
Proof.
  apply (compress_success_reports_sizes Scenario.plain_host Scenario.one_file _ "app.py"
           Compression.AUTO Compression.CompressionOptions_defaults).
  - vm_compute. reflexivity.
  - reflexivity.
Defined.

Lemma repeated_bytes_bounds (sample : list byte) :
  0 ≤ Compression.repeated_bytes sample
  ∧ (sample ≠ [] → Compression.repeated_bytes sample ≤ Compression.len sample - 1).
Proof.
  unfold Compression.len.
  induction sample as [|a [|b rest] IH].
  - split; [reflexivity | done].
  - split; [reflexivity | intros _; cbn; lia].
  - destruct IH as [IH0 IH1]. specialize (IH1 ltac:(discriminate)).
    change (Compression.repeated_bytes (a :: b :: rest))
      with ((if Byte.eqb b a then 1 else 0) + Compression.repeated_bytes (b :: rest)).
    cbn [List.length] in *. split; [destruct (Byte.eqb b a); lia |].
    intros _. destruct (Byte.eqb b a); lia.
Qed.

(** The repetition ratio is a proportion: it is computed for every input,
    lies between 0 and 1, and is 0 for an input shorter than 100 bytes. *)
Theorem repetition_ratio_is_a_proportion (data : list byte) :
  ∃ ratio,
    Compression._calculate_repetition_ratio data = Py.Ret ratio
    ∧ (0 <= ratio)%Q ∧ (ratio <= 1)%Q
    ∧ (Compression.len data < 100 → ratio = 0%Q).
Proof.
  unfold Compression._calculate_repetition_ratio.
  destruct (Z.ltb_spec (Compression.len data) 100) as [Hlt|Hge].
  - exists 0%Q. by repeat split.
  - rewrite truediv_positive by lia. eexists. split; [reflexivity |].
    set (n := Z.min 1000 (Compression.len data)).
    set (sample := firstn (Z.to_nat n) data).
    assert (Hn : Compression.len sample = n).
    { unfold sample, n, Compression.len in *. rewrite List.length_firstn. lia. }
    assert (Hn100 : 100 ≤ n) by (unfold n; lia).
    clearbody n sample.
    assert (Hne : sample ≠ []).
    { intros E. rewrite E in Hn. unfold Compression.len in Hn. cbn in Hn. lia. }
    destruct (repeated_bytes_bounds sample) as [H0 H1]. specialize (H1 Hne).
    rewrite Hn in H1.
    assert (Hpos : (0 < inject_Z (n - 1))%Q).
    { change 0%Q with (inject_Z 0). rewrite <- Zlt_Qlt. lia. }
    split; [| split; [| lia]].
    + apply Qle_shift_div_l; [exact Hpos |]. rewrite Qmult_0_l.
      change 0%Q with (inject_Z 0). rewrite <- Zle_Qle. exact H0.
    + apply Qle_shift_div_r; [exact Hpos |]. rewrite Qmult_1_l.
      rewrite <- Zle_Qle. exact H1.
Qed.

(** The string form of the enumerations.  [CompressionMethod(s)] and
    [ProtectionLevel(s)] return a member exactly for that member's value,
    so each stage accepts the value of every member and treats it as the
    member itself. *)
Theorem enum_values_round_trip :
  (∀ s m, Compression.CompressionMethod_of_value s = Py.Ret m ↔ s = Compression.value m)
  ∧ (∀ s l, Protection.ProtectionLevel_of_value s = Py.Ret l
            ↔ s = Protection.level_value l)
  ∧ (∀ e files available exe_path m kwargs,
       Compression.compress_executable e files available exe_path
         (inr (Compression.value m)) kwargs
       = Compression.compress_executable e files available exe_path (inl m) kwargs)
  ∧ (∀ e files available source_path l kwargs,
       Protection.protect_code e files available source_path
         (inr (Protection.level_value l)) kwargs
       = Protection.protect_code e files available source_path (inl l) kwargs).
Proof.
  assert (Hm : ∀ s m, Compression.CompressionMethod_of_value s = Py.Ret m
                      ↔ s = Compression.value m).
  { intros s m. split.
    - unfold Compression.CompressionMethod_of_value. cbn [List.find Compression.value].
      repeat match goal with
             | |- context [String.eqb ?a s] => destruct (String.eqb_spec a s) as [<-|_]
             end;
        intros E; try discriminate; injection E as <-; reflexivity.
    - intros ->. by destruct m. }
  assert (Hl : ∀ s l, Protection.ProtectionLevel_of_value s = Py.Ret l
                      ↔ s = Protection.level_value l).
  { intros s l. split.
    - unfold Protection.ProtectionLevel_of_value. cbn [List.find Protection.level_value].
      repeat match goal with
             | |- context [String.eqb ?a s] => destruct (String.eqb_spec a s) as [<-|_]
             end;
        intros E; try discriminate; injection E as <-; reflexivity.
    - intros ->. by destruct l. }
  split; [exact Hm |]. split; [exact Hl |]. split.
  - intros e files available exe_path m kwargs. unfold Compression.compress_executable.
    cbn [Compression.as_method]. by rewrite (proj2 (Hm _ m) eq_refl).
  - intros e files available source_path l kwargs. unfold Protection.protect_code.
    cbn [Protection.as_level]. by rewrite (proj2 (Hl _ l) eq_refl).
Qed.

(** [batch_compress] cannot compress anything.  It passes the method both
    by position and, through [**base_options.__dict__], by the keyword
    [method]; binding the arguments of the first call raises [TypeError],
    which leaves [batch_compress] before any task is made.  Only the empty
    list of files gets through. *)
Theorem batch_compress_raises
    (files : list string) (base_options : Compression.CompressionOptions) :
  files ≠ [] →
  Compression.batch_compress_tasks files base_options
  = Py.Raise (Py.Exn "TypeError"
                ("CompressionHandler.compress_executable() got multiple values "
                 +:+ "for argument 'method'")).
Proof. destruct files as [|file_path rest]; [done | reflexivity]. Qed.

Lemma batch_compress_raises_witness :
  Compression.batch_compress_tasks ["app.exe"] Compression.CompressionOptions_defaults
  = Py.Raise (Py.Exn "TypeError"
                ("CompressionHandler.compress_executable() got multiple values "
                 +:+ "for argument 'method'"))
  ∧ Compression.batch_compress_tasks [] Compression.CompressionOptions_defaults = Py.Ret [].
Proof.
  split; [| reflexivity].
  apply (batch_compress_raises ["app.exe"] Compression.CompressionOptions_defaults).
  discriminate.
Defined.

(** ** The protection manager *)

Lemma concat_map_ext {A B} (f g : A → list B) (l : list A) :
  Forall (fun x => f x = g x) l → List.concat (List.map f l) = List.concat (List.map g l).
Proof.
  induction 1 as [|x l Hx _ IH]; cbn [List.map List.concat]; [reflexivity |].
  by rewrite Hx, IH.
Qed.



(** One file through the obfuscator: it raises and leaves the files alone,
    or it writes the output next to the input and returns its path, which
    takes [astor]. *)
Lemma obfuscate_file_spec (e : Protection.env) (files : Host.fs) (file_path : string)
    (options : Protection.ProtectionOptions) :
  (∃ ex, Protection._obfuscate_file e files file_path options = (Py.Raise ex, files))
  ∨ (∃ code,
       Protection._obfuscate_file e files file_path options
       = (Py.Ret (file_path +:+ ".obfuscated"),
          <[file_path +:+ ".obfuscated" := code]> files)
       ∧ Protection.astor_installed e = true).
Proof.
  unfold Protection._obfuscate_file, Host.open_wb, Host.write.
  destruct (Host.read_bytes files file_path) as [raw|ex]; [| left; by eexists].
  destruct (Protection.parse e _) as [tree|ex]; [| left; by eexists].
  destruct (Protection.astor_installed e); cbn [negb]; [| left; by eexists].
  destruct (Protection.to_source e _) as [code|ex]; [| left; by eexists].
  destruct (Host.write_refused (Protection.io e)); [left; by eexists |].
  right. eexists. split; [| reflexivity]. by rewrite alter_insert_eq.
Qed.

Lemma dict_set_In (d : Protection.path_dict) (k v : string) (kv : string * string) :
  In kv (Protection.dict_set d k v) → kv = (k, v) ∨ In kv d.
Proof.
  induction d as [|[k' v'] d IH]; cbn.
  - intros [<-|[]]. by left.
  - destruct (String.eqb k' k).
    + intros [<-|H]; [by left | right; by right].
    + intros [<-|H]; [right; by left |].
      destruct (IH H) as [->|Hin]; [by left | right; by right].
Qed.

(** The loop over the files of a source tree, for the obfuscator. *)
Lemma obfuscate_each_spec (e : Protection.env) (options : Protection.ProtectionOptions)
    (paths : list string) :
  ∀ (acc : Protection.path_dict) (files : Host.fs),
    let run :=
      Protection.protect_each (fun p fs => Protection._obfuscate_file e fs p options)
        paths acc files in
    (∀ q, (∀ p, q ≠ p +:+ ".obfuscated") → snd run !! q = files !! q)
    ∧ (∀ q, Host.exists_ files q = true → Host.exists_ (snd run) q = true)
    ∧ (Protection.astor_installed e = false →
       snd run = files ∧ (paths ≠ [] → ∃ ex, fst run = Py.Raise ex))
    ∧ (∀ d, fst run = Py.Ret d →
         ∀ kv, In kv d →
           In kv acc ∨ (In (fst kv) paths ∧ snd kv = fst kv +:+ ".obfuscated"
                        ∧ Host.exists_ (snd run) (snd kv) = true)).
Proof.
  induction paths as [|file_path rest IH]; intros acc files; cbn zeta;
    cbn [Protection.protect_each].
  - split; [done |]. split; [done |]. split; [by split |].
    cbn. intros d E kv Hkv. injection E as <-. by left.
  - destruct (obfuscate_file_spec e files file_path options) as [[ex E]|(code & E & Hastor)];
      rewrite E.
    + cbn [fst snd]. split; [done |]. split; [done |].
      split; [intros _; split; [reflexivity | intros _; by eexists] |].
      discriminate.
    + specialize (IH (Protection.dict_set acc file_path (file_path +:+ ".obfuscated"))
                    (<[file_path +:+ ".obfuscated" := code]> files)).
      cbn zeta in IH. destruct IH as (Hframe & Hgrow & _ & Hdict).
      split; [| split; [| split]].
      * intros q Hq. rewrite Hframe by exact Hq.
        apply lookup_insert_ne. intros Eq. exact (Hq file_path (eq_sym Eq)).
      * intros q Hq. apply Hgrow. unfold Host.exists_ in *.
        destruct (decide (file_path +:+ ".obfuscated" = q)) as [->|Hne];
          [by rewrite lookup_insert_eq | by rewrite lookup_insert_ne].
      * congruence.
      * intros d Ed kv Hkv. destruct (Hdict d Ed kv Hkv) as [Hacc|(Hin & Hout & Hex)].
        -- apply dict_set_In in Hacc as [->|Hacc]; [| by left].
           right. cbn [fst snd]. split; [by left |]. split; [reflexivity |].
           apply Hgrow. unfold Host.exists_. by rewrite lookup_insert_eq.
        -- right. split; [by right | by split].
Qed.

Lemma length_append (s t : string) :
  String.length (s +:+ t) = (String.length s + String.length t)%nat.
Proof.
  induction s as [|c s IH]; [reflexivity |].
  change (String c s +:+ t) with (String c (s +:+ t)). cbn [String.length]. by rewrite IH.
Qed.

Lemma substring_skip (s t : string) (n m : nat) :
  String.substring (String.length s + n) m (s +:+ t) = String.substring n m t.
Proof.
  induction s as [|c s IH]; [reflexivity |].
  change (String c s +:+ t) with (String c (s +:+ t)).
  cbn [String.length Nat.add String.substring]. exact IH.
Qed.

(** An output of the obfuscator is no Python source. *)
Lemma obfuscated_is_no_source (p : string) : Py.endswith (p +:+ ".obfuscated") ".py" = false.
Proof.
  unfold Py.endswith. rewrite length_append.
  replace (String.length p + String.length ".obfuscated" - String.length ".py")%nat
    with (String.length p + 8)%nat by (cbn; lia).
  rewrite substring_skip. cbn. apply andb_false_r.
Qed.



Lemma NoDup_map_fst_filter {K B} (f : K * B → bool) (l : list (K * B)) :
  List.NoDup (List.map fst l) → List.NoDup (List.map fst (List.filter f l)).
Proof.
  induction l as [|x l IH]; cbn; [done |].
  intros Hnd. apply List.NoDup_cons_iff in Hnd as [Hx Hnd].
  destruct (f x); cbn; [| by apply IH].
  apply List.NoDup_cons; [| by apply IH].
  intros Hin. apply Hx. apply List.in_map_iff in Hin as (y & Ey & Hy).
  apply List.filter_In in Hy as [Hy _]. apply List.in_map_iff. by exists y.
Qed.

Lemma detect_protectors_NoDup (e : Protection.env) :
  List.NoDup (List.map fst (Protection._detect_protectors e)).
Proof.
  unfold Protection._detect_protectors. apply NoDup_map_fst_filter.
  cbn. repeat constructor; cbn; intuition discriminate.
Qed.

(** The custom obfuscator is always among the available protectors. *)
Lemma custom_is_available (e : Protection.env) :
  Py.dict_get Protection.CUSTOM (Protection._detect_protectors e)
  = Some Protection.CustomObfuscator.
Proof.
  unfold Protection._detect_protectors, Protection.protectors. cbn.
  destruct (Protection.pyarmor_path e); reflexivity.
Qed.

(** [select_best_protector] always returns an available protector, since
    the custom obfuscator is built in.  When a requested method is
    available, the choice is a requested method, and no available protector
    of a requested method scores higher; otherwise it is the custom
    obfuscator, requested or not. *)
Theorem select_best_protector_returns
    (e : Protection.env) (options : Protection.ProtectionOptions) :
  ∃ m backend,
    Protection.select_best_protector e (Protection._detect_protectors e) options
    = Py.Ret (m, backend)
    ∧ In (m, backend) (Protection._detect_protectors e)
    ∧ (Protection.has_method m (Protection.methods options) = true
       ∧ (∀ mb, In mb (Protection._detect_protectors e) →
            Protection.has_method (fst mb) (Protection.methods options) = true →
            Protection.get_score (snd mb) e options
            ≤ Protection.get_score backend e options)
       ∨ m = Protection.CUSTOM
         ∧ ∀ mb, In mb (Protection._detect_protectors e) →
             Protection.has_method (fst mb) (Protection.methods options) = false).
Proof.
  unfold Protection.select_best_protector.
  set (requested := List.filter
                      (fun mb => Protection.has_method (fst mb) (Protection.methods options))
                      (Protection._detect_protectors e)).
  destruct requested as [|first rest] eqn:Ereq.
  - rewrite custom_is_available. eexists _, _. split; [reflexivity |].
    split; [apply dict_get_In, custom_is_available |].
    right. split; [reflexivity |]. intros mb Hin.
    destruct (Protection.has_method (fst mb) (Protection.methods options)) eqn:Hm;
      [| reflexivity].
    assert (Hreq : In mb requested) by (apply List.filter_In; by split).
    rewrite Ereq in Hreq. destruct Hreq.
  - rewrite <- Ereq.
    destruct (first_best_selected (fun b => Protection.get_score b e options) requested)
      as (m & backend & pre & post & Emax & Eget & Ed & Hpre & Hpost).
    { rewrite Ereq. discriminate. }
    { apply NoDup_map_fst_filter, detect_protectors_NoDup. }
    rewrite Emax, Eget. exists m, backend. split; [reflexivity |].
    assert (Hin : In (m, backend) requested).
    { rewrite Ed. apply List.in_or_app. right. by left. }
    apply List.filter_In in Hin as [Hin Hm]. split; [exact Hin |].
    left. split; [exact Hm |]. intros mb Hmb Hreq.
    assert (Hmb' : In mb requested) by (apply List.filter_In; by split).
    rewrite Ed in Hmb'. apply List.in_app_or in Hmb' as [Hp|[<-|Hp]].
    + specialize (Hpre mb Hp). lia.
    + reflexivity.
    + exact (Hpost mb Hp).
Qed.

(** With the options of level maximum on a bare host, where only the
    obfuscator is present, the obfuscator is chosen. *)
Lemma select_best_protector_returns_witness :
  ∃ m backend,
    Protection.select_best_protector Scenario.bare_protection
      (Protection._detect_protectors Scenario.bare_protection)
      (Protection.ProtectionOptions_post_init
         (Protection.with_level Protection.MAXIMUM Protection.ProtectionOptions_defaults))
    = Py.Ret (m, backend)
    ∧ m = Protection.CUSTOM.
Proof.
  destruct (select_best_protector_returns Scenario.bare_protection
              (Protection.ProtectionOptions_post_init
                 (Protection.with_level Protection.MAXIMUM
                    Protection.ProtectionOptions_defaults)))
    as (m & backend & E & Hin & _).
  exists m, backend. split; [exact E |].
  change (In (m, backend) [(Protection.CUSTOM, Protection.CustomObfuscator)]) in Hin.
  destruct Hin as [Heq|[]]. by injection Heq.
Defined.

Lemma detect_protectors_declared (e : Protection.env)
    (mb : Protection.ObfuscationMethod * Protection.ProtectionBackend) :
  In mb (Protection._detect_protectors e) →
  In mb Protection.protectors ∧ Protection.is_available (snd mb) e = true.
Proof. unfold Protection._detect_protectors. apply List.filter_In. Qed.



(** ** The dependency analyzer *)

(** A record is kept by the classification loop unless the standard
    library is left out and the module belongs to it. *)
Definition kept (e : Analyzer.env) (include_stdlib : bool) (module : string) : bool :=
  include_stdlib || negb (Analyzer.is_builtin (Analyzer._get_module_info e module)).

Lemma elem_of_grown (x n : string) (Y : gset string) :
  n ≠ x → n ∈ Y ↔ n ∈ {[x]} ∪ Y.
Proof. intros Hne. rewrite elem_of_union, elem_of_singleton. tauto. Qed.

Lemma classify_each_lookup (e : Analyzer.env) (include_stdlib : bool) (X : gset string)
    (n : string) :
  Analyzer.classify_each e include_stdlib X !! n
  = if bool_decide (n ∈ X) && kept e include_stdlib n
    then Some (Analyzer._get_module_info e n) else None.
Proof.
  unfold Analyzer.classify_each. revert n.
  pose (P := fun (r : gmap string Analyzer.DependencyInfo) (Y : gset string) =>
              ∀ n, r !! n = if bool_decide (n ∈ Y) && kept e include_stdlib n
                            then Some (Analyzer._get_module_info e n) else None).
  apply (set_fold_ind_L P); unfold P; clear P.
  - intros n. rewrite lookup_empty. by rewrite bool_decide_eq_false_2 by set_solver.
  - intros x Y r Hx IH n. unfold kept in *.
    destruct (decide (n = x)) as [->|Hne].
    + rewrite (bool_decide_eq_true_2 (x ∈ {[x]} ∪ Y)) by set_solver. cbn [andb].
      specialize (IH x). rewrite (bool_decide_eq_false_2 (x ∈ Y)) in IH by exact Hx.
      cbn [andb] in IH.
      destruct include_stdlib; cbn [negb andb orb].
      * by rewrite lookup_insert_eq.
      * destruct (Analyzer.is_builtin (Analyzer._get_module_info e x)); cbn [negb];
          [exact IH | by rewrite lookup_insert_eq].
    + replace (bool_decide (n ∈ {[x]} ∪ Y)) with (bool_decide (n ∈ Y))
        by (by apply bool_decide_ext, elem_of_grown).
      destruct (negb include_stdlib && _); [apply IH |].
      rewrite lookup_insert_ne by done. apply IH.
Qed.

Lemma collect_modules_elem (deps : gmap string (gset string)) (n : string) :
  n ∈ Analyzer.collect_modules deps ↔ ∃ parent, imports_of deps parent n.
Proof.
  split; [apply collect_modules_spec |].
  unfold Analyzer.collect_modules, imports_of. revert n.
  apply (map_fold_weak_ind
           (fun (acc : gset string) (m : gmap string (gset string)) =>
              ∀ n, (∃ parent imported, m !! parent = Some imported ∧ n ∈ imported) → n ∈ acc)).
  - intros n (parent & imported & H & _). by rewrite lookup_empty in H.
  - intros i x m r Hi IH n (parent & imported & H & Hn).
    destruct (decide (i = parent)) as [->|Hne].
    + rewrite lookup_insert_eq in H. injection H as ->. set_solver.
    + rewrite lookup_insert_ne in H by done.
      apply elem_of_union. left. apply IH. by exists parent, imported.
Qed.

(** One pass of the inner loop: the records of the imports of [parent]
    get [parent] in their [required_by]; nothing else changes. *)
Lemma relate_loop_lookup (parent : string) (acc : gmap string Analyzer.DependencyInfo)
    (imported : gset string) (n : string) :
  set_fold (Analyzer.relate parent) acc imported !! n
  = (fun info => if bool_decide (n ∈ imported)
                 then Analyzer.add_required_by parent info else info) <$> acc !! n.
Proof.
  revert n.
  pose (P := fun (r : gmap string Analyzer.DependencyInfo) (Y : gset string) =>
              ∀ n, r !! n = (fun info => if bool_decide (n ∈ Y)
                                         then Analyzer.add_required_by parent info
                                         else info) <$> acc !! n).
  apply (set_fold_ind_L P); unfold P; clear P.
  - intros n. rewrite bool_decide_eq_false_2 by set_solver.
    by destruct (acc !! n).
  - intros x X r Hx IH n. unfold Analyzer.relate.
    pose proof (IH x) as IHx. rewrite (bool_decide_eq_false_2 (x ∈ X)) in IHx by exact Hx.
    destruct (decide (n = x)) as [->|Hne].
    + rewrite (bool_decide_eq_true_2 (x ∈ {[x]} ∪ X)) by set_solver.
      destruct (acc !! x) as [i0|]; cbn in IHx |- *; rewrite IHx;
        [by rewrite lookup_insert_eq | exact IHx].
    + replace (bool_decide (n ∈ {[x]} ∪ X)) with (bool_decide (n ∈ X))
        by (by apply bool_decide_ext, elem_of_grown).
      destruct (r !! x); [rewrite lookup_insert_ne by done |]; apply IH.
Qed.

(** Two records that differ in their [required_by] at most. *)
Definition same_module (a b : Analyzer.DependencyInfo) : Prop :=
  Analyzer.name a = Analyzer.name b
  ∧ Analyzer.version a = Analyzer.version b
  ∧ Analyzer.location a = Analyzer.location b
  ∧ Analyzer.is_builtin a = Analyzer.is_builtin b
  ∧ Analyzer.is_local a = Analyzer.is_local b
  ∧ Analyzer.is_third_party a = Analyzer.is_third_party b
  ∧ Analyzer.size_estimate a = Analyzer.size_estimate b.

(** The second loop of [_classify_dependencies] keeps the keys and adds to
    the [required_by] of each record its importers. *)
Lemma relate_all_lookup (deps : gmap string (gset string))
    (classified : gmap string Analyzer.DependencyInfo) (n : string) :
  match map_fold (fun parent imported acc => set_fold (Analyzer.relate parent) acc imported)
          classified deps !! n, classified !! n with
  | Some info, Some info0 =>
      same_module info info0
      ∧ ∀ p, p ∈ Analyzer.required_by info
             ↔ p ∈ Analyzer.required_by info0 ∨ imports_of deps p n
  | None, None => True
  | _, _ => False
  end.
Proof.
  revert n.
  apply (map_fold_weak_ind
           (fun (r : gmap string Analyzer.DependencyInfo) (m : gmap string (gset string)) =>
              ∀ n, match r !! n, classified !! n with
                   | Some info, Some info0 =>
                       same_module info info0
                       ∧ ∀ p, p ∈ Analyzer.required_by info
                              ↔ p ∈ Analyzer.required_by info0 ∨ imports_of m p n
                   | None, None => True
                   | _, _ => False
                   end)).
  - intros n. destruct (classified !! n) as [info0|]; [| done].
    split; [by repeat split |]. intros p. split; [by left |].
    intros [H|(imported & H & _)]; [exact H | by rewrite lookup_empty in H].
  - intros i x m r Hi IH n. rewrite relate_loop_lookup. specialize (IH n).
    destruct (r !! n) as [info|], (classified !! n) as [info0|]; cbn; try done.
    destruct IH as [Hsame Hreq].
    destruct (bool_decide (n ∈ x)) eqn:Hn.
    + apply bool_decide_eq_true in Hn. split; [exact Hsame |].
      intros p. cbn. rewrite elem_of_union, elem_of_singleton, Hreq. split.
      * intros [->|[H|(imported & H & Hin)]].
        -- right. exists x. split; [apply lookup_insert_eq | exact Hn].
        -- by left.
        -- right. exists imported. split; [| exact Hin].
           rewrite lookup_insert_ne; [exact H | intros ->; congruence].
      * intros [H|(imported & H & Hin)]; [right; by left |].
        destruct (decide (i = p)) as [->|Hne]; [by left |].
        rewrite lookup_insert_ne in H by done. right. right. by exists imported.
    + apply bool_decide_eq_false in Hn. split; [exact Hsame |].
      intros p. rewrite Hreq. split.
      * intros [H|(imported & H & Hin)]; [by left |].
        right. exists imported. split; [| exact Hin].
        rewrite lookup_insert_ne; [exact H | intros ->; congruence].
      * intros [H|(imported & H & Hin)]; [by left |].
        destruct (decide (i = p)) as [->|Hne].
        -- rewrite lookup_insert_eq in H. injection H as ->. done.
        -- rewrite lookup_insert_ne in H by done. right. by exists imported.
Qed.

(** At most one of the three classes holds of a fresh record, and its name
    is the module's. *)
Lemma module_info_classes (e : Analyzer.env) (module : string) :
  let info := Analyzer._get_module_info e module in
  Analyzer.name info = module
  ∧ (Analyzer.is_builtin info = true
     ↔ module ∈ Analyzer._builtin_modules e ∨ module ∈ Analyzer._stdlib_modules e)
  ∧ (Analyzer.is_builtin info && Analyzer.is_local info = false)
  ∧ (Analyzer.is_builtin info && Analyzer.is_third_party info = false)
  ∧ (Analyzer.is_local info && Analyzer.is_third_party info = false).
Proof.
  cbn zeta. unfold Analyzer._get_module_info.
  destruct (bool_decide (module ∈ Analyzer._builtin_modules e)) eqn:Eb;
    [apply bool_decide_eq_true in Eb; cbn; by intuition |].
  destruct (bool_decide (module ∈ Analyzer._stdlib_modules e)) eqn:Es;
    [apply bool_decide_eq_true in Es; cbn; by intuition |].
  apply bool_decide_eq_false in Eb, Es. cbn [orb].
  assert (Hno : ∀ b, b = false →
                  (b = true ↔ module ∈ Analyzer._builtin_modules e
                              ∨ module ∈ Analyzer._stdlib_modules e)).
  { intros b ->. split; [discriminate | tauto]. }
  destruct (Analyzer.find_spec e module) as [[[[path|]]|]|]; cbn;
    try (split; [reflexivity |]; split; [by apply Hno |]; by repeat split).
  destruct (String.eqb path ""); cbn;
    [split; [reflexivity |]; split; [by apply Hno |]; by repeat split |].
  destruct (negb (Py.contains "site-packages" path)); cbn;
    split; try reflexivity; split; try (by apply Hno); by repeat split.
Qed.

(** The graph of [analyze_dependencies], entry by entry. *)
Lemma analysis_lookup (e : Analyzer.env) (files : Host.fs) (script_path : string)
    (include_stdlib deep_analysis : bool) (r : Analyzer.AnalysisResult) (n : string) :
  Analyzer.analyze_dependencies e files script_path include_stdlib deep_analysis = Py.Ret r →
  let merged :=
    Analyzer._merge_dependencies (Analyzer._static_analysis e script_path deep_analysis)
      (Analyzer._dynamic_analysis e script_path) in
  match Analyzer.dependencies r !! n with
  | Some info =>
      (∃ parent, imports_of merged parent n)
      ∧ kept e include_stdlib n = true
      ∧ Analyzer.name info = n
      ∧ Analyzer.is_builtin info = Analyzer.is_builtin (Analyzer._get_module_info e n)
      ∧ Analyzer.is_local info = Analyzer.is_local (Analyzer._get_module_info e n)
      ∧ Analyzer.is_third_party info
        = Analyzer.is_third_party (Analyzer._get_module_info e n)
      ∧ ∀ p, p ∈ Analyzer.required_by info ↔ imports_of merged p n
  | None => ¬ ((∃ parent, imports_of merged parent n) ∧ kept e include_stdlib n = true)
  end.
Proof.
  unfold Analyzer.analyze_dependencies.
  destruct (negb (Host.exists_ files script_path)); [discriminate |].
  intros E. injection E as <-. cbn [Analyzer.dependencies].
  set (merged := Analyzer._merge_dependencies _ _).
  unfold Analyzer._estimate_sizes. rewrite lookup_fmap.
  unfold Analyzer._classify_dependencies.
  pose proof (relate_all_lookup merged
                (Analyzer.classify_each e include_stdlib (Analyzer.collect_modules merged))
                n) as H.
  rewrite classify_each_lookup in H.
  destruct (map_fold _ _ merged !! n) as [info|]; cbn [fmap option_fmap option_map].
  - destruct (bool_decide (n ∈ Analyzer.collect_modules merged)) eqn:Hn; [| done].
    destruct (kept e include_stdlib n) eqn:Hk; [| done]. cbn [andb] in H.
    destruct H as [(Hname & _ & _ & Hb & Hl & Ht & _) Hreq].
    apply bool_decide_eq_true, collect_modules_elem in Hn.
    split; [exact Hn |]. split; [reflexivity |].
    destruct (module_info_classes e n) as (Hn0 & _). cbn zeta in Hn0.
    split; [cbn; congruence |]. split; [exact Hb |]. split; [exact Hl |].
    split; [exact Ht |]. intros p. cbn. rewrite Hreq, module_info_fresh.
    split; [intros [H|H]; [by apply elem_of_empty in H | exact H] | by right].
  - destruct (bool_decide (n ∈ Analyzer.collect_modules merged)) eqn:Hn.
    + destruct (kept e include_stdlib n) eqn:Hk; [done |]. intros [_ Hk']. congruence.
    + apply bool_decide_eq_false in Hn. intros [Hi _]. apply Hn.
      by apply collect_modules_elem.
Qed.

(** The merged map records the imports of both passes. *)
Lemma merge_imports (static dynamic : gmap string (gset string)) (p m : string) :
  imports_of (Analyzer._merge_dependencies static dynamic) p m
  ↔ imports_of static p m ∨ imports_of dynamic p m.
Proof.
  unfold imports_of, Analyzer._merge_dependencies. rewrite lookup_union_with.
  destruct (static !! p) as [a|], (dynamic !! p) as [b|];
    cbn [union_with option_union_with]; split.
  - intros (imported & E & Hin). injection E as <-.
    apply elem_of_union in Hin as [Hin|Hin]; [left | right]; eexists;
      (split; [reflexivity | exact Hin]).
  - intros [(imported & E & Hin)|(imported & E & Hin)]; injection E as <-;
      eexists; (split; [reflexivity |]); apply elem_of_union; [by left | by right].
  - intros H. by left.
  - intros [H|(imported & E & _)]; [exact H | discriminate].
  - intros H. by right.
  - intros [(imported & E & _)|H]; [discriminate | exact H].
  - intros (imported & E & _). discriminate.
  - intros [(imported & E & _)|(imported & E & _)]; discriminate.
Qed.

(** The dependency graph, exactly.  A module is a key of the graph when
    some recorded module imports it and, if the standard library is left
    out, it is none of its modules.  The [required_by] set of a key holds
    the recorded importers of that module, all of them and nothing else.
    The recorded imports are those of the static pass together with those
    of the dynamic pass. *)
Theorem dependency_graph_exact
    (e : Analyzer.env) (files : Host.fs) (script_path : string)
    (include_stdlib deep_analysis : bool) (r : Analyzer.AnalysisResult) :
  Analyzer.analyze_dependencies e files script_path include_stdlib deep_analysis = Py.Ret r →
  let static := Analyzer._static_analysis e script_path deep_analysis in
  let dynamic := Analyzer._dynamic_analysis e script_path in
  let recorded p n := imports_of static p n ∨ imports_of dynamic p n in
  ∀ n,
    (is_Some (Analyzer.dependencies r !! n)
     ↔ (∃ parent, recorded parent n)
       ∧ (include_stdlib = true
          ∨ ¬ (n ∈ Analyzer._builtin_modules e ∨ n ∈ Analyzer._stdlib_modules e)))
    ∧ ∀ info, Analyzer.dependencies r !! n = Some info →
        Analyzer.name info = n
        ∧ ∀ p, p ∈ Analyzer.required_by info ↔ recorded p n.
Proof.
  intros Hrun static dynamic recorded n.
  assert (Hmerge : ∀ p m,
            imports_of (Analyzer._merge_dependencies static dynamic) p m ↔ recorded p m).
  { intros p m. apply merge_imports. }
  assert (Hkept : kept e include_stdlib n = true
                  ↔ include_stdlib = true
                    ∨ ¬ (n ∈ Analyzer._builtin_modules e ∨ n ∈ Analyzer._stdlib_modules e)).
  { unfold kept. destruct (module_info_classes e n) as (_ & Hb & _). cbn zeta in Hb.
    rewrite <- Hb. destruct include_stdlib; cbn; [by intuition |].
    destruct (Analyzer.is_builtin _); cbn; split; try done.
    - intros [H|H]; [discriminate | by destruct H].
    - intros _. right. discriminate. }
  pose proof (analysis_lookup e files script_path include_stdlib deep_analysis r n Hrun) as H.
  cbn zeta in H. fold static dynamic in H.
  destruct (Analyzer.dependencies r !! n) as [info|].
  - destruct H as ((parent & Hp) & Hk & Hname & _ & _ & _ & Hreq). split.
    + split; [intros _ | by eexists].
      split; [exists parent; by apply Hmerge | by apply Hkept].
    + intros info' E. injection E as <-. split; [exact Hname |].
      intros p. by rewrite Hreq, Hmerge.
  - split; [| discriminate]. split; [by intros [? ?] |].
    intros [(parent & Hp) Hk]. exfalso. apply H.
    split; [exists parent; by apply Hmerge | by apply Hkept].
Qed.

(** The theorem at the hello program: [os] is a key and its one importer is
    [hello]. *)
Lemma dependency_graph_exact_witness :
  ∃ r info,
    Analyzer.analyze_dependencies Scenario.hello_host Scenario.hello_files "hello.py"
      true true = Py.Ret r
    ∧ Analyzer.dependencies r !! "os" = Some info
    ∧ "hello" ∈ Analyzer.required_by info.
Proof.
  destruct (Analyzer.analyze_dependencies Scenario.hello_host Scenario.hello_files "hello.py"
              true true) as [r|ex] eqn:Erun; [| discriminate].
  destruct (dependency_graph_exact Scenario.hello_host Scenario.hello_files "hello.py"
              true true r Erun "os") as [Hkey Hreq].
  assert (Hos : imports_of (Analyzer._static_analysis Scenario.hello_host "hello.py" true)
                  "hello" "os").
  { exists Scenario.hello_imports. split; [apply lookup_singleton_eq |].
    unfold Scenario.hello_imports. set_solver. }
  destruct (proj2 Hkey) as [info Hinfo].
  { split; [exists "hello"; by left | by left]. }
  exists r, info. split; [reflexivity |]. split; [exact Hinfo |].
  apply (Hreq info Hinfo). by left.
Defined.

Lemma names_where_elem (p : Analyzer.DependencyInfo → bool)
    (classified : gmap string Analyzer.DependencyInfo) (n : string) :
  n ∈ Analyzer.names_where p classified
  ↔ ∃ info, classified !! n = Some info ∧ p info = true.
Proof.
  unfold Analyzer.names_where. rewrite elem_of_dom. unfold is_Some.
  split; intros [info H]; exists info.
  - by apply map_lookup_filter_Some in H.
  - apply map_lookup_filter_Some. exact H.
Qed.

(** The three classes of the result.  No module is in two of them, and
    each of their members is a key of the graph.  The standard-library
    class holds the imported modules that the interpreter lists as built in
    or that the analyzer found in the library directory, and it is empty
    unless the caller asks for the standard library. *)
Theorem classes_are_disjoint
    (e : Analyzer.env) (files : Host.fs) (script_path : string)
    (include_stdlib deep_analysis : bool) (r : Analyzer.AnalysisResult) :
  Analyzer.analyze_dependencies e files script_path include_stdlib deep_analysis = Py.Ret r →
  let merged :=
    Analyzer._merge_dependencies (Analyzer._static_analysis e script_path deep_analysis)
      (Analyzer._dynamic_analysis e script_path) in
  Analyzer.builtin_modules r ## Analyzer.third_party_modules r
  ∧ Analyzer.builtin_modules r ## Analyzer.local_modules r
  ∧ Analyzer.local_modules r ## Analyzer.third_party_modules r
  ∧ Analyzer.builtin_modules r ∪ Analyzer.third_party_modules r ∪ Analyzer.local_modules r
    ⊆ dom (Analyzer.dependencies r)
  ∧ (∀ n, n ∈ Analyzer.builtin_modules r
          ↔ include_stdlib = true
            ∧ (∃ parent, imports_of merged parent n)
            ∧ (n ∈ Analyzer._builtin_modules e ∨ n ∈ Analyzer._stdlib_modules e))
  ∧ (include_stdlib = false → Analyzer.builtin_modules r = ∅).
Proof.
  intros Hrun merged.
  pose proof (fun n => analysis_lookup e files script_path include_stdlib deep_analysis r n
                         Hrun) as Hlook.
  cbn zeta in Hlook. fold merged in Hlook.
  assert (Hb : ∀ n, n ∈ Analyzer.builtin_modules r
                    ↔ ∃ info, Analyzer.dependencies r !! n = Some info
                              ∧ Analyzer.is_builtin info = true).
  { intros n. revert Hrun. unfold Analyzer.analyze_dependencies.
    destruct (negb _); [discriminate |]. intros E. injection E as <-.
    apply names_where_elem. }
  assert (Ht : ∀ n, n ∈ Analyzer.third_party_modules r
                    ↔ ∃ info, Analyzer.dependencies r !! n = Some info
                              ∧ Analyzer.is_third_party info = true).
  { intros n. revert Hrun. unfold Analyzer.analyze_dependencies.
    destruct (negb _); [discriminate |]. intros E. injection E as <-.
    apply names_where_elem. }
  assert (Hl : ∀ n, n ∈ Analyzer.local_modules r
                    ↔ ∃ info, Analyzer.dependencies r !! n = Some info
                              ∧ Analyzer.is_local info = true).
  { intros n. revert Hrun. unfold Analyzer.analyze_dependencies.
    destruct (negb _); [discriminate |]. intros E. injection E as <-.
    apply names_where_elem. }
  assert (Hflags : ∀ n info, Analyzer.dependencies r !! n = Some info →
            Analyzer.is_builtin info && Analyzer.is_local info = false
            ∧ Analyzer.is_builtin info && Analyzer.is_third_party info = false
            ∧ Analyzer.is_local info && Analyzer.is_third_party info = false).
  { intros n info E. specialize (Hlook n). rewrite E in Hlook.
    destruct Hlook as (_ & _ & _ & -> & -> & -> & _).
    by destruct (module_info_classes e n) as (_ & _ & ? & ? & ?). }
  split; [| split; [| split; [| split; [| split]]]].
  - intros n [info [E Hi]]%Hb [info' [E' Hi']]%Ht.
    rewrite E in E'. injection E' as <-.
    destruct (Hflags n info E) as (_ & H & _). rewrite Hi, Hi' in H. discriminate.
  - intros n [info [E Hi]]%Hb [info' [E' Hi']]%Hl.
    rewrite E in E'. injection E' as <-.
    destruct (Hflags n info E) as (H & _). rewrite Hi, Hi' in H. discriminate.
  - intros n [info [E Hi]]%Hl [info' [E' Hi']]%Ht.
    rewrite E in E'. injection E' as <-.
    destruct (Hflags n info E) as (_ & _ & H). rewrite Hi, Hi' in H. discriminate.
  - intros n Hn. apply elem_of_dom.
    apply elem_of_union in Hn as [Hn|[info [E _]]%Hl]; [| by exists info].
    apply elem_of_union in Hn as [[info [E _]]%Hb|[info [E _]]%Ht]; by exists info.
  - intros n. rewrite Hb. specialize (Hlook n).
    destruct (module_info_classes e n) as (_ & Hclass & _). cbn zeta in Hclass.
    destruct (Analyzer.dependencies r !! n) as [info|].
    + destruct Hlook as (Hi & Hk & _ & Hbi & _). split.
      * intros (info' & E & Hbt). injection E as <-. rewrite Hbi in Hbt.
        split; [| split; [exact Hi | by apply Hclass]].
        unfold kept in Hk. rewrite Hbt in Hk. by destruct include_stdlib.
      * intros (_ & _ & Hc). exists info. split; [reflexivity |].
        rewrite Hbi. by apply Hclass.
    + split; [by intros (info & E & _) |].
      intros (-> & Hi & _). exfalso. apply Hlook. by split.
  - intros ->. apply set_eq. intros n. rewrite Hb. split; [| by intros ?%elem_of_empty].
    intros (info & E & Hbt). specialize (Hlook n). rewrite E in Hlook.
    destruct Hlook as (_ & Hk & _ & Hbi & _). unfold kept in Hk.
    rewrite <- Hbi, Hbt in Hk. discriminate.
Qed.

(** The theorem at the hello program with the standard library included:
    [os] is in the standard-library class. *)
Lemma classes_are_disjoint_witness :
  ∃ r, Analyzer.analyze_dependencies Scenario.hello_host Scenario.hello_files "hello.py"
         true true = Py.Ret r
       ∧ "os" ∈ Analyzer.builtin_modules r
       ∧ "os" ∉ Analyzer.third_party_modules r.
Proof.
  destruct (Analyzer.analyze_dependencies Scenario.hello_host Scenario.hello_files "hello.py"
              true true) as [r|ex] eqn:Erun; [| discriminate].
  destruct (classes_are_disjoint Scenario.hello_host Scenario.hello_files "hello.py"
              true true r Erun) as (Hbt & _ & _ & _ & Hb & _).
  assert (Hos : "os" ∈ Analyzer.builtin_modules r).
  { apply Hb. split; [reflexivity |]. split.
    - exists "hello". apply merge_imports. left.
      exists Scenario.hello_imports. split; [apply lookup_singleton_eq |].
      unfold Scenario.hello_imports.
      apply elem_of_union; left. apply elem_of_union; left.
      apply elem_of_union; left. by apply elem_of_singleton.
    - right. cbn. unfold Scenario.hello_imports.
      apply elem_of_union; left. apply elem_of_union; left.
      apply elem_of_union; left. by apply elem_of_singleton. }
  exists r. split; [reflexivity |]. split; [exact Hos |].
  intros Ht. exact (Hbt "os" Hos Ht).
Defined.

(** ** Circular dependencies *)

(** The loop of [dfs] over the neighbours of a node, for any function in
    the place of the recursive call. *)
Fixpoint dfs_each (f : string → list string → Analyzer.search → Py.outcome Analyzer.search)
    (path todo : list string) (st : Analyzer.search) : Py.outcome Analyzer.search :=
  match todo with
  | [] => Py.Ret st
  | neighbor :: rest =>
      match f neighbor (path ++ [neighbor]) st with
      | Py.Ret st' => dfs_each f path rest st'
      | Py.Raise ex => Py.Raise ex
      end
  end.

Lemma dfs_unfold (depth : nat) (graph : list (string * list string)) (node : string)
    (path : list string) (st : Analyzer.search) :
  Analyzer.dfs (S depth) graph node path st
  = if bool_decide (node ∈ Analyzer.rec_stack st) then
      match Analyzer.index node path with
      | Py.Ret cycle_start =>
          Py.Ret (Analyzer.mkSearch (Analyzer.visited st) (Analyzer.rec_stack st)
                    (Analyzer.cycles st ++ [drop cycle_start path ++ [node]]))
      | Py.Raise ex => Py.Raise ex
      end
    else if bool_decide (node ∈ Analyzer.visited st) then Py.Ret st
    else
      match dfs_each (Analyzer.dfs depth graph) path (Analyzer.neighbors graph node)
              (Analyzer.mkSearch ({[node]} ∪ Analyzer.visited st)
                 ({[node]} ∪ Analyzer.rec_stack st) (Analyzer.cycles st)) with
      | Py.Ret st' =>
          Py.Ret (Analyzer.mkSearch (Analyzer.visited st')
                    (Analyzer.rec_stack st' ∖ {[node]}) (Analyzer.cycles st'))
      | Py.Raise ex => Py.Raise ex
      end.
Proof.
  cbn [Analyzer.dfs].
  destruct (bool_decide (node ∈ Analyzer.rec_stack st)).
  { by destruct (Analyzer.index node path). }
  destruct (bool_decide (node ∈ Analyzer.visited st)); [reflexivity |].
  generalize (Analyzer.mkSearch ({[node]} ∪ Analyzer.visited st)
                ({[node]} ∪ Analyzer.rec_stack st) (Analyzer.cycles st)).
  induction (Analyzer.neighbors graph node) as [|neighbor rest IH]; intros entered;
    [reflexivity |].
  cbn [dfs_each mbind Py.outcome_bind Py.bind].
  destruct (Analyzer.dfs depth graph neighbor (path ++ [neighbor]) entered) as [st'|ex];
    [apply IH | reflexivity].
Qed.

(** A list of nodes in which each node is followed by one of its
    neighbours. *)
Fixpoint walk (graph : list (string * list string)) (l : list string) : Prop :=
  match l with
  | x :: (y :: _) as rest => In y (Analyzer.neighbors graph x) ∧ walk graph rest
  | _ => True
  end.

Lemma walk_snoc (graph : list (string * list string)) (p : list string) (x y : string) :
  walk graph (p ++ [x]) → In y (Analyzer.neighbors graph x) → walk graph ((p ++ [x]) ++ [y]).
Proof.
  induction p as [|a [|b p] IH]; cbn; intros Hw Hy.
  - by split.
  - destruct Hw as [Hax _]. by repeat split.
  - destruct Hw as [Hab Hw]. split; [exact Hab |]. by apply IH.
Qed.

Lemma walk_drop (graph : list (string * list string)) (l : list string) (i : nat) :
  walk graph l → walk graph (drop i l).
Proof.
  revert l. induction i as [|i IH]; intros l Hw; [by rewrite drop_0 |].
  destruct l as [|x [|y l]]; cbn; [done | by rewrite drop_nil |].
  apply IH. by destruct Hw.
Qed.

(** [path.index(node)] finds the first place of a node that the path holds
    before its last element, and what follows that place. *)
Lemma index_on_stack (node : string) (p0 : list string) :
  In node p0 →
  ∃ i rest, Analyzer.index node (p0 ++ [node]) = Py.Ret i
            ∧ drop i (p0 ++ [node]) = node :: rest ++ [node].
Proof.
  induction p0 as [|x p0 IH]; [intros [] |]. intros Hin.
  cbn [app Analyzer.index]. destruct (String.eqb_spec x node) as [->|Hne].
  - exists O, p0. by split.
  - destruct Hin as [->|Hin]; [done |]. destruct (IH Hin) as (i & rest & Ei & Ed).
    exists (S i), rest. rewrite Ei. by split.
Qed.

(** What [find_cycles] reports as a cycle: a walk from a node back to it,
    followed by that node once more. *)
Definition reported (graph : list (string * list string)) (cycle : list string) : Prop :=
  ∃ node mid, cycle = node :: mid ++ [node; node] ∧ walk graph (node :: mid ++ [node]).

Section Search.
Variable graph : list (string * list string).

(** Every node of the graph: the keys and the neighbours. *)
Definition nodes : gset string :=
  list_to_set (List.map fst graph ++ List.concat (List.map snd graph)).

Lemma neighbors_nodes (x y : string) : In y (Analyzer.neighbors graph x) → y ∈ nodes.
Proof.
  unfold Analyzer.neighbors, nodes. intros Hy.
  destruct (Py.dict_get x graph) as [l|] eqn:El; [| destruct Hy].
  apply dict_get_In in El. apply elem_of_list_to_set, list_elem_of_In, List.in_or_app. right.
  apply List.in_concat. exists l. split; [| exact Hy].
  apply List.in_map_iff. by exists (x, l).
Qed.

(** The state and the arguments of a call of [dfs]: the path is a walk
    that ends in the node, and holds before it every node on the stack. *)
Definition on_path (path : list string) (st : Analyzer.search) (node : string) : Prop :=
  ∃ p0, path = p0 ++ [node]
        ∧ walk graph path
        ∧ (∀ x, x ∈ Analyzer.rec_stack st → In x p0).

Lemma dfs_spec (depth : nat) :
  ∀ node path st,
    on_path path st node → node ∈ nodes → Analyzer.rec_stack st ⊆ nodes →
    Forall (reported graph) (Analyzer.cycles st) →
    ((size (nodes ∖ Analyzer.rec_stack st) < depth)%nat →
     ∃ st', Analyzer.dfs depth graph node path st = Py.Ret st')
    ∧ (∀ st', Analyzer.dfs depth graph node path st = Py.Ret st' →
         Analyzer.rec_stack st' = Analyzer.rec_stack st
         ∧ Forall (reported graph) (Analyzer.cycles st')).
Proof.
  induction depth as [|depth IH]; intros node path st Hpath Hnode Hstack Hgood.
  { split; [lia | discriminate]. }
  rewrite dfs_unfold. destruct Hpath as (p0 & -> & Hwalk & Hp0).
  destruct (bool_decide (node ∈ Analyzer.rec_stack st)) eqn:Hrs.
  { apply bool_decide_eq_true in Hrs.
    destruct (index_on_stack node p0 (Hp0 node Hrs)) as (i & rest & -> & Ed).
    split; [intros _; by eexists |]. intros st' E. injection E as <-. cbn.
    split; [reflexivity |]. apply Forall_app. split; [exact Hgood |].
    constructor; [| constructor]. exists node, rest. rewrite Ed. split.
    - cbn. by rewrite <- app_assoc.
    - rewrite <- Ed. by apply walk_drop. }
  apply bool_decide_eq_false in Hrs.
  destruct (bool_decide (node ∈ Analyzer.visited st)).
  { split; [intros _; by eexists |]. intros st' E. by injection E as <-. }
  set (stack := {[node]} ∪ Analyzer.rec_stack st).
  assert (Hloop : ∀ todo entered,
             (∀ y, In y todo → In y (Analyzer.neighbors graph node)) →
             Analyzer.rec_stack entered = stack →
             Forall (reported graph) (Analyzer.cycles entered) →
             ((size (nodes ∖ stack) < depth)%nat →
              ∃ st', dfs_each (Analyzer.dfs depth graph) (p0 ++ [node]) todo entered
                     = Py.Ret st')
             ∧ (∀ st', dfs_each (Analyzer.dfs depth graph) (p0 ++ [node]) todo entered
                       = Py.Ret st' →
                  Analyzer.rec_stack st' = stack
                  ∧ Forall (reported graph) (Analyzer.cycles st'))).
  { induction todo as [|y todo IHt]; intros entered Hin Hst Hg.
    { split; [intros _; by eexists |]. intros st' E. by injection E as <-. }
    cbn [dfs_each].
    destruct (IH y ((p0 ++ [node]) ++ [y]) entered) as [Hret Hpost].
    - exists (p0 ++ [node]). split; [reflexivity |]. split.
      + apply walk_snoc; [exact Hwalk | apply Hin; by left].
      + intros x Hx. rewrite Hst in Hx. apply List.in_or_app.
        apply elem_of_union in Hx as [->%elem_of_singleton|Hx]; [right; by left |].
        left. by apply Hp0.
    - apply (neighbors_nodes node). apply Hin. by left.
    - rewrite Hst. unfold stack. intros x [->%elem_of_singleton|Hx]%elem_of_union;
        [exact Hnode | by apply Hstack].
    - exact Hg.
    - rewrite Hst in Hret. split.
      + intros Hsize. destruct (Hret Hsize) as [st1 E1]. rewrite E1.
        destruct (Hpost st1 E1) as [Hst1 Hg1].
        destruct (IHt st1) as [Hret' _]; [intros z Hz; apply Hin; by right | congruence
                                         | exact Hg1 |].
        by apply Hret'.
      + intros st' E.
        destruct (Analyzer.dfs depth graph y ((p0 ++ [node]) ++ [y]) entered)
          as [st1|ex]; [| discriminate].
        destruct (Hpost st1 eq_refl) as [Hst1 Hg1].
        destruct (IHt st1) as [_ Hpost']; [intros z Hz; apply Hin; by right | congruence
                                          | exact Hg1 |].
        by apply Hpost'. }
  destruct (Hloop (Analyzer.neighbors graph node)
              (Analyzer.mkSearch ({[node]} ∪ Analyzer.visited st) stack (Analyzer.cycles st)))
    as [Hret Hpost]; [done | reflexivity | exact Hgood |].
  split.
  - intros Hsize. destruct Hret as [st1 E1]; [| rewrite E1; by eexists].
    assert (Hlt : (size (nodes ∖ stack) < size (nodes ∖ Analyzer.rec_stack st))%nat).
    { apply subset_size. split.
      - intros x [Hx Hn]%elem_of_difference. apply elem_of_difference. split; [exact Hx |].
        intros Hrs'. apply Hn. apply elem_of_union. by right.
      - intros Hsub. assert (Hin : node ∈ nodes ∖ stack).
        { apply Hsub. apply elem_of_difference. by split. }
        apply elem_of_difference in Hin as [_ Hn]. apply Hn.
        apply elem_of_union. left. by apply elem_of_singleton. }
    lia.
  - intros st' E.
    destruct (dfs_each _ _ _ _) as [st1|ex]; [| discriminate].
    injection E as <-. destruct (Hpost st1 eq_refl) as [Hst1 Hg1]. cbn.
    split; [| exact Hg1]. rewrite Hst1. unfold stack. apply set_eq. intros x.
    rewrite elem_of_difference, elem_of_union, !elem_of_singleton. split.
    + intros [[->|Hx] Hne]; [done | exact Hx].
    + intros Hx. split; [by right | intros ->; contradiction].
Qed.

Lemma find_from_spec (depth : nat) (todo : list string) :
  ∀ st,
    (∀ x, In x todo → x ∈ nodes) → Analyzer.rec_stack st = ∅ →
    Forall (reported graph) (Analyzer.cycles st) →
    ((size nodes < depth)%nat → ∃ st', Analyzer.find_from depth graph todo st = Py.Ret st')
    ∧ (∀ st', Analyzer.find_from depth graph todo st = Py.Ret st' →
         Forall (reported graph) (Analyzer.cycles st')).
Proof.
  induction todo as [|node todo IH]; intros st Hin Hst Hg; cbn [Analyzer.find_from].
  { split; [intros _; by eexists |]. intros st' E. by injection E as <-. }
  destruct (bool_decide (node ∈ Analyzer.visited st)).
  { apply IH; [intros x Hx; apply Hin; by right | exact Hst | exact Hg]. }
  destruct (dfs_spec depth node [node] st) as [Hret Hpost].
  - exists []. split; [reflexivity |]. split; [exact I |].
    intros x Hx. rewrite Hst in Hx. by apply elem_of_empty in Hx.
  - apply Hin. by left.
  - rewrite Hst. apply empty_subseteq.
  - exact Hg.
  - split.
    + intros Hsize. destruct Hret as [st1 E1].
      { rewrite Hst, difference_empty_L. exact Hsize. }
      rewrite E1. cbn. destruct (Hpost st1 E1) as [Hst1 Hg1].
      apply IH; [intros x Hx; apply Hin; by right | congruence | exact Hg1 | exact Hsize].
    + intros st' E.
      destruct (Analyzer.dfs depth graph node [node] st) as [st1|ex]; [| discriminate].
      cbn in E. destruct (Hpost st1 eq_refl) as [Hst1 Hg1].
      apply (IH st1); [intros x Hx; apply Hin; by right | congruence | exact Hg1 | exact E].
Qed.

(** [y] is a neighbour of [x]. *)
Definition edge (x y : string) : Prop := In y (Analyzer.neighbors graph x).

(** The nodes whose call of [dfs] is over. *)
Definition finished (st : Analyzer.search) : gset string :=
  Analyzer.visited st ∖ Analyzer.rec_stack st.

(** As long as nothing is reported, the finished nodes lead to finished
    nodes only and none of them comes back to itself. *)
Definition settled (st : Analyzer.search) : Prop :=
  Analyzer.cycles st = [] →
  (∀ u v, u ∈ finished st → edge u v → v ∈ finished st)
  ∧ (∀ u, u ∈ finished st → ¬ tc edge u u).

Lemma walk_tc (l : list string) (x y : string) : walk graph (x :: l ++ [y]) → tc edge x y.
Proof.
  revert x. induction l as [|z l IH]; intros x; cbn.
  - intros [H _]. by apply tc_once.
  - intros [H Hw]. apply tc_l with z; [exact H | by apply IH].
Qed.

Lemma closed_under_edges (X : gset string) (x y : string) :
  (∀ u v, u ∈ X → edge u v → v ∈ X) → x ∈ X → rtc edge x y → y ∈ X.
Proof.
  intros Hclosed Hx Hr. induction Hr as [x|x z y Hxz _ IH]; [exact Hx |].
  apply IH. by apply (Hclosed x).
Qed.

Lemma dfs_complete (depth : nat) :
  ∀ node path st st',
    Analyzer.dfs depth graph node path st = Py.Ret st' →
    settled st → Analyzer.rec_stack st ⊆ Analyzer.visited st →
    settled st'
    ∧ Analyzer.visited st ⊆ Analyzer.visited st'
    ∧ Analyzer.rec_stack st' = Analyzer.rec_stack st
    ∧ node ∈ Analyzer.visited st'
    ∧ (Analyzer.cycles st' = [] →
       Analyzer.cycles st = [] ∧ node ∉ Analyzer.rec_stack st).
Proof.
  induction depth as [|depth IH]; intros node path st st'; [discriminate |].
  rewrite dfs_unfold. intros E Hset Hsub.
  destruct (bool_decide (node ∈ Analyzer.rec_stack st)) eqn:Hrs.
  { apply bool_decide_eq_true in Hrs.
    destruct (Analyzer.index node path) as [i|ex]; [| discriminate].
    injection E as <-. cbn.
    assert (Hne : Analyzer.cycles st ++ [drop i path ++ [node]] ≠ []).
    { by destruct (Analyzer.cycles st). }
    split; [intros Hc; by destruct (Hne Hc) |]. split; [done |]. split; [done |].
    split; [by apply Hsub |]. intros Hc. by destruct (Hne Hc). }
  apply bool_decide_eq_false in Hrs.
  destruct (bool_decide (node ∈ Analyzer.visited st)) eqn:Hv.
  { apply bool_decide_eq_true in Hv. injection E as <-.
    split; [exact Hset |]. split; [done |]. split; [done |]. split; [exact Hv |].
    intros Hc. by split. }
  apply bool_decide_eq_false in Hv.
  set (stack := {[node]} ∪ Analyzer.rec_stack st) in *.
  assert (Hloop : ∀ todo s_i s_f,
             dfs_each (Analyzer.dfs depth graph) path todo s_i = Py.Ret s_f →
             settled s_i → Analyzer.rec_stack s_i = stack →
             stack ⊆ Analyzer.visited s_i →
             settled s_f
             ∧ Analyzer.rec_stack s_f = stack
             ∧ Analyzer.visited s_i ⊆ Analyzer.visited s_f
             ∧ (Analyzer.cycles s_f = [] →
                Analyzer.cycles s_i = []
                ∧ ∀ v, In v todo → v ∈ Analyzer.visited s_f ∧ v ∉ stack)).
  { induction todo as [|y todo IHt]; intros s_i s_f; cbn [dfs_each].
    { intros Es Hs Hst Hvs. injection Es as <-.
      split; [exact Hs |]. split; [exact Hst |]. split; [done |].
      intros Hc. split; [exact Hc |]. by intros v []. }
    destruct (Analyzer.dfs depth graph y (path ++ [y]) s_i) as [s1|ex] eqn:E1;
      [| discriminate].
    intros Es Hs Hst Hvs.
    destruct (IH _ _ _ _ E1 Hs) as (Hs1 & Hv1 & Hr1 & Hy1 & Hc1); [by rewrite Hst |].
    destruct (IHt s1 s_f Es Hs1) as (Hsf & Hrf & Hvf & Hcf);
      [congruence | by etrans |].
    split; [exact Hsf |]. split; [exact Hrf |]. split; [by etrans |].
    intros Hc. destruct (Hcf Hc) as [Hc1' Hall]. destruct (Hc1 Hc1') as [Hci Hyn].
    split; [exact Hci |]. intros v [<-|Hin]; [| by apply Hall].
    split; [by apply Hvf | by rewrite <- Hst]. }
  destruct (dfs_each _ _ _ _) as [s_f|ex] eqn:Eloop; [| discriminate].
  injection E as <-. cbn.
  destruct (Hloop _ _ _ Eloop) as (Hsf & Hrf & Hvf & Hcf).
  { intros Hc. cbn in Hc. destruct (Hset Hc) as [Ha Hb].
    assert (Ef : finished (Analyzer.mkSearch ({[node]} ∪ Analyzer.visited st) stack
                             (Analyzer.cycles st)) = finished st).
    { unfold finished, stack. cbn. apply set_eq. intros x.
      rewrite !elem_of_difference, !elem_of_union, !elem_of_singleton. split.
      - intros [[->|Hx] Hn]; [destruct Hn; by left |]. split; [exact Hx |].
        intros Hr. apply Hn. by right.
      - intros [Hx Hn]. split; [by right |]. intros [->|Hr]; [done | done]. }
    rewrite Ef. by split. }
  { reflexivity. }
  { cbn. unfold stack. intros x [->%elem_of_singleton|Hx]%elem_of_union;
      apply elem_of_union; [left; by apply elem_of_singleton | right; by apply Hsub]. }
  cbn in Hvf, Hcf.
  assert (Hnode : node ∈ Analyzer.visited s_f).
  { apply Hvf. apply elem_of_union. left. by apply elem_of_singleton. }
  assert (Hstack : Analyzer.rec_stack s_f ∖ {[node]} = Analyzer.rec_stack st).
  { rewrite Hrf. unfold stack. apply set_eq. intros x.
    rewrite elem_of_difference, elem_of_union, !elem_of_singleton. split.
    - intros [[->|Hx] Hne]; [done | exact Hx].
    - intros Hx. split; [by right | intros ->; contradiction]. }
  split; [| split; [| split; [exact Hstack | split; [exact Hnode |]]]].
  - intros Hc. cbn in Hc. destruct (Hcf Hc) as [_ Hall]. destruct (Hsf Hc) as [Ha Hb].
    assert (Hfin : ∀ x, x ∈ finished (Analyzer.mkSearch (Analyzer.visited s_f)
                                         (Analyzer.rec_stack s_f ∖ {[node]})
                                         (Analyzer.cycles s_f))
                        ↔ x = node ∨ x ∈ finished s_f).
    { intros x. unfold finished. cbn. rewrite Hstack, Hrf. unfold stack.
      rewrite !elem_of_difference, elem_of_union, elem_of_singleton. split.
      - intros [Hx Hn]. destruct (decide (x = node)) as [->|Hne]; [by left |].
        right. split; [exact Hx |]. intros [->|Hr]; done.
      - intros [->|[Hx Hn]]; [by split |]. split; [exact Hx |].
        intros Hr. apply Hn. by right. }
    assert (Hnb : ∀ v, edge node v → v ∈ finished s_f).
    { intros v Hv'. destruct (Hall v Hv') as [Hvis Hns]. unfold finished.
      apply elem_of_difference. split; [exact Hvis | by rewrite Hrf]. }
    assert (Hnf : node ∉ finished s_f).
    { unfold finished. rewrite Hrf. intros [_ Hn]%elem_of_difference. apply Hn.
      apply elem_of_union. left. by apply elem_of_singleton. }
    split.
    + intros u v Hu Huv. apply Hfin. right. apply Hfin in Hu as [->|Hu];
        [by apply Hnb | by apply (Ha u)].
    + intros u Hu Hloop'. apply Hfin in Hu as [->|Hu]; [| by apply (Hb u)].
      apply Hnf. inversion Hloop' as [? ? Hstep|? v ? Hstep Hrest]; subst.
      * by apply Hnb.
      * apply (closed_under_edges (finished s_f) v node Ha); [by apply Hnb |].
        by apply tc_rtc.
  - cbn. intros x Hx. apply Hvf. apply elem_of_union. by right.
  - intros Hc. cbn in Hc. destruct (Hcf Hc) as [Hci _]. by split.
Qed.

Lemma find_from_complete (depth : nat) (todo : list string) :
  ∀ st st',
    Analyzer.find_from depth graph todo st = Py.Ret st' →
    settled st → Analyzer.rec_stack st = ∅ →
    settled st'
    ∧ Analyzer.rec_stack st' = ∅
    ∧ Analyzer.visited st ⊆ Analyzer.visited st'
    ∧ ∀ x, In x todo → x ∈ Analyzer.visited st'.
Proof.
  induction todo as [|node todo IH]; intros st st'; cbn [Analyzer.find_from].
  { intros E Hs Hr. injection E as <-.
    split; [exact Hs |]. split; [exact Hr |]. split; [done |]. by intros x []. }
  destruct (bool_decide (node ∈ Analyzer.visited st)) eqn:Hv.
  - apply bool_decide_eq_true in Hv. intros E Hs Hr.
    destruct (IH st st' E Hs Hr) as (Hs' & Hr' & Hv' & Hall).
    split; [exact Hs' |]. split; [exact Hr' |]. split; [exact Hv' |].
    intros x [<-|Hx]; [by apply Hv' | by apply Hall].
  - destruct (Analyzer.dfs depth graph node [node] st) as [st1|ex] eqn:E1; [| discriminate].
    cbn. intros E Hs Hr.
    destruct (dfs_complete depth _ _ _ _ E1 Hs) as (Hs1 & Hv1 & Hr1 & Hn1 & _).
    { rewrite Hr. apply empty_subseteq. }
    destruct (IH st1 st' E Hs1) as (Hs' & Hr' & Hv' & Hall); [congruence |].
    split; [exact Hs' |]. split; [exact Hr' |]. split; [by etrans |].
    intros x [<-|Hx]; [by apply Hv' | by apply Hall].
Qed.

(** [find_cycles] reports nothing exactly when no node comes back to itself
    along the edges of the graph. *)
Lemma find_cycles_empty_iff (depth : nat) (found : list (list string)) :
  Analyzer.find_cycles depth graph = Py.Ret found →
  found = [] ↔ ∀ x, ¬ tc edge x x.
Proof.
  unfold Analyzer.find_cycles. intros E.
  destruct (Analyzer.find_from depth graph _ _) as [st|ex] eqn:Erun; [| discriminate].
  cbn in E. injection E as <-. split.
  - intros Hc x Hx.
    destruct (find_from_complete depth _ _ _ Erun) as (Hs & Hr & _ & Hall).
    { intros _. split; [intros u v Hu | intros u Hu]; unfold finished in Hu; cbn in Hu;
        apply elem_of_difference in Hu as [Hu _]; by apply elem_of_empty in Hu. }
    { reflexivity. }
    destruct (Hs Hc) as [_ Hb]. apply (Hb x); [| exact Hx].
    unfold finished. rewrite Hr, difference_empty_L. apply Hall.
    assert (Hout : ∃ y, edge x y).
    { inversion Hx; subst; by eexists. }
    destruct Hout as [y Hy]. unfold edge, Analyzer.neighbors in Hy.
    destruct (Py.dict_get x graph) as [l|] eqn:El; [| destruct Hy].
    apply dict_get_In in El. apply List.in_map_iff. by exists (x, l).
  - intros Hnone.
    destruct (find_from_spec depth (List.map fst graph) (Analyzer.mkSearch ∅ ∅ []))
      as [_ Hpost]; [| reflexivity | constructor |].
    { intros x Hx. unfold nodes.
      apply elem_of_list_to_set, list_elem_of_In, List.in_or_app. by left. }
    specialize (Hpost st Erun). destruct (Analyzer.cycles st) as [|c cs]; [reflexivity |].
    inversion Hpost as [|? ? (node & mid & _ & Hw) _].
    destruct (Hnone node). by apply (walk_tc mid).
Qed.

End Search.

(** A list of modules in which each module is followed by one that the
    graph records as requiring it. *)
Fixpoint required_chain (dependencies : gmap string Analyzer.DependencyInfo)
    (l : list string) : Prop :=
  match l with
  | x :: (y :: _) as rest =>
      (∃ info, dependencies !! x = Some info ∧ y ∈ Analyzer.required_by info)
      ∧ required_chain dependencies rest
  | _ => True
  end.

(** The cycles [_detect_circular_dependencies] reports, whatever the order
    in which the interpreter iterates over the dict and over the sets.
    Every reported list starts at a module, follows [required_by] links
    back to that module, and then names that module once more: a cycle
    through n modules is reported with n + 2 entries.  The search returns
    whenever the interpreter allows more nested calls than the graph has
    modules; otherwise it may raise [RecursionError]. *)
Theorem reported_cycles_are_required_by_cycles
    (depth : nat)
    (items : gmap string Analyzer.DependencyInfo → list (string * Analyzer.DependencyInfo))
    (iteration : gset string → list string)
    (dependencies : gmap string Analyzer.DependencyInfo) :
  (∀ name info, In (name, info) (items dependencies) → dependencies !! name = Some info) →
  (∀ (X : gset string) x, In x (iteration X) → x ∈ X) →
  let graph :=
    List.map (fun ni => (fst ni, iteration (Analyzer.required_by (snd ni))))
      (items dependencies) in
  ((size (nodes graph) < depth)%nat →
   ∃ found, Analyzer._detect_circular_dependencies depth items iteration dependencies
            = Py.Ret found)
  ∧ (∀ found,
       Analyzer._detect_circular_dependencies depth items iteration dependencies
       = Py.Ret found →
       ∀ cycle, In cycle found →
         ∃ node mid, cycle = node :: mid ++ [node; node]
                     ∧ required_chain dependencies (node :: mid ++ [node])).
Proof.
  intros Hitems Hiter graph.
  unfold Analyzer._detect_circular_dependencies, Analyzer.find_cycles. fold graph.
  destruct (find_from_spec graph depth (List.map fst graph) (Analyzer.mkSearch ∅ ∅ []))
    as [Hret Hpost]; [| reflexivity | constructor |].
  { intros x Hx. unfold nodes. apply elem_of_list_to_set, list_elem_of_In, List.in_or_app.
    by left. }
  assert (Hchain : ∀ l, walk graph l → required_chain dependencies l).
  { induction l as [|x [|y l] IH]; cbn; try done. intros [Hy Hw]. split; [| by apply IH].
    unfold Analyzer.neighbors in Hy.
    destruct (Py.dict_get x graph) as [neighbours|] eqn:Eg; [| destruct Hy].
    apply dict_get_In in Eg. unfold graph in Eg.
    apply List.in_map_iff in Eg as ([name info] & E & Hin). cbn in E. injection E as -> <-.
    exists info. split; [by apply Hitems | by apply Hiter]. }
  assert (Hsound : ∀ found,
            (st ← Analyzer.find_from depth graph (List.map fst graph)
                    (Analyzer.mkSearch ∅ ∅ []); mret (Analyzer.cycles st)) = Py.Ret found →
            ∀ cycle, In cycle found →
              ∃ node mid, cycle = node :: mid ++ [node; node]
                          ∧ required_chain dependencies (node :: mid ++ [node])).
  { intros found E cycle Hc.
    destruct (Analyzer.find_from depth graph _ _) as [st|ex]; [| discriminate].
    cbn in E. injection E as <-. specialize (Hpost st eq_refl).
    rewrite List.Forall_forall in Hpost. destruct (Hpost cycle Hc) as (node & mid & -> & Hw).
    exists node, mid. split; [reflexivity | by apply Hchain]. }
  split.
  - intros Hsize. destruct (Hret Hsize) as [st E]. rewrite E. by eexists.
  - exact Hsound.
Qed.

(** The theorem at two modules that require each other, with the
    iteration orders of the finite maps and sets: the one cycle is reported
    as [a; b; a; a]. *)
Lemma reported_cycles_are_required_by_cycles_witness :
  let mutual : gmap string Analyzer.DependencyInfo :=
    {[ "a" := Analyzer.add_required_by "b" (Analyzer.DependencyInfo_new "a");
       "b" := Analyzer.add_required_by "a" (Analyzer.DependencyInfo_new "b") ]} in
  Analyzer._detect_circular_dependencies 3 map_to_list elements mutual
  = Py.Ret [["a"; "b"; "a"; "a"]]
  ∧ ∃ node mid, ["a"; "b"; "a"; "a"] = node :: mid ++ [node; node]
                ∧ required_chain mutual (node :: mid ++ [node]).
Proof.
  intros mutual.
  assert (E : Analyzer._detect_circular_dependencies 3 map_to_list elements mutual
              = Py.Ret [["a"; "b"; "a"; "a"]]) by (vm_compute; reflexivity).
  split; [exact E |].
  refine (proj2 (reported_cycles_are_required_by_cycles 3 map_to_list elements
                   mutual _ _) _ E _ (or_introl eq_refl)).
  - intros name info Hin. by apply elem_of_map_to_list, list_elem_of_In.
  - intros X x Hx. by apply elem_of_elements, list_elem_of_In.
Defined.

(** [x] is required by [y] according to the graph. *)
Definition requires (dependencies : gmap string Analyzer.DependencyInfo) (x y : string)
  : Prop :=
  ∃ info, dependencies !! x = Some info ∧ y ∈ Analyzer.required_by info.

Lemma dict_get_present `{EqDecision K} {B} (k : K) (b : B) (d : list (K * B)) :
  In (k, b) d → ∃ b', Py.dict_get k d = Some b'.
Proof.
  induction d as [|[k' b'] d IH]; cbn; [intros [] |].
  destruct (decide (k' = k)) as [->|Hne]; [intros _; by eexists |].
  intros [E|Hin]; [injection E as -> _; done | by apply IH].
Qed.

(** The detection is exact on the question whether there is a cycle: when
    [_detect_circular_dependencies] returns, its list is empty exactly when
    no module is required by itself through a chain of [required_by]
    links, whatever the order of iteration over the dict and the sets. *)
Theorem cycles_reported_iff_present
    (depth : nat)
    (items : gmap string Analyzer.DependencyInfo → list (string * Analyzer.DependencyInfo))
    (iteration : gset string → list string)
    (dependencies : gmap string Analyzer.DependencyInfo) (found : list (list string)) :
  (∀ name info, In (name, info) (items dependencies) ↔ dependencies !! name = Some info) →
  (∀ (X : gset string) x, In x (iteration X) ↔ x ∈ X) →
  Analyzer._detect_circular_dependencies depth items iteration dependencies = Py.Ret found →
  found = [] ↔ ∀ x, ¬ tc (requires dependencies) x x.
Proof.
  intros Hitems Hiter. unfold Analyzer._detect_circular_dependencies.
  set (graph := List.map _ (items dependencies)). intros E.
  assert (Hedge : ∀ x y, edge graph x y ↔ requires dependencies x y).
  { intros x y. unfold edge, requires, Analyzer.neighbors. split.
    - intros Hy. destruct (Py.dict_get x graph) as [l|] eqn:Eg; [| destruct Hy].
      apply dict_get_In in Eg. unfold graph in Eg.
      apply List.in_map_iff in Eg as ([name info] & Ei & Hin). cbn in Ei.
      injection Ei as -> <-. exists info. split; [by apply Hitems | by apply Hiter].
    - intros (info & Hx & Hy).
      assert (Hin : In (x, iteration (Analyzer.required_by info)) graph).
      { unfold graph. apply List.in_map_iff. exists (x, info). split; [reflexivity |].
        by apply Hitems. }
      destruct (dict_get_present _ _ _ Hin) as [l El]. rewrite El.
      apply dict_get_In in El. unfold graph in El.
      apply List.in_map_iff in El as ([name info'] & Ei & Hin'). cbn in Ei.
      injection Ei as -> <-. apply Hitems in Hin'. rewrite Hx in Hin'.
      injection Hin' as <-. by apply Hiter. }
  rewrite (find_cycles_empty_iff graph depth found E).
  split; intros Hnone x Hx; apply (Hnone x).
  - apply (tc_congruence (R := requires dependencies) (fun z => z) (edge graph));
      [| exact Hx].
    intros a b. apply Hedge.
  - apply (tc_congruence (R := edge graph) (fun z => z) (requires dependencies));
      [| exact Hx].
    intros a b. apply Hedge.
Qed.

(** The theorem at two modules that require each other: a cycle is
    present, and the list is not empty. *)
Lemma cycles_reported_iff_present_witness :
  let mutual : gmap string Analyzer.DependencyInfo :=
    {[ "a" := Analyzer.add_required_by "b" (Analyzer.DependencyInfo_new "a");
       "b" := Analyzer.add_required_by "a" (Analyzer.DependencyInfo_new "b") ]} in
  [["a"; "b"; "a"; "a"]] = [] ↔ ∀ x, ¬ tc (requires mutual) x x.
Proof.
  intros mutual.
  apply (cycles_reported_iff_present 3 map_to_list elements mutual).
  - intros name info. rewrite <- list_elem_of_In. apply elem_of_map_to_list.
  - intros X x. rewrite <- list_elem_of_In. apply elem_of_elements.
  - vm_compute. reflexivity.
Defined.

(** ** Backups of FileUtils *)

Lemma append_cons (c : ascii) (s t : string) : String c s +:+ t = String c (s +:+ t).
Proof. reflexivity. Qed.

(** [.backup] does not start inside a path and end in a [.backup] put
    after it: an occurrence that starts in the path lies in the path. *)
Lemma backup_suffix_starts_no_occurrence (p : string) :
  p ≠ "" → String.prefix ".backup" p = false →
  String.prefix ".backup" (p +:+ ".backup") = false.
Proof.
  intros Hne Hp. destruct p as [|? p]; [done |]. clear Hne.
  rewrite append_cons. cbn [String.prefix] in Hp |- *.
  destruct (Ascii.ascii_dec _ _); [| reflexivity].
  do 6 (destruct p as [|? p]; [vm_compute; reflexivity |];
        rewrite append_cons; cbn [String.prefix] in Hp |- *;
        destruct (Ascii.ascii_dec _ _); [| reflexivity]).
  destruct p; discriminate.
Qed.

(** Removing [.backup] from a path with [.backup] put after it gives the
    path back when the path holds no [.backup] itself. *)
Lemma replace_backup_suffix (p : string) :
  Py.contains ".backup" p = false →
  Py.replace ".backup" "" (p +:+ ".backup") = p.
Proof.
  unfold Py.replace. induction p as [|c p IH]; [reflexivity |].
  cbn [Py.contains]. intros H. apply orb_false_elim in H as [Hp Hc].
  rewrite append_cons. cbn [Py.replace_from].
  rewrite <- append_cons, backup_suffix_starts_no_occurrence by done.
  by rewrite IH.
Qed.

(** A backup made by [backup_file] is put back by [restore_backup] called
    with the backup path alone, provided the path of the file holds no
    [.backup] itself: the file has its saved bytes again, whatever happened
    to it in between, the backup is gone, and no other file changes.  (For
    a path that holds [.backup], the derived path is another one.) *)
Theorem backup_then_restore
    (f : Host.faults) (files later : Host.fs) (file_path : string) (data : list byte) :
  Py.contains ".backup" file_path = false →
  files !! file_path = Some data →
  Host.copy_refused f = false →
  Host.move_refused f = false →
  let backup := file_path +:+ ".backup" in
  later !! backup = Some data →
  FileUtils.backup_file f files file_path ".backup"
  = (Py.Ret backup, <[backup := data]> files)
  ∧ ∃ restored,
      FileUtils.restore_backup f later backup None = (true, restored)
      ∧ restored !! file_path = Some data
      ∧ restored !! backup = None
      ∧ ∀ q, q ≠ file_path → q ≠ backup → restored !! q = later !! q.
Proof.
  intros Hclean Hfile Hcopy Hmove backup Hlater. subst backup. split.
  - unfold FileUtils.backup_file, Host.copy2. by rewrite Hcopy, Hfile.
  - unfold FileUtils.restore_backup, Host.move.
    rewrite replace_backup_suffix by exact Hclean.
    rewrite Hmove, Hlater. eexists. split; [reflexivity |].
    split; [apply lookup_insert_eq |]. split.
    + rewrite lookup_insert_ne by apply suffixed_path_differs. apply lookup_delete_eq.
    + intros q Hq Hb. rewrite lookup_insert_ne by done. by rewrite lookup_delete_ne.
Qed.

(** The theorem at an artifact that is damaged after its backup was made;
    and, beside it, a path that holds [.backup]: its backup would be
    restored to another path. *)
Lemma backup_then_restore_witness :
  (∃ restored,
     FileUtils.restore_backup Host.no_faults
       (<["app.exe" := Scenario.damaged]>
          (<["app.exe.backup" := Scenario.artifact]> Scenario.artifact_files))
       "app.exe.backup" None = (true, restored)
     ∧ restored !! "app.exe" = Some Scenario.artifact)
  ∧ Py.replace ".backup" "" "my.backup.d/app.exe.backup" = "my.d/app.exe".
Proof.
  split; [| reflexivity].
  destruct (backup_then_restore Host.no_faults Scenario.artifact_files
              (<["app.exe" := Scenario.damaged]>
                 (<["app.exe.backup" := Scenario.artifact]> Scenario.artifact_files))
              "app.exe" Scenario.artifact)
    as [_ (restored & E & Hr & _)]; try reflexivity.
  exists restored. split; [exact E | exact Hr].
Defined.

(** ** The three stages and exceptions *)

Lemma CxFreeze_compile_returns
    (e : Compiler.env) (files : Host.fs) (options : Compiler.CompilationOptions) :
  ∃ r, fst (Compiler.CxFreeze_compile e files options) = Py.Ret r.
Proof.
  unfold Compiler.CxFreeze_compile.
  destruct (Host.open_wb _ _ _) as [files0|ex]; [| by eexists].
  destruct (Compiler.spawn e _ _ _) as [process after|ex after].
  - destruct (Host.returncode process =? 0).
    + destruct (Compiler.found after _) as [output_file|].
      * destruct (Host.getsize after output_file) as [size|ex];
          cbn [mbind Py.outcome_bind Py.bind mret Py.outcome_ret];
          (destruct (Host.exists_ after _); [destruct (Host.remove _ after _) |]);
          by eexists.
      * destruct (Host.exists_ after _); [destruct (Host.remove _ after _) |]; by eexists.
    + destruct (Host.exists_ after _); [destruct (Host.remove _ after _) |]; by eexists.
  - destruct (Host.exists_ after _); [destruct (Host.remove _ after _) |]; by eexists.
Qed.



(** A success of the obfuscator or of the bytecode encryptor names its one
    method. *)
Lemma protect_with_applied (e : Protection.env) (m : Protection.ObfuscationMethod)
    (one : string → Host.fs → Py.outcome string * Host.fs) (files files' : Host.fs)
    (source_path : string) (r : Protection.ProtectionResult) :
  Protection.protect_with e m one files source_path = (Py.Ret r, files') →
  Protection.success r = true → Protection.methods_applied r = [m].
Proof.
  unfold Protection.protect_with.
  destruct (Protection.protect_each _ _ _ _) as [[d|ex] files0]; intros E Hs;
    injection E as <- _; [reflexivity | discriminate].
Qed.

Lemma protect_loop_applied (e : Protection.env) (options : Protection.ProtectionOptions)
    (todo : list Protection.ObfuscationMethod) :
  Protection.pyarmor_path e = None →
  ∀ st files r files' called,
    Protection.protect_loop e (Protection._detect_protectors e) options todo st files
    = (Py.Ret r, files', called) →
    Protection.success r = true →
    Protection.methods_applied r = Protection.all_methods st ++ called.
Proof.
  intros Hno. induction todo as [|m todo IH]; intros st files r files' called;
    cbn [Protection.protect_loop].
  - intros E _. injection E as <- _ <-. cbn. by rewrite app_nil_r.
  - destruct (Py.dict_get m (Protection._detect_protectors e)) as [protector|] eqn:Em;
      [| apply IH].
    assert (Hone : ∀ files1 result,
              Protection.protect protector e files (Protection.current_path st) options
              = (Py.Ret result, files1) →
              Protection.success result = true →
              Protection.methods_applied result = [m]).
    { apply dict_get_In, detect_protectors_declared in Em as [[Eb|[Eb|[Eb|[]]]] Hav];
        injection Eb as <- <-; cbn in Hav |- *.
      - by rewrite Hno in Hav.
      - intros files1 result. apply protect_with_applied.
      - intros files1 result. unfold Protection.Bytecode_protect. rewrite Hav. cbn [negb].
        apply protect_with_applied. }
    destruct (Protection.protect protector e files (Protection.current_path st) options)
      as [[result|ex] files1]; [| discriminate].
    specialize (Hone files1 result eq_refl).
    destruct (Protection.success result) eqn:Hs.
    + destruct (Protection.protect_loop e _ options todo _ files1)
        as [[r1 files2] called1] eqn:Erest.
      intros E Hr. injection E as -> <- <-.
      rewrite (IH _ _ _ _ _ Erest Hr). cbn [Protection.all_methods].
      rewrite Hone by reflexivity. by rewrite <- app_assoc.
    + intros E Hr. injection E as <- _ _. congruence.
Qed.


